(** * UpSound: link extraction and metadata formatting

    A shallow embedding of the pure core of the two bot variants
    ([main.py] and [new_main.py]): [extract_track_id], [format_duration],
    the provider-side dictionary builders and the two formatters. *)

From Stdlib Require Import List NArith ZArith Bool Lia String Ascii.
From Stdlib Require Import DecimalString DecimalZ DecimalPos DecimalFacts.
Import ListNotations.

Set Implicit Arguments.

(** ** Python strings

    A Python [str] is a sequence of Unicode code points.  Literals are
    written as in the source and decoded from the UTF-8 bytes of the
    Rocq string. *)

Definition str := list N.

Fixpoint utf8_decode (bs : list N) : str :=
  match bs with
  | [] => []
  | b :: t =>
    if (b <? 128)%N then b :: utf8_decode t
    else if (b <? 224)%N then
      match t with
      | b1 :: t1 =>
        N.lor (N.shiftl (N.land b 31) 6) (N.land b1 63) :: utf8_decode t1
      | _ => []
      end
    else if (b <? 240)%N then
      match t with
      | b1 :: b2 :: t2 =>
        N.lor (N.shiftl (N.land b 15) 12)
          (N.lor (N.shiftl (N.land b1 63) 6) (N.land b2 63)) :: utf8_decode t2
      | _ => []
      end
    else
      match t with
      | b1 :: b2 :: b3 :: t3 =>
        N.lor (N.shiftl (N.land b 7) 18)
          (N.lor (N.shiftl (N.land b1 63) 12)
             (N.lor (N.shiftl (N.land b2 63) 6) (N.land b3 63))) :: utf8_decode t3
      | _ => []
      end
  end.

Definition py (s : string) : str :=
  utf8_decode (List.map N_of_ascii (list_ascii_of_string s)).

(** The newline character, ["\n"] in the source. *)
Definition nl : str := [10%N].

Fixpoint str_eqb (a b : str) : bool :=
  match a, b with
  | [], [] => true
  | x :: a', y :: b' => N.eqb x y && str_eqb a' b'
  | _, _ => false
  end.

(** ** Regular expressions: the fragment of [re] the patterns use

    Literal characters, [\d], greedy [+] on a single-character atom,
    concatenation and one capturing group.  The matcher is a backtracking
    one: it lists the successful continuations in the order the engine
    tries them, so the head of the list is the match [re] reports. *)

Inductive cclass :=
| Lit (c : N)      (* a literal character, also an escaped one as in \? *)
| Dec.             (* \d *)

Inductive regex :=
| One (a : cclass)
| Many1 (a : cclass)          (* a+ *)
| Cat (r1 r2 : regex)
| Group (r : regex).          (* ( ... ), group 1 *)

Record mstate := MState { rest : str; group1 : option str }.

Section Regex.

(** [\d] on a [str] pattern matches every character of Unicode category
    Nd.  Below 128 these are '0'..'9'; the rest of the table belongs to
    the interpreter and is left open. *)
Variable nonascii_decimal : N -> bool.

Definition is_decimal (c : N) : bool :=
  if (c <? 128)%N then (48 <=? c)%N && (c <=? 57)%N else nonascii_decimal c.

Definition accepts (a : cclass) (c : N) : bool :=
  match a with
  | Lit x => N.eqb c x
  | Dec => is_decimal c
  end.

(** The remainders after one or more [a], longest run first. *)
Fixpoint many1 (a : cclass) (s : str) : list str :=
  match s with
  | c :: t => if accepts a c then many1 a t ++ [t] else []
  | [] => []
  end.

Fixpoint run (r : regex) (st : mstate) : list mstate :=
  match r with
  | One a =>
    match rest st with
    | c :: t => if accepts a c then [MState t (group1 st)] else []
    | [] => []
    end
  | Many1 a => List.map (fun t => MState t (group1 st)) (many1 a (rest st))
  | Cat r1 r2 => flat_map (run r2) (run r1 st)
  | Group r1 =>
    List.map
      (fun st' =>
         MState (rest st')
           (Some (firstn (List.length (rest st) - List.length (rest st')) (rest st))))
      (run r1 st)
  end.

(** [pattern.match] at one position. *)
Definition match_at (r : regex) (s : str) : option mstate :=
  hd_error (run r (MState s None)).

(** [re.search]: the leftmost position with a match. *)
Fixpoint search (r : regex) (s : str) : option mstate :=
  match match_at r s with
  | Some m => Some m
  | None =>
    match s with
    | [] => None
    | _ :: t => search r t
    end
  end.

Fixpoint lit (cs : str) (k : regex) : regex :=
  match cs with
  | [] => k
  | c :: t => Cat (One (Lit c)) (lit t k)
  end.

Definition digits_group : regex := Group (Many1 Dec).

(** r'track/(\d+)' *)
Definition track_pattern : regex :=
  Eval cbv in lit (py "track/") digits_group.

(** r'album/\d+/track/(\d+)' *)
Definition album_pattern : regex :=
  Eval cbv in
    lit (py "album/") (Cat (Many1 Dec) (lit (py "/track/") digits_group)).

(** r'playlists/\d+/\d+\?trackId=(\d+)' *)
Definition playlist_pattern : regex :=
  Eval cbv in
    lit (py "playlists/")
      (Cat (Many1 Dec)
         (lit (py "/")
            (Cat (Many1 Dec) (lit (py "?trackId=") digits_group)))).

Definition patterns : list regex :=
  [track_pattern; album_pattern; playlist_pattern].

(** The loop of [extract_track_id]: the first pattern that matches
    decides, and the function returns its [match.group(1)]. *)
Fixpoint first_match (ps : list regex) (url : str) : option str :=
  match ps with
  | [] => None
  | pattern :: ps' =>
    match search pattern url with
    | Some m => group1 m
    | None => first_match ps' url
    end
  end.

Definition extract_track_id (url : str) : option str :=
  first_match patterns url.

(** The same function with the album-qualified pattern taken out of the
    list. *)
Definition extract_track_id_without_album (url : str) : option str :=
  first_match [track_pattern; playlist_pattern] url.

End Regex.

(** Does [r] match at one of the first [n] positions of [s]? *)
Fixpoint match_before (nd : N -> bool) (r : regex) (n : nat) (s : str) : bool :=
  match n with
  | O => false
  | S n' =>
    match match_at nd r s with
    | Some _ => true
    | None =>
      match s with
      | [] => false
      | _ :: t => match_before nd r n' t
      end
    end
  end.

Definition starts_with_decimal (nd : N -> bool) (s : str) : bool :=
  match s with
  | c :: _ => is_decimal nd c
  | [] => false
  end.

(** Patterns whose last item is the group [(\d+)]. *)
Fixpoint ends_in_digits_group (r : regex) : bool :=
  match r with
  | Cat _ r2 => ends_in_digits_group r2
  | Group (Many1 Dec) => true
  | _ => false
  end.

(** The three link shapes of the specification. *)
Definition track_shape : str := py "track/123456".
Definition album_shape : str := py "album/1/track/123456".
Definition playlist_shape : str := py "playlists/1/2?trackId=123456".

(** The Unicode table restricted to ASCII: no decimal digit above 127. *)
Definition ascii_only : N -> bool := fun _ => false.

(** ** Python values

    The dictionaries the two variants pass around hold strings, numbers,
    booleans, [None], lists and nested dictionaries.  A dictionary keeps
    its insertion order, so it is an association list with one entry per
    key. *)

#[warnings="-register-all"]
Inductive value :=
| VNone
| VBool (b : bool)
| VInt (z : Z)
| VStr (s : str)
| VList (l : list value)
| VDict (d : list (str * value)).

Definition dict := list (str * value).

Inductive exn :=
| KeyError (key : str)
| TypeError
| IndexError
| AttributeError
| OverflowError
| LibraryError (msg : str).

Inductive result (A : Type) :=
| Ok (a : A)
| Raise (e : exn).

Arguments Ok {A} a.
Arguments Raise {A} e.

Definition bind {A B} (m : result A) (f : A -> result B) : result B :=
  match m with
  | Ok a => f a
  | Raise e => Raise e
  end.

Declare Scope py_scope.
Delimit Scope py_scope with py.
Notation "x <- m ;; k" := (bind m (fun x => k))
  (at level 61, m at next level, right associativity) : py_scope.
Open Scope py_scope.

(** [d.get(k)] as an option, [k in d], [d[k]], [d.get(k, default)] and
    [d[k] = v]. *)
Fixpoint dict_get (d : dict) (k : str) : option value :=
  match d with
  | [] => None
  | (k', v) :: d' => if str_eqb k' k then Some v else dict_get d' k
  end.

Definition dict_has (d : dict) (k : str) : bool :=
  match dict_get d k with
  | Some _ => true
  | None => false
  end.

Definition dict_getitem (d : dict) (k : str) : result value :=
  match dict_get d k with
  | Some v => Ok v
  | None => Raise (KeyError k)
  end.

Definition dict_get_default (d : dict) (k : str) (default : value) : value :=
  match dict_get d k with
  | Some v => v
  | None => default
  end.

Fixpoint dict_set (d : dict) (k : str) (v : value) : dict :=
  match d with
  | [] => [(k, v)]
  | (k', v') :: d' =>
    if str_eqb k' k then (k', v) :: d' else (k', v') :: dict_set d' k v
  end.

(** Truth value of an object, as [if x:] tests it. *)
Definition truthy (v : value) : bool :=
  match v with
  | VNone => false
  | VBool b => b
  | VInt z => negb (z =? 0)%Z
  | VStr s => match s with [] => false | _ => true end
  | VList l => match l with [] => false | _ => true end
  | VDict d => match d with [] => false | _ => true end
  end.

(** [v == s] for a string literal [s]. *)
Definition eq_str (v : value) (s : str) : bool :=
  match v with
  | VStr s' => str_eqb s' s
  | _ => false
  end.

(** [str(n)] for an integer. *)
Definition str_of_int (z : Z) : str :=
  py (NilZero.string_of_int (Z.to_int z)).

(** [sub in s] for two strings. *)
Fixpoint starts_with (sub s : str) : bool :=
  match sub, s with
  | [], _ => true
  | x :: sub', y :: s' => N.eqb x y && starts_with sub' s'
  | _ :: _, [] => false
  end.

Fixpoint str_contains (sub s : str) : bool :=
  starts_with sub s ||
  match s with
  | [] => false
  | _ :: t => str_contains sub t
  end.

(** [sep.join(parts)]. *)
Fixpoint join (sep : str) (parts : list str) : str :=
  match parts with
  | [] => []
  | [x] => x
  | x :: rest => x ++ sep ++ join sep rest
  end.

(** [s.split(sep)] for a one-character separator. *)
Fixpoint split (sep : N) (s : str) : list str :=
  match s with
  | [] => [[]]
  | c :: t =>
    if N.eqb c sep then [] :: split sep t
    else
      match split sep t with
      | h :: r => (c :: h) :: r
      | [] => [[c]]
      end
  end.

(** Operations on an object of unknown type: each raises what the
    interpreter raises when the object does not support it. *)

(** [v[k]] for a string key. *)
Definition py_getitem (v : value) (k : str) : result value :=
  match v with
  | VDict d => dict_getitem d k
  | _ => Raise TypeError
  end.

(** [v.get(k)]. *)
Definition py_get (v : value) (k : str) : result value :=
  match v with
  | VDict d => Ok (dict_get_default d k VNone)
  | _ => Raise AttributeError
  end.

(** [k in v]. *)
Definition py_contains (k : str) (v : value) : result bool :=
  match v with
  | VDict d => Ok (dict_has d k)
  | VList l => Ok (existsb (fun x => eq_str x k) l)
  | VStr s => Ok (str_contains k s)
  | _ => Raise TypeError
  end.

(** [for x in v]: the elements visited. *)
Definition py_iter (v : value) : result (list value) :=
  match v with
  | VList l => Ok l
  | VStr s => Ok (List.map (fun c => VStr [c]) s)
  | VDict d => Ok (List.map (fun kv => VStr (fst kv)) d)
  | _ => Raise TypeError
  end.

(** [v[:n]]. *)
Definition py_slice_to (n : nat) (v : value) : result value :=
  match v with
  | VList l => Ok (VList (firstn n l))
  | VStr s => Ok (VStr (firstn n s))
  | _ => Raise TypeError
  end.

Fixpoint all_str (l : list value) : result (list str) :=
  match l with
  | [] => Ok []
  | VStr s :: t => r <- all_str t ;; Ok (s :: r)
  | _ :: _ => Raise TypeError
  end.

(** [sep.join(v)]. *)
Definition py_join (sep : str) (v : value) : result str :=
  items <- py_iter v ;;
  parts <- all_str items ;;
  Ok (join sep parts).

(** ** format_duration (both variants) *)

(** [f"{n:02d}"]: zero padding to width 2, after the sign. *)
Definition format_02d (z : Z) : str :=
  let sign := if (z <? 0)%Z then py "-" else [] in
  let ds := str_of_int (Z.abs z) in
  sign ++ repeat 48%N (2 - List.length sign - List.length ds) ++ ds.

Definition format_duration (seconds : Z) : str :=
  let minutes := (seconds / 60)%Z in
  let seconds := (seconds mod 60)%Z in
  str_of_int minutes ++ py ":" ++ format_02d seconds.

(** ** The formatters of [new_main.py] *)

Fixpoint for_each {A} (body : str -> A -> result str) (items : list A)
  (text : str) : result str :=
  match items with
  | [] => Ok text
  | x :: t => text <- body text x ;; for_each body t text
  end.

(** [enumerate(items, start)]. *)
Fixpoint enumerate {A} (start : Z) (items : list A) : list (Z * A) :=
  match items with
  | [] => []
  | x :: t => (start, x) :: enumerate (start + 1) t
  end.

Definition mark (b : bool) : str := if b then py "✅" else py "❌".

Section Runtime.

(** [repr] of the interpreter; [str] of a list or of a dictionary is its
    [repr]. *)
Variable repr : value -> str.

(** What an f-string puts in place of [{v}]. *)
Definition py_str (v : value) : str :=
  match v with
  | VNone => py "None"
  | VBool true => py "True"
  | VBool false => py "False"
  | VInt z => str_of_int z
  | VStr s => s
  | VList _ | VDict _ => repr v
  end.

Definition format_basic_info (info : dict) : result str :=
  if dict_has info (py "error") then
    e <- dict_getitem info (py "error") ;;
    Ok (py "❌ " ++ py_str e)
  else
    title <- dict_getitem info (py "title") ;;
    let text := py "🎵 <b>" ++ py_str title ++ py "</b>" ++ nl in
    artists <- dict_getitem info (py "artists") ;;
    let text := text ++ py "👤 <b>Исполнитель:</b> " ++ py_str artists ++ nl in
    duration <- dict_getitem info (py "duration") ;;
    let text := text ++ py "⏱ <b>Длительность:</b> " ++ py_str duration ++ nl in
    Ok text.

(** The title line and the block "Основная информация". *)
Definition basic_block (info : dict) : result str :=
  title <- dict_getitem info (py "title") ;;
  let text := py "🎵 <b>" ++ py_str title ++ py "</b>" ++ nl ++ nl in
  let text := text ++ py "📋 <b>Основная информация:</b>" ++ nl in
  artists <- dict_getitem info (py "artists") ;;
  let text := text ++ py "   👤 <b>Исполнитель:</b> " ++ py_str artists ++ nl in
  album <- dict_getitem info (py "album") ;;
  let text := text ++ py "   💿 <b>Альбом:</b> " ++ py_str album ++ nl in
  year <- dict_getitem info (py "year") ;;
  let text := text ++ py "   📅 <b>Год:</b> " ++ py_str year ++ nl in
  duration <- dict_getitem info (py "duration") ;;
  let text := text ++ py "   ⏱ <b>Длительность:</b> " ++ py_str duration ++ nl in
  genre <- dict_getitem info (py "genre") ;;
  let text := text ++ py "   🎭 <b>Жанр:</b> " ++ py_str genre ++ nl ++ nl in
  Ok text.

(** The body of the loop over [info['artists_detailed']]. *)
Definition artist_lines (text : str) (artist : value) : result str :=
  name <- py_getitem artist (py "name") ;;
  let text := text ++ py "   • <b>" ++ py_str name ++ py "</b>" ++ nl in
  has_genres <- py_contains (py "genres") artist ;;
  text <-
    (if has_genres then
       genres <- py_getitem artist (py "genres") ;;
       if truthy genres then
         joined <- py_join (py ", ") genres ;;
         Ok (text ++ py "     Жанры: " ++ joined ++ nl)
       else Ok text
     else Ok text) ;;
  has_tracks <- py_contains (py "tracks_count") artist ;;
  text <-
    (if has_tracks then
       n <- py_getitem artist (py "tracks_count") ;;
       Ok (text ++ py "     Треков: " ++ py_str n ++ nl)
     else Ok text) ;;
  has_albums <- py_contains (py "albums_count") artist ;;
  if has_albums then
    n <- py_getitem artist (py "albums_count") ;;
    Ok (text ++ py "     Альбомов: " ++ py_str n ++ nl)
  else Ok text.

Definition artists_block (info : dict) (text : str) : result str :=
  if dict_has info (py "artists_detailed") then
    let text := text ++ py "👥 <b>Детали об исполнителях:</b>" ++ nl in
    detailed <- dict_getitem info (py "artists_detailed") ;;
    items <- py_iter detailed ;;
    text <- for_each artist_lines items text ;;
    Ok (text ++ nl)
  else Ok text.

Definition album_block (info : dict) (text : str) : result str :=
  if dict_has info (py "album_tracks_count") then
    let text := text ++ py "💿 <b>Информация об альбоме:</b>" ++ nl in
    count <- dict_getitem info (py "album_tracks_count") ;;
    let text := text ++ py "   Всего треков: " ++ py_str count ++ nl in
    text <-
      (if dict_has info (py "album_release_date") then
         d <- dict_getitem info (py "album_release_date") ;;
         Ok (text ++ py "   Дата релиза: " ++ py_str d ++ nl)
       else Ok text) ;;
    text <-
      (if dict_has info (py "album_label") then
         l <- dict_getitem info (py "album_label") ;;
         Ok (text ++ py "   Лейбл: " ++ py_str l ++ nl)
       else Ok text) ;;
    Ok (text ++ nl)
  else Ok text.

(** One of the optional lines of the technical block:
    [if info.get(key): text += f"   label: {info[key]}\n"]. *)
Definition optional_line (info : dict) (key label : str) (text : str)
  : result str :=
  if truthy (dict_get_default info key VNone) then
    v <- dict_getitem info key ;;
    Ok (text ++ label ++ py_str v ++ nl)
  else Ok text.

Definition technical_block (info : dict) (text : str) : result str :=
  let text := text ++ py "🔧 <b>Техническая информация:</b>" ++ nl in
  available <- dict_getitem info (py "available") ;;
  let text := text ++ py "   Доступен: " ++ mark (truthy available) ++ nl in
  let text := text ++ py "   Для премиум: "
    ++ mark (truthy (dict_get_default info (py "available_for_premium_users")
                       (VBool true))) ++ nl in
  let text := text ++ py "   Текст песни: "
    ++ mark (truthy (dict_get_default info (py "lyrics_available")
                       (VBool false))) ++ nl in
  let text := text ++ py "   Размер файла: "
    ++ py_str (dict_get_default info (py "file_size") (VStr (py "Неизвестно")))
    ++ nl in
  let text := text ++ py "   Явный контент: "
    ++ mark (truthy (dict_get_default info (py "explicit") (VBool false)))
    ++ nl in
  text <- optional_line info (py "version") (py "   Версия: ") text ;;
  text <- optional_line info (py "content_warning")
            (py "   Предупреждение: ") text ;;
  text <- optional_line info (py "major") (py "   Лейбл: ") text ;;
  Ok (text ++ py "   Номер трека в альбоме: "
        ++ py_str (dict_get_default info (py "track_number") (VInt 0))
        ++ nl ++ nl).

(** The body of the loop over [enumerate(info['similar_tracks'][:3], 1)]. *)
Definition similar_line (text : str) (item : Z * value) : result str :=
  let (i, similar) := item in
  title <- py_getitem similar (py "title") ;;
  artists <- py_getitem similar (py "artists") ;;
  Ok (text ++ py "   " ++ str_of_int i ++ py ". " ++ py_str title
        ++ py " - " ++ py_str artists ++ nl).

Definition similar_block (info : dict) (text : str) : result str :=
  if truthy (dict_get_default info (py "similar_tracks") VNone) then
    let text := text ++ py "🎶 <b>Похожие треки:</b>" ++ nl in
    similar_tracks <- dict_getitem info (py "similar_tracks") ;;
    first3 <- py_slice_to 3 similar_tracks ;;
    items <- py_iter first3 ;;
    text <- for_each similar_line (enumerate 1 items) text ;;
    Ok (text ++ nl)
  else Ok text.

Definition progress_emoji (progress : value) : str :=
  if eq_str progress (py "up") then py "🔺"
  else if eq_str progress (py "down") then py "🔻"
  else if eq_str progress (py "new") then py "🆕"
  else [].

(** The body of the loop over [info['chart_positions']]. *)
Definition chart_line (text : str) (pos : value) : result str :=
  progress <- py_getitem pos (py "progress") ;;
  let emoji := progress_emoji progress in
  position <- py_getitem pos (py "position") ;;
  let text := text ++ py "   " ++ emoji ++ py " Позиция: " ++ py_str position in
  listeners <- py_get pos (py "listeners") ;;
  text <-
    (if truthy listeners then
       l <- py_getitem pos (py "listeners") ;;
       Ok (text ++ py " (👂 " ++ py_str l ++ py ")")
     else Ok text) ;;
  Ok (text ++ nl).

Definition chart_block (info : dict) (text : str) : result str :=
  if truthy (dict_get_default info (py "chart_positions") VNone) then
    let text := text ++ py "🏆 <b>Позиции в чартах:</b>" ++ nl in
    positions <- dict_getitem info (py "chart_positions") ;;
    items <- py_iter positions ;;
    for_each chart_line items text
  else Ok text.

Definition links_block (info : dict) (text : str) : result str :=
  cover_url <- dict_getitem info (py "cover_url") ;;
  text <-
    (if truthy cover_url then
       Ok (text ++ nl ++ py "🖼 <a href='" ++ py_str cover_url
             ++ py "'>Обложка альбома</a>")
     else Ok text) ;;
  track_id <- dict_getitem info (py "track_id") ;;
  Ok (text ++ nl ++ py "🎧 <a href='https://music.yandex.ru/track/"
        ++ py_str track_id ++ py "'>Слушать на Яндекс.Музыке</a>").

Definition format_extended_info (info : dict) : result str :=
  if dict_has info (py "error") then
    e <- dict_getitem info (py "error") ;;
    Ok (py "❌ " ++ py_str e)
  else
    text <- basic_block info ;;
    text <- artists_block info text ;;
    text <- album_block info text ;;
    text <- technical_block info text ;;
    text <- similar_block info text ;;
    text <- chart_block info text ;;
    links_block info text.

End Runtime.

(** ** The provider side of [new_main.py]

    The streaming-service client is an external collaborator: its calls
    are taken as parameters, acting on an abstract state of the outside
    world, and each may raise.  Its objects are records; an attribute the
    code probes with [hasattr] is an [option]. *)

Record Artist := {
  artist_name : value;
  artist_id : value
}.

Record Album := {
  album_title : value;
  album_year : option value;
  album_genre : option value;
  album_id : value
}.

Record Track := {
  track_title : value;
  track_id_attr : value;
  track_artists : list Artist;
  track_duration_ms : value;
  track_albums : list Album;
  track_get_cover_url : option (result value);
  track_available : option value;
  track_available_for_premium_users : option value;
  track_lyrics_available : option value;
  track_file_size : option value;
  track_version : option value;
  track_content_warning : option value;
  track_explicit : option value;
  track_track_number : option value;
  (* [None]: no attribute; [Some None]: a false value; [Some (Some n)]:
     an object whose [name] is [n] *)
  track_major : option (option value)
}.

Record AlbumWithTracks := {
  full_volumes : value;
  full_release_date : option value;
  full_label : option value;
  full_available : option value
}.

Record Counts := {
  counts_tracks : option value;
  counts_direct_albums : option value
}.

Record ArtistData := {
  (* the attribute holds [None] or a list of genre names *)
  data_genres : option (option (list str));
  data_counts : option Counts
}.

Record SimilarTracks := {
  (* the attribute holds [None] or a list of tracks *)
  similar_tracks_attr : option (option (list Track))
}.

Record ChartItem := {
  item_track_id : value;
  item_position : value;
  item_progress : value;
  item_listeners : value
}.

(** [l[0]] on a list. *)
Definition head {A} (l : list A) : result A :=
  match l with
  | x :: _ => Ok x
  | [] => Raise IndexError
  end.

(** [v[0]] and [len(v)] on an object of unknown type. *)
Definition py_index0 (v : value) : result value :=
  match v with
  | VList (x :: _) => Ok x
  | VList [] => Raise IndexError
  | VStr (c :: _) => Ok (VStr [c])
  | VStr [] => Raise IndexError
  | VDict _ => Raise (KeyError (py "0"))
  | _ => Raise TypeError
  end.

Definition py_len (v : value) : result Z :=
  match v with
  | VList l => Ok (Z.of_nat (List.length l))
  | VStr s => Ok (Z.of_nat (List.length s))
  | VDict d => Ok (Z.of_nat (List.length d))
  | _ => Raise TypeError
  end.

(** A number, as arithmetic takes it ([bool] is a subtype of [int]). *)
Definition as_int (v : value) : result Z :=
  match v with
  | VInt z => Ok z
  | VBool b => Ok (if b then 1 else 0)%Z
  | _ => Raise TypeError
  end.

Definition or_default (o : option value) (default : value) : value :=
  match o with
  | Some v => v
  | None => default
  end.

(** [", ".join(artist.name for artist in artists)]. *)
Definition join_names (artists : list Artist) : result str :=
  parts <- all_str (List.map artist_name artists) ;;
  Ok (join (py ", ") parts).

Definition genres_value (g : option (list str)) : value :=
  match g with
  | Some names => VList (List.map VStr names)
  | None => VNone
  end.

Section Provider.

(** [str(e)] for a caught exception. *)
Variable exn_message : exn -> str.
(** [f"{(n / 1024 / 1024):.2f}"]: floating-point division and rounding,
    left to the interpreter.  The division raises [OverflowError] when
    the integer is too large for a float. *)
Variable format_megabytes : Z -> result str.

Variable World : Type.

Definition M (A : Type) : Type := World -> result A * World.

Definition ret {A} (a : A) : M A := fun w => (Ok a, w).
Definition lift {A} (r : result A) : M A := fun w => (r, w).
Definition bindM {A B} (m : M A) (f : A -> M B) : M B :=
  fun w =>
    match m w with
    | (Ok a, w') => f a w'
    | (Raise e, w') => (Raise e, w')
    end.
(** [try: m  except Exception as e: handler e]. *)
Definition try_except {A} (m : M A) (handler : exn -> M A) : M A :=
  fun w =>
    match m w with
    | (Ok a, w') => (Ok a, w')
    | (Raise e, w') => handler e w'
    end.

Notation "x <~ m ;; k" := (bindM m (fun x => k))
  (at level 61, m at next level, right associativity).

(** [yandex_client.tracks(ids)], [.albums_with_tracks(album_id)],
    [.artists(artist_id)], [.tracks_similar(track_id)] and
    [.chart(name).chart.tracks]. *)
Variable client_tracks : list str -> M (list Track).
Variable client_albums_with_tracks : value -> M (option AlbumWithTracks).
Variable client_artists : value -> M (list ArtistData).
Variable client_tracks_similar : str -> M (option SimilarTracks).
Variable client_chart_tracks : str -> M (list ChartItem).

(** The dictionary literal of [get_basic_track_info], its values
    evaluated in the order written. *)
Definition basic_info_of (track : Track) (track_id : str) : result dict :=
  artists <- join_names (track_artists track) ;;
  ms <- as_int (track_duration_ms track) ;;
  let first_album := List.hd_error (track_albums track) in
  cover_url <-
    match track_get_cover_url track with
    | Some called => called
    | None => Ok VNone
    end ;;
  Ok [ (py "title", track_title track);
       (py "artists", VStr artists);
       (py "duration", VStr (format_duration (ms / 1000)));
       (py "album",
        match first_album with
        | Some a => album_title a
        | None => VStr (py "Неизвестный альбом")
        end);
       (py "year",
        match first_album with
        | Some a => or_default (album_year a) (VStr (py "Неизвестно"))
        | None => VStr (py "Неизвестно")
        end);
       (py "genre",
        match first_album with
        | Some a => or_default (album_genre a) (VStr (py "Не указан"))
        | None => VStr (py "Не указан")
        end);
       (py "cover_url", cover_url);
       (py "track_id", VStr track_id);
       (py "album_id",
        match first_album with
        | Some a => album_id a
        | None => VNone
        end) ].

Definition get_basic_track_info (track_id : str) : M dict :=
  try_except
    (tracks <~ client_tracks [track_id] ;;
     track <~ lift (head tracks) ;;
     lift (basic_info_of track track_id))
    (fun e =>
       ret [ (py "error",
              VStr (py "Ошибка при получении основной информации: "
                      ++ exn_message e)) ]).

(** The four album keys, set when the album lookup gives an album; a
    failure of the block leaves [info] as it was. *)
Definition album_details (album_id_arg : value) (info : dict) : M dict :=
  try_except
    (album <~ client_albums_with_tracks album_id_arg ;;
     match album with
     | Some album =>
       count <~ lift
         (if truthy (full_volumes album) then
            first <- py_index0 (full_volumes album) ;;
            n <- py_len first ;; Ok (VInt n)
          else Ok (VInt 0)) ;;
       let info := dict_set info (py "album_tracks_count") count in
       let info := dict_set info (py "album_release_date")
         (or_default (full_release_date album) (VStr (py "Неизвестно"))) in
       let info := dict_set info (py "album_label")
         (or_default (full_label album) (VStr (py "Не указан"))) in
       let info := dict_set info (py "album_available")
         (or_default (full_available album) (VBool true)) in
       ret info
     | None => ret info
     end)
    (fun _ => ret info).

Definition artist_entry (artist : Artist) : M value :=
  try_except
    (datas <~ client_artists (artist_id artist) ;;
     artist_data <~ lift (head datas) ;;
     ret (VDict
       [ (py "name", artist_name artist);
         (py "id", artist_id artist);
         (py "genres",
          match data_genres artist_data with
          | Some g => genres_value g
          | None => VList []
          end);
         (py "tracks_count",
          match data_counts artist_data with
          | Some c => or_default (counts_tracks c) (VStr (py "Неизвестно"))
          | None => VStr (py "Неизвестно")
          end);
         (py "albums_count",
          match data_counts artist_data with
          | Some c =>
            or_default (counts_direct_albums c) (VStr (py "Неизвестно"))
          | None => VStr (py "Неизвестно")
          end) ]))
    (fun _ =>
       ret (VDict [ (py "name", artist_name artist);
                    (py "id", artist_id artist) ])).

(** The loop over [track.artists], appending to [artists_info]. *)
Fixpoint artists_loop (artists : list Artist) (artists_info : list value)
  : M (list value) :=
  match artists with
  | [] => ret artists_info
  | artist :: t =>
    entry <~ artist_entry artist ;;
    artists_loop t (artists_info ++ [entry])
  end.

(** The list comprehension over [similar_tracks.similar_tracks[:5]]. *)
Fixpoint similar_entries (tracks : list Track) : result (list value) :=
  match tracks with
  | [] => Ok []
  | t :: tracks' =>
    artists <- join_names (track_artists t) ;;
    entries <- similar_entries tracks' ;;
    Ok (VDict [ (py "title", track_title t);
                (py "artists", VStr artists);
                (py "id", track_id_attr t) ] :: entries)
  end.

Definition similar_details (track_id : str) (info : dict) : M dict :=
  try_except
    (similar <~ client_tracks_similar track_id ;;
     match similar with
     | Some similar =>
       match similar_tracks_attr similar with
       | Some attr =>
         tracks <~ lift
           (match attr with
            | Some l => Ok (firstn 5 l)
            | None => Raise TypeError
            end) ;;
         entries <~ lift (similar_entries tracks) ;;
         ret (dict_set info (py "similar_tracks") (VList entries))
       | None => ret info
       end
     | None => ret info
     end)
    (fun _ => ret (dict_set info (py "similar_tracks") (VList []))).

(** The loop over [chart.tracks[:50]]. *)
Fixpoint chart_loop (track_id : str) (items : list ChartItem)
  (chart_positions : list value) : list value :=
  match items with
  | [] => chart_positions
  | chart_item :: t =>
    chart_loop track_id t
      (if eq_str (item_track_id chart_item) track_id then
         chart_positions ++
         [ VDict [ (py "position", item_position chart_item);
                   (py "progress", item_progress chart_item);
                   (py "listeners", item_listeners chart_item) ] ]
       else chart_positions)
  end.

Definition chart_details (track_id : str) (info : dict) : M dict :=
  try_except
    (items <~ client_chart_tracks (py "world") ;;
     let chart_positions := chart_loop track_id (firstn 50 items) [] in
     ret (dict_set info (py "chart_positions") (VList chart_positions)))
    (fun _ => ret (dict_set info (py "chart_positions") (VList []))).

(** The availability flags and the additional metadata. *)
Definition track_details (track : Track) (info : dict) : result dict :=
  let info := dict_set info (py "available")
    (or_default (track_available track) (VBool true)) in
  let info := dict_set info (py "available_for_premium_users")
    (or_default (track_available_for_premium_users track) (VBool true)) in
  let info := dict_set info (py "lyrics_available")
    (or_default (track_lyrics_available track) (VBool false)) in
  file_size <-
    match track_file_size track with
    | Some size =>
      n <- as_int size ;;
      megabytes <- format_megabytes n ;;
      Ok (VStr (megabytes ++ py " MB"))
    | None => Ok (VStr (py "Неизвестно"))
    end ;;
  let info := dict_set info (py "file_size") file_size in
  let info := dict_set info (py "version")
    (or_default (track_version track) VNone) in
  let info := dict_set info (py "content_warning")
    (or_default (track_content_warning track) VNone) in
  let info := dict_set info (py "explicit")
    (or_default (track_explicit track) (VBool false)) in
  let info := dict_set info (py "track_number")
    (or_default (track_track_number track) (VInt 0)) in
  let info := dict_set info (py "major")
    match track_major track with
    | Some (Some name) => name
    | _ => VNone
    end in
  Ok info.

Definition get_extended_track_info (track_id : str) (album_id_arg : value)
  : M dict :=
  try_except
    (tracks <~ client_tracks [track_id] ;;
     track <~ lift (head tracks) ;;
     info <~ get_basic_track_info track_id ;;
     if dict_has info (py "error") then ret info
     else
       info <~
         (if truthy album_id_arg
             && match track_albums track with [] => false | _ => true end
          then album_details album_id_arg info
          else ret info) ;;
       artists_info <~ artists_loop (track_artists track) [] ;;
       let info := dict_set info (py "artists_detailed") (VList artists_info) in
       info <~ similar_details track_id info ;;
       info <~ lift (track_details track info) ;;
       chart_details track_id info)
    (fun e =>
       ret [ (py "error",
              VStr (py "Ошибка при получении расширенной информации: "
                      ++ exn_message e)) ]).

End Provider.

(** ** The identifier lookup of [button_callback]

    [data] is [query.data] and [user_data] is [context.user_data]; the
    outcome says which branch of the handler runs, and with which
    identifier. *)

Inductive callback_outcome :=
| NoTrackId                       (* "не найден ID трека" *)
| Basic (track_id : value)
| Extended (track_id : value)
| NoReply (track_id : value).     (* neither 'basic' nor 'extended' *)

Definition callback_track_id (data : str) (user_data : dict) : value :=
  let data_parts := split 95%N data in
  match data_parts with
  | _ :: part1 :: _ => VStr part1
  | _ => dict_get_default user_data (py "track_id") VNone
  end.

Definition button_callback (data : str) (user_data : dict) : callback_outcome :=
  let data_parts := split 95%N data in
  let info_type := List.hd [] data_parts in
  let track_id := callback_track_id data user_data in
  if negb (truthy track_id) then NoTrackId
  else if str_eqb info_type (py "basic") then Basic track_id
  else if str_eqb info_type (py "extended") then Extended track_id
  else NoReply track_id.

(** ** Well-formed records and the text of the list sections

    What the formatters need of a record, and the text the two list
    sections are to show, written independently of the formatters. *)


(** The keys [format_basic_info] and [format_extended_info] index without
    a test. *)
Definition basic_keys : list str :=
  [py "title"; py "artists"; py "duration"].

Definition required_keys : list str :=
  [py "title"; py "artists"; py "album"; py "year"; py "duration";
   py "genre"; py "available"; py "cover_url"; py "track_id"].

Definition is_str (v : value) : bool :=
  match v with
  | VStr _ => true
  | _ => false
  end.

(** An entry of [artists_detailed]: a dictionary with a name whose genres,
    when there are any, are strings. *)
Definition wf_artist (v : value) : bool :=
  match v with
  | VDict d =>
    dict_has d (py "name") &&
    match dict_get d (py "genres") with
    | None => true
    | Some g =>
      negb (truthy g) ||
      match g with
      | VList l => forallb is_str l
      | _ => false
      end
    end
  | _ => false
  end.

Definition wf_similar (v : value) : bool :=
  match v with
  | VDict d => dict_has d (py "title") && dict_has d (py "artists")
  | _ => false
  end.

Definition wf_position (v : value) : bool :=
  match v with
  | VDict d => dict_has d (py "progress") && dict_has d (py "position")
  | _ => false
  end.

Definition wf_extended (info : dict) : bool :=
  forallb (dict_has info) required_keys &&
  match dict_get info (py "artists_detailed") with
  | None => true
  | Some (VList l) => forallb wf_artist l
  | Some _ => false
  end &&
  match dict_get info (py "similar_tracks") with
  | None => true
  | Some (VList l) => forallb wf_similar (firstn 3 l)
  | Some v => negb (truthy v)
  end &&
  match dict_get info (py "chart_positions") with
  | None => true
  | Some (VList l) => forallb wf_position l
  | Some v => negb (truthy v)
  end.

Section Rendering.

Variable repr : value -> str.

(** One numbered line of the similar-tracks section. *)
Definition similar_entry_text (item : Z * value) : str :=
  py "   " ++ str_of_int (fst item) ++ py ". "
  ++ py_str repr (dict_get_default
                    (match snd item with VDict d => d | _ => [] end)
                    (py "title") VNone)
  ++ py " - "
  ++ py_str repr (dict_get_default
                    (match snd item with VDict d => d | _ => [] end)
                    (py "artists") VNone)
  ++ nl.

(** The similar-tracks section for the list [l]: nothing for an empty
    list, else the header, the first three entries numbered from 1, and
    an empty line. *)
Definition similar_text (l : list value) : str :=
  match l with
  | [] => []
  | _ =>
    py "🎶 <b>Похожие треки:</b>" ++ nl
    ++ List.concat (List.map similar_entry_text (enumerate 1 (firstn 3 l)))
    ++ nl
  end.

Definition trend_marker (trend : value) : str :=
  match trend with
  | VStr s =>
    if str_eqb s (py "up") then py "🔺"
    else if str_eqb s (py "down") then py "🔻"
    else if str_eqb s (py "new") then py "🆕"
    else []
  | _ => []
  end.

(** One line of the chart section. *)
Definition position_text (pos : value) : str :=
  let d := match pos with VDict d => d | _ => [] end in
  py "   " ++ trend_marker (dict_get_default d (py "progress") VNone)
  ++ py " Позиция: " ++ py_str repr (dict_get_default d (py "position") VNone)
  ++ (if truthy (dict_get_default d (py "listeners") VNone) then
        py " (👂 "
        ++ py_str repr (dict_get_default d (py "listeners") VNone) ++ py ")"
      else [])
  ++ nl.

Definition chart_text (l : list value) : str :=
  match l with
  | [] => []
  | _ =>
    py "🏆 <b>Позиции в чартах:</b>" ++ nl
    ++ List.concat (List.map position_text l)
  end.

End Rendering.

(** The number of line breaks in a text. *)
Definition line_breaks (s : str) : nat :=
  List.length (List.filter (N.eqb 10%N) s).

(** The keys read by the blocks other than the two list sections. *)
Definition other_keys : list str :=
  required_keys ++
  [py "error"; py "artists_detailed"; py "album_tracks_count";
   py "album_release_date"; py "album_label";
   py "available_for_premium_users"; py "lyrics_available"; py "file_size";
   py "explicit"; py "version"; py "content_warning"; py "major";
   py "track_number"].

Definition same_on (keys : list str) (a b : dict) : Prop :=
  forall k, In k keys -> dict_get a k = dict_get b k.

(** An entry of [chart_positions] as [get_extended_track_info] builds
    it. *)
Definition chart_entry (position progress listeners : value) : value :=
  VDict [ (py "position", position);
          (py "progress", progress);
          (py "listeners", listeners) ].

Definition similar_entry (title artists : string) : value :=
  VDict [ (py "title", VStr (py title)); (py "artists", VStr (py artists));
          (py "id", VInt 7) ].

(** A record with every key the provider side sets, for the examples. *)
Definition sample_record : dict :=
  [ (py "title", VStr (py "Song"));
    (py "artists", VStr (py "A, B"));
    (py "duration", VStr (py "3:05"));
    (py "album", VStr (py "Album"));
    (py "year", VInt 2020);
    (py "genre", VStr (py "pop"));
    (py "cover_url", VNone);
    (py "track_id", VStr (py "42"));
    (py "album_id", VInt 5);
    (py "artists_detailed",
     VList [ VDict [ (py "name", VStr (py "A")); (py "id", VInt 1);
                     (py "genres", VList [VStr (py "pop"); VStr (py "rock")]);
                     (py "tracks_count", VInt 10);
                     (py "albums_count", VStr (py "Неизвестно")) ];
             VDict [ (py "name", VStr (py "B")); (py "id", VInt 2) ] ]);
    (py "similar_tracks",
     VList [ similar_entry "t1" "a1"; similar_entry "t2" "a2";
             similar_entry "t3" "a3"; similar_entry "t4" "a4";
             similar_entry "t5" "a5" ]);
    (py "available", VBool true);
    (py "available_for_premium_users", VBool true);
    (py "lyrics_available", VBool false);
    (py "file_size", VStr (py "3.20 MB"));
    (py "version", VNone);
    (py "content_warning", VNone);
    (py "explicit", VBool false);
    (py "track_number", VInt 0);
    (py "major", VNone);
    (py "chart_positions",
     VList [ chart_entry (VInt 10) (VStr (py "up")) (VInt 500) ]) ].

(** A [repr] for the examples; no example formats a list or a
    dictionary. *)
Definition no_repr : value -> str := fun _ => [].




Section Placeholders.

Variable repr : value -> str.






End Placeholders.

(** [sample_record] with other chart positions. *)
Definition with_chart (entries : list value) : dict :=
  dict_set sample_record (py "chart_positions") (VList entries).

(** ** Statements about the provider side *)

(** What holds of the value of a computation when it returns one. *)
Definition post {World A} (P : A -> Prop) (m : M World A) : Prop :=
  forall w,
    match fst (m w) with
    | Ok a => P a
    | Raise _ => True
    end.

(** The keys of the dictionary literal of [get_basic_track_info] among
    [required_keys]: all of them but ['available']. *)
Definition base_keys : list str :=
  [py "title"; py "artists"; py "album"; py "year"; py "duration";
   py "genre"; py "cover_url"; py "track_id"].

(** The three list fields of a record are well-shaped. *)
Definition wf_lists (info : dict) : bool :=
  match dict_get info (py "artists_detailed") with
  | None => true
  | Some (VList l) => forallb wf_artist l
  | Some _ => false
  end &&
  match dict_get info (py "similar_tracks") with
  | None => true
  | Some (VList l) => forallb wf_similar (firstn 3 l)
  | Some v => negb (truthy v)
  end &&
  match dict_get info (py "chart_positions") with
  | None => true
  | Some (VList l) => forallb wf_position l
  | Some v => negb (truthy v)
  end.

(** What [info[k] = v] must satisfy to keep the list fields
    well-shaped. *)
Definition entry_ok (k : str) (v : value) : bool :=
  if str_eqb k (py "artists_detailed") then
    match v with VList l => forallb wf_artist l | _ => false end
  else if str_eqb k (py "similar_tracks") then
    match v with VList l => forallb wf_similar l | _ => false end
  else if str_eqb k (py "chart_positions") then
    match v with VList l => forallb wf_position l | _ => false end
  else true.

(** A client for the examples: one track by two artists, in the chart,
    with two similar tracks; the artist lookup fails for the second
    artist. *)
Definition sample_artist (name : string) (id : Z) : Artist :=
  {| artist_name := VStr (py name); artist_id := VInt id |}.

Definition sample_track (title : string) (id : string) : Track :=
  {| track_title := VStr (py title);
     track_id_attr := VStr (py id);
     track_artists := [sample_artist "A" 1; sample_artist "B" 2];
     track_duration_ms := VInt 185000;
     track_albums :=
       [ {| album_title := VStr (py "Album"); album_year := Some (VInt 2020);
            album_genre := Some VNone; album_id := VInt 5 |} ];
     track_get_cover_url := Some (Ok (VStr (py "https://img/400x400")));
     track_available := Some (VBool true);
     track_available_for_premium_users := None;
     track_lyrics_available := Some (VBool false);
     track_file_size := None;
     track_version := Some VNone;
     track_content_warning := None;
     track_explicit := Some (VBool false);
     track_track_number := None;
     track_major := Some (Some (VStr (py "Label"))) |}.

Definition sample_tracks (ids : list str) : M unit (list Track) :=
  ret [sample_track "Song" "42"].

Definition sample_albums_with_tracks (album_id_arg : value)
  : M unit (option AlbumWithTracks) :=
  ret (Some {| full_volumes := VList [VList [VNone; VNone; VNone]];
               full_release_date := Some (VStr (py "2020-01-01"));
               full_label := None;
               full_available := Some (VBool true) |}).

Definition sample_artists (id : value) : M unit (list ArtistData) :=
  match id with
  | VInt 1 =>
    ret [ {| data_genres := Some (Some [py "pop"; py "rock"]);
             data_counts := Some {| counts_tracks := Some (VInt 10);
                                    counts_direct_albums := None |} |} ]
  | _ => lift (Raise (LibraryError (py "not found")))
  end.

Definition sample_tracks_similar (track_id : str)
  : M unit (option SimilarTracks) :=
  ret (Some {| similar_tracks_attr :=
                 Some (Some [sample_track "t1" "1"; sample_track "t2" "2"]) |}).

Definition sample_chart_tracks (name : str) : M unit (list ChartItem) :=
  ret [ {| item_track_id := VStr (py "42"); item_position := VInt 10;
           item_progress := VStr (py "up"); item_listeners := VInt 500 |} ].

Definition sample_extended : result dict * unit :=
  get_extended_track_info (fun _ => py "failure") (fun _ => Ok (py "0.00"))
    sample_tracks sample_albums_with_tracks sample_artists
    sample_tracks_similar sample_chart_tracks (py "42") (VInt 5) tt.

Definition list_keys : list str :=
  [py "artists_detailed"; py "similar_tracks"; py "chart_positions"].

(** A record under construction in [get_extended_track_info]: the keys
    of the basic literal are there and the list fields are well-shaped. *)
Definition good (info : dict) : Prop :=
  forallb (dict_has info) base_keys = true /\ wf_lists info = true.

(** The character codes of a Rocq string, one per byte. *)
Definition codes (s : string) : list N :=
  List.map N_of_ascii (list_ascii_of_string s).

(** The first of [keys] that [info] lacks. *)
Fixpoint first_missing (keys : list str) (info : dict) : option str :=
  match keys with
  | [] => None
  | k :: keys' =>
    if dict_has info k then first_missing keys' info else Some k
  end.

(** ** Further statements about the provider side *)

(** The keys of the dictionary literal of [get_basic_track_info], in the
    order written, and the keys each later step sets. *)
Definition nine_keys : list str :=
  [py "title"; py "artists"; py "duration"; py "album"; py "year";
   py "genre"; py "cover_url"; py "track_id"; py "album_id"].

Definition album_keys : list str :=
  [py "album_tracks_count"; py "album_release_date"; py "album_label";
   py "album_available"].

Definition technical_keys : list str :=
  [py "available"; py "available_for_premium_users"; py "lyrics_available";
   py "file_size"; py "version"; py "content_warning"; py "explicit";
   py "track_number"; py "major"].

Definition extended_keys : list str :=
  album_keys ++ [py "artists_detailed"; py "similar_tracks"]
  ++ technical_keys ++ [py "chart_positions"].

Definition basic_prefix : str :=
  py "Ошибка при получении основной информации: ".

Definition extended_prefix : str :=
  py "Ошибка при получении расширенной информации: ".

(** [b] has the entries of [a] at every key outside [ks]. *)
Definition keeps (ks : list str) (a b : dict) : Prop :=
  forall k, existsb (str_eqb k) ks = false -> dict_get b k = dict_get a k.

(** The field [k] of a list entry. *)
Definition entry_field (k : str) (v : value) : value :=
  match v with
  | VDict d => dict_get_default d k VNone
  | _ => VNone
  end.

(** A computation that returns a value from every state. *)
Definition always {World A} (m : M World A) : Prop :=
  forall w, exists a w', m w = (Ok a, w').

(** The four album keys are set together, and the count is a number. *)
Definition album_fact (d : dict) : Prop :=
  (forall k, In k album_keys -> dict_get d k = None) \/
  (exists n, (0 <= n)%Z /\
     dict_get d (py "album_tracks_count") = Some (VInt n) /\
     forall k, In k album_keys -> dict_has d k = true).

Definition similar_fact (d : dict) : Prop :=
  match dict_get d (py "similar_tracks") with
  | None => True
  | Some v =>
    exists entries,
      v = VList entries /\ List.length entries <= 5 /\
      forallb wf_similar entries = true
  end.

Definition chart_fact (d : dict) : Prop :=
  exists positions,
    dict_get d (py "chart_positions") = Some (VList positions) /\
    List.length positions <= 50 /\ forallb wf_position positions = true.

Definition artists_fact (track : Track) (d : dict) : Prop :=
  exists l,
    dict_get d (py "artists_detailed") = Some (VList l) /\
    List.map (entry_field (py "name")) l
    = List.map artist_name (track_artists track) /\
    List.map (entry_field (py "id")) l
    = List.map artist_id (track_artists track).

Definition technical_fact (track : Track) (d : dict) : Prop :=
  dict_get d (py "available")
  = Some (or_default (track_available track) (VBool true)) /\
  (exists size, dict_get d (py "file_size") = Some (VStr size)) /\
  forall k, In k technical_keys -> dict_has d k = true.

(** What [get_extended_track_info] adds to the basic record. *)
Definition extended_fact (track : Track) (info d : dict) : Prop :=
  keeps extended_keys info d /\ album_fact d /\ artists_fact track d /\
  similar_fact d /\ technical_fact track d /\ chart_fact d.

(** The file size of a track, when it has one, is a number that the
    interpreter divides and formats. *)
Definition file_size_ok (format_megabytes : Z -> result str) (track : Track)
  : Prop :=
  match track_file_size track with
  | Some size =>
    exists n megabytes, as_int size = Ok n /\ format_megabytes n = Ok megabytes
  | None => True
  end.

(** The file size of a track is a number on which the division
    raises [e]. *)
Definition file_size_raises (format_megabytes : Z -> result str)
  (track : Track) (e : exn) : Prop :=
  exists size n,
    track_file_size track = Some size /\ as_int size = Ok n /\
    format_megabytes n = Raise e.

(** The basic literal of a track evaluates. *)
Definition basic_ok (track : Track) : Prop :=
  (exists names, join_names (track_artists track) = Ok names) /\
  (exists ms, as_int (track_duration_ms track) = Ok ms) /\
  (forall e, track_get_cover_url track <> Some (Raise e)).

(** The track objects the extended lookup can work with. *)
Definition track_ok (format_megabytes : Z -> result str) (track : Track)
  : Prop :=
  basic_ok track /\ file_size_ok format_megabytes track.

(** A formatter for the examples.  It raises where the division of
    the interpreter does: on the integers whose quotient by 1024 rounds
    to more than the largest float, which are those from
    [2^1034 - 2^980] on in absolute value.  The text it gives for the
    others is a fixed one. *)
Definition sample_megabytes (n : Z) : result str :=
  if (Z.abs n <? 2 ^ 1034 - 2 ^ 980)%Z then Ok (py "0.00")
  else Raise OverflowError.

(** [sample_track "Song" "42"] with a file size. *)
Definition sized_track (size : Z) : Track :=
  {| track_title := VStr (py "Song");
     track_id_attr := VStr (py "42");
     track_artists := [sample_artist "A" 1; sample_artist "B" 2];
     track_duration_ms := VInt 185000;
     track_albums := [];
     track_get_cover_url := None;
     track_available := None;
     track_available_for_premium_users := None;
     track_lyrics_available := None;
     track_file_size := Some (VInt size);
     track_version := None;
     track_content_warning := None;
     track_explicit := None;
     track_track_number := None;
     track_major := None |}.

Section ProviderParts.

Variable exn_message : exn -> str.
Variable format_megabytes : Z -> result str.
Variable World : Type.
Variable client_tracks : list str -> M World (list Track).
Variable client_albums_with_tracks : value -> M World (option AlbumWithTracks).
Variable client_artists : value -> M World (list ArtistData).
Variable client_tracks_similar : str -> M World (option SimilarTracks).
Variable client_chart_tracks : str -> M World (list ChartItem).

Notation "x <~ m ;; k" := (bindM m (fun x => k))
  (at level 61, m at next level, right associativity).

(** The part of [get_extended_track_info] that follows the test
    ['error' in info]. *)
Definition extended_rest (track : Track) (track_id : str)
  (album_id_arg : value) (info : dict) : M World dict :=
  info <~
    (if truthy album_id_arg
        && match track_albums track with [] => false | _ => true end
     then album_details client_albums_with_tracks album_id_arg info
     else ret info) ;;
  artists_info <~ artists_loop client_artists (track_artists track) [] ;;
  let info := dict_set info (py "artists_detailed") (VList artists_info) in
  info <~ similar_details client_tracks_similar track_id info ;;
  info <~ lift (track_details format_megabytes track info) ;;
  chart_details client_chart_tracks track_id info.

End ProviderParts.

(** ** [get_track_info] of [main.py] *)

Section FirstVariant.

Variable repr : value -> str.
Variable exn_message : exn -> str.
Variable World : Type.
Variable client_tracks : list str -> M World (list Track).

Notation "x <~ m ;; k" := (bindM m (fun x => k))
  (at level 61, m at next level, right associativity).

(** The body of the [try] block once the track is known. *)
Definition track_info_text (track : Track) : result str :=
  let title := track_title track in
  artists <- join_names (track_artists track) ;;
  ms <- as_int (track_duration_ms track) ;;
  let duration := format_duration (ms / 1000) in
  let album :=
    match track_albums track with
    | a :: _ => album_title a
    | [] => VStr (py "Неизвестный альбом")
    end in
  let info := py "<b>Название " ++ py_str repr title ++ py "</b>" ++ nl in
  let info := info ++ py "<b>Исполнитель:</b> " ++ artists ++ nl in
  let info := info ++ py "<b>Длительность:</b> " ++ duration ++ nl in
  Ok info.

Definition get_track_info (track_id : str) : M World str :=
  try_except
    (tracks <~ client_tracks [track_id] ;;
     track <~ lift (head tracks) ;;
     lift (track_info_text track))
    (fun e => ret (py "❌ Ошибка при получении информации: " ++ exn_message e)).

End FirstVariant.

(** ** The handlers

    A handler acts on the chat platform and, through the provider, on
    the streaming service; both are outside the program.  What a handler
    does there is recorded as a list of actions, each of which the
    platform may refuse by raising; [context.user_data] is the third
    component of the state. *)

Inductive action :=
| ReplyText (text : str)                 (* update.message.reply_text *)
| ReplyHtml (text : str)                 (* update.message.reply_html *)
| ReplyKeyboard (text : str) (keyboard : list (list (str * str)))
    (* reply_text with an inline keyboard: rows of buttons, each a
       label and its callback_data *)
| EditMessageText (text : str) (parse_mode : option str)
    (disable_web_page_preview : bool)    (* query.edit_message_text *)
| SendPhoto (photo : value) (caption : str)
    (* context.bot.send_photo, parse_mode='HTML' *)
| SendMessage (text : str)
    (* context.bot.send_message, parse_mode='HTML', no preview *)
| DeleteMessage                          (* query.message.delete *)
| PrintLine (text : str).                    (* print *)

Record bot_state (World : Type) := {
  world : World;
  actions : list action;
  user_data : dict
}.

(** [str.lower]: the ASCII letters are mapped here; what a character
    beyond ASCII becomes may depend on its place in the string and is
    left to the interpreter. *)
Definition ascii_lower (c : N) : N :=
  if (65 <=? c)%N && (c <=? 90)%N then (c + 32)%N else c.

Section Lower.

Variable nonascii_lower : str -> nat -> str.

Fixpoint lower_from (whole : str) (i : nat) (s : str) : str :=
  match s with
  | [] => []
  | c :: s' =>
    (if (c <? 128)%N then [ascii_lower c] else nonascii_lower whole i)
    ++ lower_from whole (S i) s'
  end.

Definition py_lower (s : str) : str := lower_from s 0 s.

End Lower.

Section Handlers.

Variable nonascii_decimal : N -> bool.
Variable nonascii_lower : str -> nat -> str.
Variable repr : value -> str.
Variable exn_message : exn -> str.
Variable format_megabytes : Z -> result str.
Variable World : Type.
Variable client_tracks : list str -> M World (list Track).
Variable client_albums_with_tracks : value -> M World (option AlbumWithTracks).
Variable client_artists : value -> M World (list ArtistData).
Variable client_tracks_similar : str -> M World (option SimilarTracks).
Variable client_chart_tracks : str -> M World (list ChartItem).
(** The chat platform carrying out a request. *)
Variable platform : action -> M World unit.

Notation "x <~ m ;; k" := (bindM m (fun x => k))
  (at level 61, m at next level, right associativity).

(** An awaited call of the platform: recorded, then carried out. *)
Definition perform (a : action) : M (bot_state World) unit :=
  fun s =>
    let (r, w) := platform a (world s) in
    (r, {| world := w; actions := actions s ++ [a];
           user_data := user_data s |}).

(** An action that cannot be refused. *)
Definition note (a : action) : M (bot_state World) unit :=
  fun s =>
    (Ok tt, {| world := world s; actions := actions s ++ [a];
               user_data := user_data s |}).

(** A computation on the outside world, run inside a handler. *)
Definition outside {A} (m : M World A) : M (bot_state World) A :=
  fun s =>
    let (r, w) := m (world s) in
    (r, {| world := w; actions := actions s; user_data := user_data s |}).

(** [context.user_data[k] = v]. *)
Definition set_user_data (k : str) (v : value) : M (bot_state World) unit :=
  fun s =>
    (Ok tt, {| world := world s; actions := actions s;
               user_data := dict_set (user_data s) k v |}).

Definition handle_message (message_text : str) : M (bot_state World) unit :=
  if str_contains (py "yandex") (py_lower nonascii_lower message_text)
     && str_contains (py "music") (py_lower nonascii_lower message_text)
  then
    _ <~ perform (ReplyText (py "🔍 Обрабатываю ссылку...")) ;;
    let track_id := extract_track_id nonascii_decimal message_text in
    match track_id with
    | Some ((_ :: _) as track_id) =>
      _ <~ set_user_data (py "track_id") (VStr track_id) ;;
      let keyboard :=
        [ [ (py "📋 Основная информация", py "basic_" ++ track_id);
            (py "📊 Расширенная информация", py "extended_" ++ track_id) ] ] in
      perform (ReplyKeyboard (py "Выберите уровень детализации информации:")
                 keyboard)
    | _ =>
      perform (ReplyText (py "❌ Не удалось извлечь ID трека из ссылки."))
    end
  else
    perform (ReplyText
               (py "📎 Отправьте мне ссылку на трек из Яндекс.Музыки." ++ nl
                ++ py "Используйте /start для справки.")).

(** The branch [info_type == 'basic'] of [button_callback], for an
    identifier that is a string.  The [return] inside the [try] block
    is the value [true] of that block. *)
Definition basic_branch (track_id : str) : M (bot_state World) unit :=
  _ <~ perform (EditMessageText (py "📋 Получаю основную информацию...")
                  None false) ;;
  track_info <~
    get_basic_track_info exn_message
      (fun ids => outside (client_tracks ids)) track_id ;;
  formatted_info <~ lift (format_basic_info repr track_info) ;;
  returned <~
    match dict_get track_info (py "cover_url") with
    | Some cover_url =>
      if truthy cover_url then
        try_except
          (_ <~ perform (SendPhoto cover_url formatted_info) ;;
           _ <~ perform DeleteMessage ;;
           ret true)
          (fun _ => ret false)
      else ret false
    | None => ret false
    end ;;
  if returned then ret tt
  else perform (EditMessageText formatted_info (Some (py "HTML")) false).

(** The caption used when the full text is too long for one. *)
Definition short_caption (basic_info : dict) : str :=
  py "🎵 <b>"
  ++ py_str repr (dict_get_default basic_info (py "title") (VStr (py "Трек")))
  ++ py "</b>" ++ nl ++ py "👤 <b>Исполнитель:</b> "
  ++ py_str repr
       (dict_get_default basic_info (py "artists") (VStr (py "Неизвестно"))).

(** The branch [info_type == 'extended']. *)
Definition extended_branch (track_id : str) : M (bot_state World) unit :=
  _ <~ perform (EditMessageText (py "📊 Получаю расширенную информацию...")
                  None false) ;;
  basic_info <~
    get_basic_track_info exn_message
      (fun ids => outside (client_tracks ids)) track_id ;;
  let album_id :=
    if negb (dict_has basic_info (py "error"))
    then dict_get_default basic_info (py "album_id") VNone
    else VNone in
  track_info <~
    get_extended_track_info exn_message format_megabytes
      (fun ids => outside (client_tracks ids))
      (fun id => outside (client_albums_with_tracks id))
      (fun id => outside (client_artists id))
      (fun id => outside (client_tracks_similar id))
      (fun name => outside (client_chart_tracks name))
      track_id album_id ;;
  formatted_info <~ lift (format_extended_info repr track_info) ;;
  returned <~
    match dict_get basic_info (py "cover_url") with
    | Some cover_url =>
      if truthy cover_url then
        try_except
          (_ <~
             (if (1000 <? Z.of_nat (List.length formatted_info))%Z then
                _ <~ perform (SendPhoto cover_url (short_caption basic_info)) ;;
                perform (SendMessage formatted_info)
              else perform (SendPhoto cover_url formatted_info)) ;;
           _ <~ perform DeleteMessage ;;
           ret true)
          (fun e =>
             _ <~ note (PrintLine (py "Ошибка при отправке фото: "
                                 ++ exn_message e)) ;;
             _ <~ perform (EditMessageText formatted_info (Some (py "HTML"))
                             true) ;;
             ret false)
      else ret false
    | None => ret false
    end ;;
  if returned then ret tt
  else perform (EditMessageText formatted_info (Some (py "HTML")) true).

End Handlers.

(** [handle_message] of [main.py]. *)
Module Main.

Section MainHandlers.

Variable nonascii_decimal : N -> bool.
Variable nonascii_lower : str -> nat -> str.
Variable repr : value -> str.
Variable exn_message : exn -> str.
Variable World : Type.
Variable client_tracks : list str -> M World (list Track).
Variable platform : action -> M World unit.

Notation "x <~ m ;; k" := (bindM m (fun x => k))
  (at level 61, m at next level, right associativity).

Definition handle_message (message_text : str) : M (bot_state World) unit :=
  if str_contains (py "yandex") (py_lower nonascii_lower message_text)
     && str_contains (py "music") (py_lower nonascii_lower message_text)
  then
    _ <~ perform platform (ReplyText (py "Обрабатываю ссылку...")) ;;
    let track_id := extract_track_id nonascii_decimal message_text in
    match track_id with
    | Some ((_ :: _) as track_id) =>
      track_info <~
        get_track_info repr exn_message
          (fun ids => outside (client_tracks ids)) track_id ;;
      perform platform (ReplyHtml track_info)
    | _ =>
      perform platform
        (ReplyText (py "❌ Не удалось извлечь ID трека из ссылки."))
    end
  else
    perform platform
      (ReplyText
         (py "📎 Отправьте мне ссылку на трек из Яндекс.Музыки." ++ nl
          ++ py "Используйте /start для справки.")).

End MainHandlers.

End Main.

(** ** Statements about the handlers *)

Definition is_reply (a : action) : bool :=
  match a with
  | ReplyText _ | ReplyHtml _ | ReplyKeyboard _ _ => true
  | _ => false
  end.

Definition is_edit (a : action) : bool :=
  match a with
  | EditMessageText _ _ _ => true
  | _ => false
  end.

(** The platform carries out every action of one kind. *)
Definition delivers {World} (platform : action -> M World unit)
  (kind : action -> bool) : Prop :=
  forall a w, kind a = true -> exists w', platform a w = (Ok tt, w').

(** A computation inside a handler that performs no action and leaves
    [context.user_data] alone. *)
Definition quiet {World A} (m : M (bot_state World) A) : Prop :=
  forall s,
    actions (snd (m s)) = actions s /\ user_data (snd (m s)) = user_data s.

(** A word in any mix of upper and lower case. *)
Definition spells (k word : str) : bool :=
  forallb (fun c => (c <? 128)%N) k && str_eqb (List.map ascii_lower k) word.

(** A platform for the examples: it carries out every request, or every
    request but the photos. *)
Definition sample_platform (a : action) : M unit unit := ret tt.

Definition no_photo_platform (a : action) : M unit unit :=
  match a with
  | SendPhoto _ _ => lift (Raise (LibraryError (py "photo refused")))
  | _ => ret tt
  end.

Definition sample_state : bot_state unit :=
  {| world := tt; actions := []; user_data := [] |}.

(** The requests that deliver the extended text with the cover, before
    the placeholder is deleted. *)
Definition photo_part (repr : value -> str) (basic_info : dict)
  (cover_url : value) (formatted_info : str) : list action :=
  if (1000 <? Z.of_nat (List.length formatted_info))%Z then
    [SendPhoto cover_url (short_caption repr basic_info);
     SendMessage formatted_info]
  else [SendPhoto cover_url formatted_info].

(** Requests performed one after the other, until one is refused. *)
Fixpoint perform_all {World} (platform : action -> M World unit)
  (l : list action) : M (bot_state World) unit :=
  match l with
  | [] => ret tt
  | a :: l' => bindM (perform platform a) (fun _ => perform_all platform l')
  end.

(** [info] has a cover the handler can send. *)
Definition has_cover (info : dict) : bool :=
  match dict_get info (py "cover_url") with
  | Some cover_url => truthy cover_url
  | None => false
  end.

(** * Properties *)

(** ** The link extractor *)

Section RegexFacts.

Variable nd : N -> bool.

Lemma many1_in a s t :
  In t (many1 nd a s) ->
  exists ds, ds <> [] /\ forallb (accepts nd a) ds = true /\ s = ds ++ t.
Proof.
  induction s as [|c s IH]; simpl; [tauto|].
  destruct (accepts nd a c) eqn:Hc; [|simpl; tauto].
  intros H. apply in_app_or in H. destruct H as [H|[H|[]]].
  - destruct (IH H) as (ds & _ & Hds & ->).
    exists (c :: ds).
    split; [discriminate|split; [simpl; now rewrite Hc|reflexivity]].
  - subst t. exists [c].
    split; [discriminate|split; [simpl; now rewrite Hc|reflexivity]].
Qed.

Lemma firstn_length_sub (ds t : str) :
  firstn (List.length (ds ++ t) - List.length t) (ds ++ t) = ds.
Proof.
  rewrite length_app, Nat.add_sub.
  rewrite firstn_app, Nat.sub_diag, firstn_all. simpl. apply List.app_nil_r.
Qed.

Lemma run_digits_group_in m st :
  In m (run nd digits_group st) ->
  exists ds, ds <> [] /\ forallb (is_decimal nd) ds = true
             /\ rest st = ds ++ rest m /\ group1 m = Some ds.
Proof.
  unfold digits_group. simpl. rewrite map_map. intros H.
  apply in_map_iff in H. destruct H as (t & <- & H).
  apply many1_in in H. destruct H as (ds & Hne & Hds & Heq).
  exists ds. simpl. rewrite Heq, firstn_length_sub. auto.
Qed.

Lemma run_group_digits r : forall m st,
  ends_in_digits_group r = true ->
  In m (run nd r st) ->
  exists ds, group1 m = Some ds /\ ds <> []
             /\ forallb (is_decimal nd) ds = true.
Proof.
  induction r as [a|a|r1 _ r2 IH2|r IH]; intros m st He Hin;
    try discriminate.
  - simpl in Hin. apply in_flat_map in Hin. destruct Hin as (st1 & _ & Hin).
    eauto.
  - destruct r as [|[]| |]; try discriminate.
    destruct (run_digits_group_in _ _ Hin) as (ds & ? & ? & _ & ?). eauto.
Qed.

Lemma search_some r s m :
  search nd r s = Some m ->
  exists p s', s = p ++ s' /\ match_at nd r s' = Some m.
Proof.
  induction s as [|c s IH]; simpl.
  - destruct (match_at nd r []) eqn:E; [|discriminate].
    intros [= <-]. now exists [], [].
  - destruct (match_at nd r (c :: s)) eqn:E.
    + intros [= <-]. now exists [], (c :: s).
    + intros H. destruct (IH H) as (p & s' & -> & Hm).
      now exists (c :: p), s'.
Qed.

Lemma search_none r p s :
  search nd r (p ++ s) = None -> match_at nd r s = None.
Proof.
  induction p as [|c p IH]; simpl.
  - destruct s; simpl; destruct (match_at nd r _); auto; discriminate.
  - destruct (match_at nd r (c :: p ++ s)); [discriminate|]. exact IH.
Qed.

Lemma match_at_in r s m :
  match_at nd r s = Some m -> In m (run nd r (MState s None)).
Proof.
  unfold match_at. destruct (run nd r _); simpl; [discriminate|].
  intros [= ->]. now left.
Qed.

Lemma in_match_at r s m :
  In m (run nd r (MState s None)) -> match_at nd r s <> None.
Proof.
  unfold match_at. destruct (run nd r _); simpl; [tauto|discriminate].
Qed.

(** A literal prefix of the pattern consumes the same prefix of the
    input. *)
Lemma run_lit_eq cs k t g :
  run nd (lit cs k) (MState (cs ++ t) g) = run nd k (MState t g).
Proof.
  induction cs as [|c cs IH]; simpl; [reflexivity|].
  rewrite N.eqb_refl. simpl. rewrite List.app_nil_r. exact IH.
Qed.

Lemma run_lit_in cs k : forall m st,
  In m (run nd (lit cs k) st) ->
  exists t, rest st = cs ++ t /\ In m (run nd k (MState t (group1 st))).
Proof.
  induction cs as [|c cs IH]; intros m [s g] Hin; simpl in *.
  - now exists s.
  - destruct s as [|x s]; simpl in Hin; [tauto|].
    destruct (N.eqb_spec x c) as [->|]; simpl in Hin; [|tauto].
    rewrite List.app_nil_r in Hin. destruct (IH _ _ Hin) as (t & Ht & Hm).
    simpl in *. subst s. now exists t.
Qed.

Lemma run_many1_cat_in a k m st :
  In m (run nd (Cat (Many1 a) k) st) ->
  exists ds t, rest st = ds ++ t /\ In m (run nd k (MState t (group1 st))).
Proof.
  simpl. intros H. apply in_flat_map in H. destruct H as (st1 & H1 & H).
  apply in_map_iff in H1. destruct H1 as (t & <- & H1).
  apply many1_in in H1. destruct H1 as (ds & _ & _ & Heq).
  now exists ds, t.
Qed.

Lemma hd_error_flat_map {A B} (f : A -> list B) l y :
  hd_error (flat_map f l) = Some y ->
  exists x, In x l /\ hd_error (f x) = Some y.
Proof.
  induction l as [|x l IH]; simpl; [discriminate|].
  destruct (f x) as [|y' ys] eqn:E; simpl.
  - intros H. destruct (IH H) as (x' & ? & ?). eauto.
  - intros [= ->]. exists x. rewrite E. auto.
Qed.

(** Wherever the album-qualified pattern matches, the plain one matches
    a few characters later, with the same group and the same end. *)
Lemma album_match_gives_track_match s m :
  match_at nd album_pattern s = Some m ->
  exists p s', s = p ++ s' /\ match_at nd track_pattern s' = Some m.
Proof.
  intros E. pose proof (match_at_in _ _ E) as Hin.
  change album_pattern with
    (lit (py "album/") (Cat (Many1 Dec) (lit (py "/") (lit (py "track/") digits_group))))
    in E, Hin.
  apply run_lit_in in Hin. destruct Hin as (t1 & H1 & _).
  cbn [rest] in H1. subst s.
  unfold match_at in E. rewrite run_lit_eq in E.
  cbn [run rest group1] in E. apply hd_error_flat_map in E.
  destruct E as (st & Hst & E).
  apply in_map_iff in Hst. destruct Hst as (t2 & <- & Hst).
  apply many1_in in Hst. destruct Hst as (ds & _ & _ & ->).
  destruct (run nd (lit (py "/") (lit (py "track/") digits_group))
              (MState t2 None)) as [|m0 ms] eqn:R; [discriminate|].
  assert (Hin : In m0 (run nd (lit (py "/") (lit (py "track/") digits_group))
                         (MState t2 None))) by (rewrite R; now left).
  apply run_lit_in in Hin. destruct Hin as (t3 & H3 & _).
  cbn [rest] in H3. subst t2.
  rewrite run_lit_eq in R.
  exists (py "album/" ++ ds ++ py "/"), t3. split.
  - now rewrite <- !app_assoc.
  - unfold match_at.
    change track_pattern with (lit (py "track/") digits_group).
    now rewrite R.
Qed.

Lemma search_track_none_album_none url :
  search nd track_pattern url = None -> search nd album_pattern url = None.
Proof.
  intros Ht. destruct (search nd album_pattern url) as [m|] eqn:Ea; auto.
  exfalso. apply search_some in Ea. destruct Ea as (p & s' & -> & Hm).
  destruct (album_match_gives_track_match _ Hm) as (p' & s'' & -> & Hn).
  rewrite app_assoc in Ht. apply search_none in Ht. congruence.
Qed.

Lemma search_skip r p t :
  match_before nd r (List.length p) (p ++ t) = false ->
  search nd r (p ++ t) = search nd r t.
Proof.
  induction p as [|c p IH]; simpl; [reflexivity|].
  destruct (match_at nd r (c :: p ++ t)); [discriminate|]. exact IH.
Qed.

Lemma search_here r s m :
  match_at nd r s = Some m -> search nd r s = Some m.
Proof. intros H. destruct s; simpl; now rewrite H. Qed.

(** The greedy [\d+] takes the whole run of digits when no digit
    follows it. *)
Lemma many1_greedy a ds q :
  ds <> [] -> forallb (accepts nd a) ds = true ->
  match q with c :: _ => accepts nd a c | [] => false end = false ->
  hd_error (many1 nd a (ds ++ q)) = Some q.
Proof.
  intros Hne Hds Hq. induction ds as [|d ds IH]; [congruence|].
  simpl in *. apply andb_prop in Hds. destruct Hds as [Hd Hds].
  rewrite Hd. destruct ds as [|d' ds].
  - destruct q as [|c q]; simpl in *; [reflexivity|]. now rewrite Hq.
  - specialize (IH ltac:(discriminate) Hds).
    destruct (many1 nd a ((d' :: ds) ++ q)); [discriminate|exact IH].
Qed.

Lemma digits_group_greedy ds q g :
  ds <> [] -> forallb (is_decimal nd) ds = true ->
  starts_with_decimal nd q = false ->
  hd_error (run nd digits_group (MState (ds ++ q) g))
  = Some (MState q (Some ds)).
Proof.
  intros Hne Hds Hq. unfold digits_group. cbn [run rest group1].
  rewrite map_map.
  pose proof (@many1_greedy Dec ds q Hne Hds) as H.
  destruct (many1 nd Dec (ds ++ q)) as [|t ts]; [now specialize (H Hq)|].
  specialize (H Hq). injection H as ->. cbn [List.map hd_error rest].
  now rewrite firstn_length_sub.
Qed.

Lemma digits_123456 : forallb (is_decimal nd) (py "123456") = true.
Proof. reflexivity. Qed.

Lemma track_shape_match q :
  starts_with_decimal nd q = false ->
  match_at nd track_pattern (track_shape ++ q)
  = Some (MState q (Some (py "123456"))).
Proof.
  intros Hq. unfold match_at.
  change track_pattern with (lit (py "track/") digits_group).
  change (track_shape ++ q) with (py "track/" ++ py "123456" ++ q).
  rewrite run_lit_eq.
  apply digits_group_greedy; [discriminate|apply digits_123456|exact Hq].
Qed.

Lemma run_digits_then k d c t g :
  is_decimal nd d = true -> is_decimal nd c = false ->
  run nd (Cat (Many1 Dec) k) (MState (d :: c :: t) g)
  = run nd k (MState (c :: t) g).
Proof.
  intros Hd Hc. cbn [run rest group1 many1 accepts].
  rewrite Hd, Hc. simpl. apply List.app_nil_r.
Qed.

Lemma playlist_shape_match q :
  starts_with_decimal nd q = false ->
  match_at nd playlist_pattern (playlist_shape ++ q)
  = Some (MState q (Some (py "123456"))).
Proof.
  intros Hq. unfold match_at.
  change playlist_pattern with
    (lit (py "playlists/")
       (Cat (Many1 Dec)
          (lit (py "/")
             (Cat (Many1 Dec) (lit (py "?trackId=") digits_group))))).
  change (playlist_shape ++ q) with
    (py "playlists/" ++ 49%N :: 47%N :: (50%N :: 63%N ::
       (py "trackId=" ++ py "123456" ++ q))).
  rewrite run_lit_eq.
  rewrite run_digits_then by reflexivity.
  change (47%N :: 50%N :: 63%N :: py "trackId=" ++ py "123456" ++ q)
    with (py "/" ++ 50%N :: 63%N :: (py "trackId=" ++ py "123456" ++ q)).
  rewrite run_lit_eq.
  rewrite run_digits_then by reflexivity.
  change (63%N :: py "trackId=" ++ py "123456" ++ q)
    with (py "?trackId=" ++ py "123456" ++ q).
  rewrite run_lit_eq.
  apply digits_group_greedy; [discriminate|apply digits_123456|exact Hq].
Qed.

End RegexFacts.

(** C1, as the code has it.  [re.search] reports the leftmost match and
    [\d+] is greedy, so a link shape decides the result when it is the
    first place where the deciding pattern matches and no digit follows
    it.  For an input [p ++ shape ++ q] whose tail [q] does not begin with
    a decimal digit: if [track/(\d+)] has no match beginning inside [p],
    the shapes [track/123456] and [album/1/track/123456] give ["123456"];
    if [track/(\d+)] matches nowhere in the input and the playlist pattern
    has no match beginning inside [p], the shape
    [playlists/1/2?trackId=123456] gives ["123456"]. *)
Theorem extract_track_id_shapes (nd : N -> bool) :
  (forall p q,
      starts_with_decimal nd q = false ->
      match_before nd track_pattern (List.length p) (p ++ track_shape ++ q)
      = false ->
      extract_track_id nd (p ++ track_shape ++ q) = Some (py "123456")) /\
  (forall p q,
      starts_with_decimal nd q = false ->
      match_before nd track_pattern (List.length p) (p ++ album_shape ++ q)
      = false ->
      extract_track_id nd (p ++ album_shape ++ q) = Some (py "123456")) /\
  (forall p q,
      starts_with_decimal nd q = false ->
      search nd track_pattern (p ++ playlist_shape ++ q) = None ->
      match_before nd playlist_pattern (List.length p)
        (p ++ playlist_shape ++ q) = false ->
      extract_track_id nd (p ++ playlist_shape ++ q) = Some (py "123456")).
Proof.
  split; [|split]; intros p q Hq.
  - intros Hp. unfold extract_track_id, patterns. cbn [first_match].
    rewrite (search_skip _ _ _ _ Hp).
    now rewrite (search_here _ _ _ (track_shape_match nd q Hq)).
  - intros Hp. unfold extract_track_id, patterns. cbn [first_match].
    rewrite (search_skip _ _ _ _ Hp).
    change (album_shape ++ q) with (py "album/1/" ++ track_shape ++ q).
    rewrite (search_skip nd track_pattern (py "album/1/") (track_shape ++ q))
      by reflexivity.
    now rewrite (search_here _ _ _ (track_shape_match nd q Hq)).
  - intros Ht Hp. unfold extract_track_id, patterns. cbn [first_match].
    rewrite Ht, (search_track_none_album_none _ _ Ht).
    rewrite (search_skip _ _ _ _ Hp).
    now rewrite (search_here _ _ _ (playlist_shape_match nd q Hq)).
Qed.

Lemma extract_track_id_shapes_witness :
  extract_track_id ascii_only
    (py "check this out https://music.yandex.ru/" ++ track_shape ++ py "?x=1")
  = Some (py "123456") /\
  extract_track_id ascii_only
    (py "https://music.yandex.ru/" ++ album_shape ++ [])
  = Some (py "123456") /\
  extract_track_id ascii_only
    (py "https://music.yandex.ru/users/u/" ++ playlist_shape ++ py "&utm=a")
  = Some (py "123456").
Proof.
  destruct (extract_track_id_shapes ascii_only) as (H1 & H2 & H3).
  split; [|split].
  - apply H1; reflexivity.
  - apply H2; reflexivity.
  - apply H3; reflexivity.
Defined.

(** C1 as stated fails: a string may contain a shape and yet give another
    identifier, because more digits follow the shape or because an
    earlier link matches first. *)
Lemma extract_track_id_shapes_counterexample :
  (exists p q, py "track/1234567" = p ++ track_shape ++ q) /\
  (forall nd, extract_track_id nd (py "track/1234567") = Some (py "1234567")) /\
  (exists p q, py "track/7/album/1/track/123456" = p ++ album_shape ++ q) /\
  (forall nd, extract_track_id nd (py "track/7/album/1/track/123456")
              = Some (py "7")) /\
  (exists p q, py "track/7 playlists/1/2?trackId=123456"
               = p ++ playlist_shape ++ q) /\
  (forall nd, extract_track_id nd (py "track/7 playlists/1/2?trackId=123456")
              = Some (py "7")).
Proof.
  repeat split.
  - exists [], (py "7"). reflexivity.
  - exists (py "track/7/"), []. reflexivity.
  - exists (py "track/7 "), []. reflexivity.
Qed.

(** C5: the extractor is a total function that gives either [None] or an
    identifier.  It gives [None] exactly when none of the three patterns
    matches anywhere in the text; an identifier is the group of a
    pattern that matches, it is not empty and each of its characters is
    a decimal digit, as [\d] understands it (below 128: '0' to '9'). *)
Theorem extract_track_id_digits (nd : N -> bool) (url : str) :
  (extract_track_id nd url = None \/
   exists id,
     extract_track_id nd url = Some id /\ id <> [] /\
     forall c, In c id ->
       is_decimal nd c = true /\ ((c < 128)%N -> (48 <= c <= 57)%N)) /\
  (extract_track_id nd url = None <->
   forall r, In r patterns -> search nd r url = None) /\
  (forall id,
      extract_track_id nd url = Some id ->
      exists r m,
        In r patterns /\ search nd r url = Some m /\ group1 m = Some id).
Proof.
  assert (Hgood : forall r m,
             ends_in_digits_group r = true -> search nd r url = Some m ->
             exists id, group1 m = Some id /\ id <> [] /\
               forall c, In c id ->
                 is_decimal nd c = true /\ ((c < 128)%N -> (48 <= c <= 57)%N)).
  { intros r m Hr Hs. apply search_some in Hs.
    destruct Hs as (p & s' & _ & Hm). apply match_at_in in Hm.
    destruct (run_group_digits nd r _ _ Hr Hm) as (ds & Hg & Hne & Hds).
    exists ds. split; [exact Hg|split; [exact Hne|]].
    intros c Hc. rewrite forallb_forall in Hds. specialize (Hds _ Hc).
    split; [exact Hds|]. intros Hlt.
    unfold is_decimal in Hds. apply N.ltb_lt in Hlt. rewrite Hlt in Hds.
    apply andb_prop in Hds. destruct Hds as [H1 H2].
    apply N.leb_le in H1. apply N.leb_le in H2. now split. }
  assert (Hall : (forall r, In r patterns -> search nd r url = None) <->
                 search nd track_pattern url = None /\
                 search nd album_pattern url = None /\
                 search nd playlist_pattern url = None).
  { unfold patterns. split.
    - intros H. split; [|split]; apply H; cbn [In]; auto.
    - intros (H1 & H2 & H3) r [<-|[<-|[<-|[]]]]; assumption. }
  rewrite Hall. unfold extract_track_id, patterns. cbn [first_match].
  destruct (search nd track_pattern url) as [m|] eqn:E1.
  { destruct (Hgood track_pattern _ eq_refl E1) as (id & Hg & Hid).
    rewrite Hg. split; [right; eauto|]. split.
    - split; [discriminate|]. intros (H & _). discriminate H.
    - intros id' [= <-]. exists track_pattern, m.
      split; [now left|]. split; [exact E1|exact Hg]. }
  destruct (search nd album_pattern url) as [m|] eqn:E2.
  { destruct (Hgood album_pattern _ eq_refl E2) as (id & Hg & Hid).
    rewrite Hg. split; [right; eauto|]. split.
    - split; [discriminate|]. intros (_ & H & _). discriminate H.
    - intros id' [= <-]. exists album_pattern, m.
      split; [right; now left|]. split; [exact E2|exact Hg]. }
  destruct (search nd playlist_pattern url) as [m|] eqn:E3.
  { destruct (Hgood playlist_pattern _ eq_refl E3) as (id & Hg & Hid).
    rewrite Hg. split; [right; eauto|]. split.
    - split; [discriminate|]. intros (_ & _ & H). discriminate H.
    - intros id' [= <-]. exists playlist_pattern, m.
      split; [right; right; now left|]. split; [exact E3|exact Hg]. }
  split; [now left|]. split; [tauto|]. intros id H. discriminate H.
Qed.

Lemma extract_track_id_digits_witness :
  (exists id,
      extract_track_id ascii_only (py "see https://music.yandex.ru/track/42?x")
      = Some id /\
      forall c, In c id -> (48 <= c <= 57)%N) /\
  extract_track_id ascii_only (py "https://music.yandex.ru/artist/42") = None.
Proof.
  split.
  - destruct (proj1 (extract_track_id_digits ascii_only
                       (py "see https://music.yandex.ru/track/42?x")))
      as [H|(id & H & _ & Hd)].
    + vm_compute in H. discriminate H.
    + exists id. split; [exact H|]. intros c Hc.
      destruct (Hd c Hc) as [Hdec Hascii]. apply Hascii.
      unfold is_decimal, ascii_only in Hdec.
      destruct (c <? 128)%N eqn:E; [now apply N.ltb_lt|discriminate].
  - apply (proj1 (proj2 (extract_track_id_digits ascii_only
                           (py "https://music.yandex.ru/artist/42")))).
    intros r Hr. unfold patterns in Hr. cbn [In] in Hr.
    destruct Hr as [<-|[<-|[<-|[]]]]; vm_compute; reflexivity.
Defined.

(** C9: taking [album/\d+/track/(\d+)] out of the pattern list changes
    no result.  Wherever that pattern matches, [track/(\d+)] matches too,
    with the same group, so when the first pattern finds nothing the
    second finds nothing either. *)
Theorem album_pattern_redundant (nd : N -> bool) (url : str) :
  extract_track_id nd url = extract_track_id_without_album nd url /\
  (search nd track_pattern url = None -> search nd album_pattern url = None) /\
  (forall s m, match_at nd album_pattern s = Some m ->
     exists p s', s = p ++ s' /\ match_at nd track_pattern s' = Some m).
Proof.
  split; [|split].
  - unfold extract_track_id, extract_track_id_without_album, patterns.
    cbn [first_match].
    destruct (search nd track_pattern url) eqn:E; [reflexivity|].
    now rewrite (search_track_none_album_none _ _ E).
  - apply search_track_none_album_none.
  - apply album_match_gives_track_match.
Qed.

Lemma album_pattern_redundant_witness :
  search ascii_only album_pattern (py "https://music.yandex.ru/album/x") = None /\
  exists p s',
    album_shape = p ++ s' /\
    match_at ascii_only track_pattern s'
    = Some (MState [] (Some (py "123456"))).
Proof.
  split.
  - apply (album_pattern_redundant ascii_only
             (py "https://music.yandex.ru/album/x")).
    reflexivity.
  - apply (album_pattern_redundant ascii_only []). reflexivity.
Defined.

(** ** format_duration *)

Lemma str_eqb_eq (a b : str) : str_eqb a b = true <-> a = b.
Proof.
  revert b. induction a as [|x a IH]; intros [|y b]; simpl;
    try (split; [discriminate|discriminate]); [tauto|].
  rewrite andb_true_iff, N.eqb_eq, IH. split.
  - now intros [-> ->].
  - now intros [= -> ->].
Qed.

Lemma str_eqb_refl (a : str) : str_eqb a a = true.
Proof. now apply str_eqb_eq. Qed.

(** The seconds field: always the two decimal digits of a number below
    60. *)
Lemma format_02d_below_60 (r : Z) :
  (0 <= r < 60)%Z ->
  format_02d r = [(48 + Z.to_N (r / 10))%N; (48 + Z.to_N (r mod 10))%N].
Proof.
  intros Hr.
  assert (H : forallb
                (fun k => str_eqb (format_02d (Z.of_nat k))
                   [(48 + Z.to_N (Z.of_nat k / 10))%N;
                    (48 + Z.to_N (Z.of_nat k mod 10))%N])
                (seq 0 60) = true) by (vm_compute; reflexivity).
  rewrite forallb_forall in H. specialize (H (Z.to_nat r)).
  rewrite Z2Nat.id in H by lia. apply str_eqb_eq, H, in_seq. lia.
Qed.

(** The decimal numeral of a positive number does not begin with 0. *)
Lemma to_uint_no_leading_zero (p : positive) d : Pos.to_uint p <> Decimal.D0 d.
Proof.
  intros E.
  assert (Hn : Decimal.unorm (Pos.to_uint p) = Pos.to_uint p).
  { rewrite <- DecimalPos.Unsigned.to_of, DecimalPos.Unsigned.of_to.
    reflexivity. }
  rewrite E in Hn. unfold Decimal.unorm in Hn.
  destruct (Decimal.nzhead (Decimal.D0 d)) eqn:Hz;
    try (now apply (DecimalFacts.nzhead_nonzero (Decimal.D0 d) d);
         rewrite Hz);
    try discriminate.
  injection Hn as <-. now apply (DecimalPos.Unsigned.to_uint_nonzero p).
Qed.

Lemma str_of_int_unpadded (m : Z) :
  (0 <= m)%Z -> hd_error (str_of_int m) = Some 48%N ->
  m = 0%Z /\ str_of_int m = py "0".
Proof.
  intros Hm. destruct m as [|p|p]; [now split| |lia].
  unfold str_of_int. cbn [Z.to_int NilZero.string_of_int].
  pose proof (to_uint_no_leading_zero p) as H0.
  pose proof (DecimalPos.Unsigned.to_uint_nonnil p) as Hnil.
  destruct (Pos.to_uint p) as [|d|d|d|d|d|d|d|d|d|d]; try discriminate.
  - congruence.
  - now elim (H0 d).
Qed.

(** C3: [format_duration] is a function on the integers; on a
    non-negative [n] it gives the decimal numeral of [n / 60], not padded
    (it begins with 0 only when it is "0"), a colon, and the two decimal
    digits of [n mod 60].  So 0, 59, 60, 125 and 3600 seconds give "0:00",
    "0:59", "1:00", "2:05" and "60:00". *)
Theorem format_duration_spec :
  (forall n : Z, (0 <= n)%Z ->
     format_duration n
     = str_of_int (n / 60) ++ py ":"
       ++ [(48 + Z.to_N ((n mod 60) / 10))%N;
           (48 + Z.to_N ((n mod 60) mod 10))%N]
     /\ (hd_error (str_of_int (n / 60)) = Some 48%N ->
         (n < 60)%Z /\ str_of_int (n / 60) = py "0")) /\
  format_duration 0 = py "0:00" /\
  format_duration 59 = py "0:59" /\
  format_duration 60 = py "1:00" /\
  format_duration 125 = py "2:05" /\
  format_duration 3600 = py "60:00".
Proof.
  split; [|repeat split; reflexivity].
  intros n Hn. split.
  - unfold format_duration. rewrite format_02d_below_60; [reflexivity|].
    apply Z.mod_pos_bound. lia.
  - intros H. apply str_of_int_unpadded in H.
    + destruct H as [H0 H]. split; [|exact H].
      apply Z.div_small_iff in H0; lia.
    + apply Z.div_pos; lia.
Qed.

Lemma format_duration_spec_witness :
  format_duration 185
  = str_of_int 3 ++ py ":" ++ [48%N; 53%N].
Proof.
  exact (proj1 (proj1 format_duration_spec 185%Z ltac:(lia))).
Defined.

(** ** Dictionaries *)

Lemma dict_get_set_same d k v : dict_get (dict_set d k v) k = Some v.
Proof.
  induction d as [|[k0 v0] d IH]; simpl.
  - now rewrite str_eqb_refl.
  - destruct (str_eqb k0 k) eqn:E; simpl; now rewrite E.
Qed.

Lemma dict_get_set_other d k v k' :
  str_eqb k k' = false -> dict_get (dict_set d k v) k' = dict_get d k'.
Proof.
  intros Hk. induction d as [|[k0 v0] d IH]; simpl.
  - now rewrite Hk.
  - destruct (str_eqb k0 k) eqn:E; simpl.
    + apply str_eqb_eq in E. subst k0. now rewrite Hk.
    + now rewrite IH.
Qed.

Lemma dict_has_set d k v k' :
  dict_has d k' = true -> dict_has (dict_set d k v) k' = true.
Proof.
  unfold dict_has. destruct (str_eqb k k') eqn:E.
  - apply str_eqb_eq in E. subst k'. now rewrite dict_get_set_same.
  - now rewrite dict_get_set_other.
Qed.



(** ** The identifier lookup of button_callback *)

Lemma split_no_sep sep s : ~ In sep s -> split sep s = [s].
Proof.
  induction s as [|c s IH]; simpl; [reflexivity|]. intros H.
  destruct (N.eqb_spec c sep) as [->|_]; [tauto|].
  rewrite IH by tauto. reflexivity.
Qed.

Lemma split_at_sep sep a b :
  ~ In sep a -> split sep (a ++ sep :: b) = a :: split sep b.
Proof.
  induction a as [|c a IH]; simpl; intros H.
  - now rewrite N.eqb_refl.
  - destruct (N.eqb_spec c sep) as [->|_]; [tauto|].
    rewrite IH by tauto. reflexivity.
Qed.

(** C4, as the code has it: the identifier embedded in the choice payload
    comes first.  A payload [kind_id] gives [id] whatever the session
    state holds; the session state is consulted only for a payload with no
    underscore. *)
Theorem callback_payload_first :
  (forall kind id tail user_data,
      ~ In 95%N kind -> ~ In 95%N id ->
      callback_track_id (kind ++ 95%N :: id) user_data = VStr id /\
      callback_track_id (kind ++ 95%N :: id ++ 95%N :: tail) user_data
      = VStr id) /\
  (forall data user_data,
      ~ In 95%N data ->
      callback_track_id data user_data
      = dict_get_default user_data (py "track_id") VNone).
Proof.
  split.
  - intros kind id tail user_data Hk Hi. unfold callback_track_id.
    rewrite !split_at_sep by assumption.
    rewrite split_no_sep by assumption. now split.
  - intros data user_data Hd. unfold callback_track_id.
    now rewrite split_no_sep.
Qed.

Lemma callback_payload_first_witness :
  callback_track_id (py "basic" ++ 95%N :: py "222")
    [(py "track_id", VStr (py "111"))] = VStr (py "222") /\
  callback_track_id (py "basic") [(py "track_id", VStr (py "111"))]
  = VStr (py "111").
Proof.
  split.
  - apply (proj1 callback_payload_first (py "basic") (py "222") []);
      cbv; intuition discriminate.
  - apply (proj2 callback_payload_first (py "basic"));
      cbv; intuition discriminate.
Defined.

(** C4 as stated fails: with an identifier in the session state and
    another in the payload, the handler takes the one of the payload. *)
Lemma callback_session_first_counterexample :
  dict_get [(py "track_id", VStr (py "111"))] (py "track_id")
  = Some (VStr (py "111")) /\
  button_callback (py "basic_222") [(py "track_id", VStr (py "111"))]
  = Basic (VStr (py "222")) /\
  button_callback (py "basic_") [(py "track_id", VStr (py "111"))]
  = NoTrackId.
Proof. repeat split. Qed.

(** ** The formatters *)

Lemma line_breaks_app a b : line_breaks (a ++ b) = line_breaks a + line_breaks b.
Proof. unfold line_breaks. now rewrite filter_app, length_app. Qed.

Lemma line_breaks_none s : line_breaks s = 0 <-> ~ In 10%N s.
Proof.
  unfold line_breaks. induction s as [|c s IH]; cbn [filter In]; [simpl; tauto|].
  destruct (N.eqb_spec 10%N c) as [<-|Hc]; cbn [List.length].
  - split; [discriminate|tauto].
  - rewrite IH. intuition congruence.
Qed.

Section FormatterFacts.

Variable repr : value -> str.

Lemma dict_has_get d k :
  dict_has d k = true -> exists v, dict_get d k = Some v.
Proof. unfold dict_has. destruct (dict_get d k); [eauto|discriminate]. Qed.

Lemma dict_has_getitem d k :
  dict_has d k = true -> exists v, dict_getitem d k = Ok v.
Proof.
  unfold dict_has, dict_getitem.
  destruct (dict_get d k); [eauto|discriminate].
Qed.

Lemma for_each_ok {A} (body : str -> A -> result str) l :
  (forall x, In x l -> exists X, forall text, body text x = Ok (text ++ X)) ->
  exists Y, forall text, for_each body l text = Ok (text ++ Y).
Proof.
  induction l as [|x l IH]; intros H; simpl.
  - exists []. intros text. now rewrite List.app_nil_r.
  - destruct (H x (or_introl eq_refl)) as (X & HX).
    destruct IH as (Y & HY); [intros; apply H; now right|].
    exists (X ++ Y). intros text. rewrite HX. cbn [bind].
    now rewrite HY, app_assoc.
Qed.

Lemma for_each_render {A} (body : str -> A -> result str) (f : A -> str) l :
  (forall x, In x l -> forall text, body text x = Ok (text ++ f x)) ->
  forall text, for_each body l text = Ok (text ++ List.concat (List.map f l)).
Proof.
  induction l as [|x l IH]; intros H text; simpl.
  - now rewrite List.app_nil_r.
  - rewrite H by now left. cbn [bind].
    rewrite IH by (intros; apply H; now right). now rewrite app_assoc.
Qed.

Lemma all_str_ok l :
  forallb is_str l = true -> exists parts, all_str l = Ok parts.
Proof.
  induction l as [|v l IH]; simpl; [eauto|].
  destruct v; try discriminate. simpl. intros H.
  destruct (IH H) as (parts & ->). simpl. eauto.
Qed.

Lemma basic_block_ok info :
  forallb (dict_has info) required_keys = true ->
  exists X, basic_block repr info = Ok X.
Proof.
  intros H. rewrite forallb_forall in H. unfold basic_block.
  destruct (@dict_has_getitem info (py "title")) as (v1 & ->);
    [apply H; cbv; tauto|].
  destruct (@dict_has_getitem info (py "artists")) as (v2 & ->);
    [apply H; cbv; tauto|].
  destruct (@dict_has_getitem info (py "album")) as (v3 & ->);
    [apply H; cbv; tauto|].
  destruct (@dict_has_getitem info (py "year")) as (v4 & ->);
    [apply H; cbv; tauto|].
  destruct (@dict_has_getitem info (py "duration")) as (v5 & ->);
    [apply H; cbv; tauto|].
  destruct (@dict_has_getitem info (py "genre")) as (v6 & ->);
    [apply H; cbv; tauto|].
  cbn [bind]. eauto.
Qed.

Lemma artist_lines_ok a :
  wf_artist a = true ->
  exists X, forall text, artist_lines repr text a = Ok (text ++ X).
Proof.
  destruct a as [| | | | |d]; try discriminate. cbn [wf_artist].
  intros H. apply andb_prop in H. destruct H as [Hn Hg].
  destruct (dict_has_get _ _ Hn) as (name & En).
  assert (Hgen : exists G, forall text,
             (if dict_has d (py "genres") then
                genres <- py_getitem (VDict d) (py "genres") ;;
                if truthy genres then
                  joined <- py_join (py ", ") genres ;;
                  Ok (text ++ py "     Жанры: " ++ joined ++ nl)
                else Ok text
              else Ok text) = Ok (text ++ G)).
  { unfold dict_has, py_getitem, dict_getitem.
    destruct (dict_get d (py "genres")) as [g|]; cbn [bind].
    - destruct (truthy g) eqn:Ht.
      + simpl in Hg. destruct g; try discriminate.
        destruct (all_str_ok _ Hg) as (parts & Hp).
        unfold py_join. cbn [py_iter bind]. rewrite Hp. cbn [bind].
        eexists. intros text. reflexivity.
      + exists []. intros. now rewrite List.app_nil_r.
    - exists []. intros. now rewrite List.app_nil_r. }
  destruct Hgen as (G & HG).
  assert (Hopt : forall key label, exists T, forall text,
             (if dict_has d key then
                n <- py_getitem (VDict d) key ;;
                Ok (text ++ label ++ py_str repr n ++ nl)
              else Ok text) = Ok (text ++ T)).
  { intros key label. unfold dict_has, py_getitem, dict_getitem.
    destruct (dict_get d key); cbn [bind].
    - eexists. intros. reflexivity.
    - exists []. intros. now rewrite List.app_nil_r. }
  destruct (Hopt (py "tracks_count") (py "     Треков: ")) as (T1 & HT1).
  destruct (Hopt (py "albums_count") (py "     Альбомов: ")) as (T2 & HT2).
  exists (py "   • <b>" ++ py_str repr name ++ py "</b>" ++ nl ++ G ++ T1 ++ T2).
  intros text. unfold artist_lines.
  cbn [py_contains bind]. unfold py_getitem at 1, dict_getitem at 1.
  rewrite En. cbn [bind].
  etransitivity.
  { apply f_equal2; [apply HG|reflexivity]. }
  cbn [bind].
  etransitivity.
  { apply f_equal2; [apply HT1|reflexivity]. }
  cbn [bind]. rewrite HT2. now rewrite <- ?app_assoc.
Qed.

Lemma artists_block_ok info :
  match dict_get info (py "artists_detailed") with
  | None => true
  | Some (VList l) => forallb wf_artist l
  | Some _ => false
  end = true ->
  exists X, forall text, artists_block repr info text = Ok (text ++ X).
Proof.
  unfold artists_block, dict_has, dict_getitem.
  destruct (dict_get info (py "artists_detailed")) as [v|].
  - destruct v; try discriminate. intros H. cbn [bind py_iter].
    destruct (@for_each_ok _ (artist_lines repr) l) as (Y & HY).
    { intros x Hx. apply artist_lines_ok.
      rewrite forallb_forall in H. auto. }
    eexists. intros text. rewrite HY. cbn [bind].
    rewrite <- ?app_assoc. reflexivity.
  - intros _. exists []. intros. now rewrite List.app_nil_r.
Qed.

Lemma album_block_ok info :
  exists X, forall text, album_block repr info text = Ok (text ++ X).
Proof.
  unfold album_block, dict_has, dict_getitem.
  destruct (dict_get info (py "album_tracks_count")).
  - destruct (dict_get info (py "album_release_date"));
      destruct (dict_get info (py "album_label")); cbn [bind];
      eexists; intros text; rewrite <- ?app_assoc; reflexivity.
  - exists []. intros. now rewrite List.app_nil_r.
Qed.

Lemma optional_line_ok info key label :
  exists X, forall text,
    optional_line repr info key label text = Ok (text ++ X).
Proof.
  unfold optional_line, dict_get_default, dict_getitem.
  destruct (dict_get info key) as [v|].
  - destruct (truthy v); cbn [bind].
    + eexists. intros. reflexivity.
    + exists []. intros. now rewrite List.app_nil_r.
  - exists []. intros. now rewrite List.app_nil_r.
Qed.

Lemma technical_block_ok info :
  dict_has info (py "available") = true ->
  exists X, forall text, technical_block repr info text = Ok (text ++ X).
Proof.
  intros H. destruct (dict_has_getitem _ _ H) as (a & Ha).
  destruct (optional_line_ok info (py "version") (py "   Версия: "))
    as (X1 & H1).
  destruct (optional_line_ok info (py "content_warning")
              (py "   Предупреждение: ")) as (X2 & H2).
  destruct (optional_line_ok info (py "major") (py "   Лейбл: "))
    as (X3 & H3).
  eexists. intros text. unfold technical_block. rewrite Ha. cbn [bind].
  rewrite H1. cbn [bind]. rewrite H2. cbn [bind]. rewrite H3. cbn [bind].
  rewrite <- ?app_assoc. reflexivity.
Qed.

Lemma links_block_ok info :
  dict_has info (py "cover_url") = true ->
  dict_has info (py "track_id") = true ->
  exists X, forall text, links_block repr info text = Ok (text ++ X).
Proof.
  intros Hc Ht. destruct (dict_has_getitem _ _ Hc) as (c & Ec).
  destruct (dict_has_getitem _ _ Ht) as (t & Et).
  unfold links_block. rewrite Ec, Et. cbn [bind].
  destruct (truthy c); cbn [bind]; eexists; intros text;
    rewrite <- ?app_assoc; reflexivity.
Qed.

Lemma in_enumerate {A} (l : list A) : forall start i x,
  In (i, x) (enumerate start l) -> In x l.
Proof.
  induction l as [|y l IH]; simpl; [tauto|].
  intros start i x [[= _ ->]|H]; [now left|right; eauto].
Qed.

Lemma similar_line_render text item :
  wf_similar (snd item) = true ->
  similar_line repr text item = Ok (text ++ similar_entry_text repr item).
Proof.
  destruct item as [i v]. cbn [snd]. destruct v; try discriminate.
  cbn [wf_similar]. intros H. apply andb_prop in H. destruct H as [Ht Ha].
  destruct (dict_has_get _ _ Ht) as (t & Et).
  destruct (dict_has_get _ _ Ha) as (a & Ea).
  unfold similar_line, similar_entry_text, py_getitem, dict_getitem,
    dict_get_default.
  cbn [fst snd]. rewrite Et, Ea. reflexivity.
Qed.

(** The similar-tracks block on a list: the first three entries, and
    nothing of the others. *)
Lemma similar_block_render info l text :
  dict_get info (py "similar_tracks") = Some (VList l) ->
  forallb wf_similar (firstn 3 l) = true ->
  similar_block repr info text = Ok (text ++ similar_text repr l).
Proof.
  intros Hl Hwf. unfold similar_block, dict_get_default, dict_getitem.
  rewrite Hl. destruct l as [|x l'].
  - simpl. now rewrite List.app_nil_r.
  - cbn [truthy bind py_slice_to py_iter].
    rewrite for_each_render with (f := similar_entry_text repr).
    + cbn [bind]. unfold similar_text. now rewrite <- ?app_assoc.
    + intros [i v] Hin text'. apply similar_line_render. cbn [snd].
      apply in_enumerate in Hin. rewrite forallb_forall in Hwf. auto.
Qed.

Lemma similar_block_skip info text :
  truthy (dict_get_default info (py "similar_tracks") VNone) = false ->
  similar_block repr info text = Ok text.
Proof. unfold similar_block. now intros ->. Qed.

Lemma progress_emoji_marker v : progress_emoji v = trend_marker v.
Proof. destruct v; reflexivity. Qed.

Lemma chart_line_render text pos :
  wf_position pos = true ->
  chart_line repr text pos = Ok (text ++ position_text repr pos).
Proof.
  destruct pos; try discriminate.
  cbn [wf_position]. intros H. apply andb_prop in H. destruct H as [Hp Hq].
  destruct (dict_has_get _ _ Hp) as (p & Ep).
  destruct (dict_has_get _ _ Hq) as (q & Eq).
  unfold chart_line, position_text, py_getitem, py_get, dict_getitem,
    dict_get_default.
  rewrite Ep, Eq. cbn [bind]. rewrite progress_emoji_marker.
  destruct (dict_get d (py "listeners")) as [l|]; cbn [truthy bind].
  - destruct (truthy l); cbn [bind]; now rewrite <- ?app_assoc.
  - now rewrite <- ?app_assoc.
Qed.

Lemma chart_block_render info l text :
  dict_get info (py "chart_positions") = Some (VList l) ->
  forallb wf_position l = true ->
  chart_block repr info text = Ok (text ++ chart_text repr l).
Proof.
  intros Hl Hwf. unfold chart_block, dict_get_default, dict_getitem.
  rewrite Hl. destruct l as [|x l'].
  - simpl. now rewrite List.app_nil_r.
  - cbn [truthy bind py_iter].
    rewrite for_each_render with (f := position_text repr).
    + unfold chart_text. now rewrite <- ?app_assoc.
    + intros v Hin text'. apply chart_line_render.
      rewrite forallb_forall in Hwf. auto.
Qed.

Lemma chart_block_skip info text :
  truthy (dict_get_default info (py "chart_positions") VNone) = false ->
  chart_block repr info text = Ok text.
Proof. unfold chart_block. now intros ->. Qed.

Lemma similar_block_ok info :
  match dict_get info (py "similar_tracks") with
  | None => true
  | Some (VList l) => forallb wf_similar (firstn 3 l)
  | Some v => negb (truthy v)
  end = true ->
  exists X, forall text, similar_block repr info text = Ok (text ++ X).
Proof.
  destruct (dict_get info (py "similar_tracks")) as [v|] eqn:E.
  - destruct v; intros H;
      try (exists []; intros text; rewrite List.app_nil_r;
           apply similar_block_skip; unfold dict_get_default; rewrite E;
           now apply negb_true_iff in H).
    exists (similar_text repr l). intros. now apply similar_block_render.
  - intros _. exists []. intros text. rewrite List.app_nil_r.
    apply similar_block_skip. unfold dict_get_default. now rewrite E.
Qed.

Lemma chart_block_ok info :
  match dict_get info (py "chart_positions") with
  | None => true
  | Some (VList l) => forallb wf_position l
  | Some v => negb (truthy v)
  end = true ->
  exists X, forall text, chart_block repr info text = Ok (text ++ X).
Proof.
  destruct (dict_get info (py "chart_positions")) as [v|] eqn:E.
  - destruct v; intros H;
      try (exists []; intros text; rewrite List.app_nil_r;
           apply chart_block_skip; unfold dict_get_default; rewrite E;
           now apply negb_true_iff in H).
    exists (chart_text repr l). intros. now apply chart_block_render.
  - intros _. exists []. intros text. rewrite List.app_nil_r.
    apply chart_block_skip. unfold dict_get_default. now rewrite E.
Qed.

Lemma wf_extended_parts info :
  wf_extended info = true ->
  forallb (dict_has info) required_keys = true /\
  match dict_get info (py "artists_detailed") with
  | None => true
  | Some (VList l) => forallb wf_artist l
  | Some _ => false
  end = true /\
  match dict_get info (py "similar_tracks") with
  | None => true
  | Some (VList l) => forallb wf_similar (firstn 3 l)
  | Some v => negb (truthy v)
  end = true /\
  match dict_get info (py "chart_positions") with
  | None => true
  | Some (VList l) => forallb wf_position l
  | Some v => negb (truthy v)
  end = true.
Proof.
  unfold wf_extended. intros H.
  apply andb_prop in H. destruct H as [H H4].
  apply andb_prop in H. destruct H as [H H3].
  apply andb_prop in H. destruct H as [H1 H2]. auto.
Qed.

Lemma required_key info k :
  forallb (dict_has info) required_keys = true ->
  In k required_keys -> dict_has info k = true.
Proof. intros H. rewrite forallb_forall in H. apply H. Qed.

(** On a well-formed record the extended formatter returns a text. *)
Lemma format_extended_info_ok info :
  wf_extended info = true ->
  exists out, format_extended_info repr info = Ok out.
Proof.
  intros H. unfold format_extended_info.
  destruct (dict_has info (py "error")) eqn:He.
  - destruct (dict_has_getitem _ _ He) as (e & ->). cbn [bind]. eauto.
  - destruct (wf_extended_parts _ H) as (Hk & Ha & Hs & Hc).
    destruct (basic_block_ok _ Hk) as (B & ->). cbn [bind].
    destruct (artists_block_ok _ Ha) as (A & ->). cbn [bind].
    destruct (album_block_ok info) as (Al & ->). cbn [bind].
    destruct (@technical_block_ok info) as (T & ->);
      [apply required_key; [exact Hk|cbv; tauto]|]. cbn [bind].
    destruct (similar_block_ok _ Hs) as (S & ->). cbn [bind].
    destruct (chart_block_ok _ Hc) as (C & ->). cbn [bind].
    destruct (@links_block_ok info) as (L & ->);
      [apply required_key; [exact Hk|cbv; tauto]..|]. eauto.
Qed.


(** Each block reads its own keys only. *)
Lemma other_blocks_same a b :
  same_on other_keys a b ->
  dict_has a (py "error") = dict_has b (py "error") /\
  basic_block repr a = basic_block repr b /\
  (forall text, artists_block repr a text = artists_block repr b text) /\
  (forall text, album_block repr a text = album_block repr b text) /\
  (forall text, technical_block repr a text = technical_block repr b text) /\
  (forall text, links_block repr a text = links_block repr b text).
Proof.
  intros H.
  assert (E : forall k, In k other_keys -> dict_get a k = dict_get b k)
    by exact H.
  repeat split; intros;
    unfold basic_block, artists_block, album_block, technical_block,
      links_block, optional_line, dict_has, dict_getitem, dict_get_default;
    repeat (rewrite E by (cbv; tauto)); reflexivity.
Qed.

Lemma same_on_set keys info K v :
  existsb (str_eqb K) keys = false -> same_on keys (dict_set info K v) info.
Proof.
  intros HK k Hk. apply dict_get_set_other.
  destruct (str_eqb K k) eqn:E; [|reflexivity].
  assert (existsb (str_eqb K) keys = true); [|congruence].
  apply existsb_exists. eauto.
Qed.

Lemma similar_block_same a b text :
  dict_get a (py "similar_tracks") = dict_get b (py "similar_tracks") ->
  similar_block repr a text = similar_block repr b text.
Proof.
  intros E. unfold similar_block, dict_getitem, dict_get_default.
  now rewrite E.
Qed.

Lemma chart_block_same a b text :
  dict_get a (py "chart_positions") = dict_get b (py "chart_positions") ->
  chart_block repr a text = chart_block repr b text.
Proof.
  intros E. unfold chart_block, dict_getitem, dict_get_default.
  now rewrite E.
Qed.

(** The shape of the extended text of a well-formed record: what comes
    before the two list sections, the sections, and the links. *)
Lemma format_extended_info_shape info :
  dict_has info (py "error") = false ->
  wf_extended info = true ->
  exists pre S C L,
    (forall text, similar_block repr info text = Ok (text ++ S)) /\
    (forall text, chart_block repr info text = Ok (text ++ C)) /\
    (forall a,
        same_on other_keys a info ->
        forall S' C',
          (forall text, similar_block repr a text = Ok (text ++ S')) ->
          (forall text, chart_block repr a text = Ok (text ++ C')) ->
          format_extended_info repr a = Ok (pre ++ S' ++ C' ++ L)).
Proof.
  intros He H.
  destruct (wf_extended_parts _ H) as (Hk & Ha & Hs & Hc).
  destruct (basic_block_ok _ Hk) as (B & HB).
  destruct (artists_block_ok _ Ha) as (A & HA).
  destruct (album_block_ok info) as (Al & HAl).
  destruct (@technical_block_ok info) as (T & HT);
    [apply required_key; [exact Hk|cbv; tauto]|].
  destruct (similar_block_ok _ Hs) as (S & HS).
  destruct (chart_block_ok _ Hc) as (C & HC).
  destruct (@links_block_ok info) as (L & HL);
    [apply required_key; [exact Hk|cbv; tauto]..|].
  exists (B ++ A ++ Al ++ T), S, C, L. split; [exact HS|split; [exact HC|]].
  intros a Hsame S' C' HS' HC'.
  destruct (other_blocks_same Hsame) as (E0 & E1 & E2 & E3 & E4 & E5).
  unfold format_extended_info.
  rewrite E0, He, E1, HB. cbn [bind].
  rewrite E2, HA. cbn [bind]. rewrite E3, HAl. cbn [bind].
  rewrite E4, HT. cbn [bind]. rewrite HS'. cbn [bind].
  rewrite HC'. cbn [bind]. rewrite E5, HL.
  now rewrite <- ?app_assoc.
Qed.

End FormatterFacts.

Lemma dict_set_get_same d k v : dict_get d k = Some v -> dict_set d k v = d.
Proof.
  induction d as [|[k0 v0] d IH]; simpl; [discriminate|].
  destruct (str_eqb k0 k); [now intros [= ->]|].
  intros H. now rewrite IH.
Qed.

(** C6, as the code has it: on a record with an ['error'] entry both
    formatters return the error marker, a space and the error text, and
    nothing more.  They add no line break: the result has as many as the
    error text, so it is a single line when the error text is one. *)
Theorem format_error_line (repr : value -> str) (info : dict) (e : value) :
  dict_get info (py "error") = Some e ->
  format_basic_info repr info = Ok (py "❌ " ++ py_str repr e) /\
  format_extended_info repr info = Ok (py "❌ " ++ py_str repr e) /\
  line_breaks (py "❌ " ++ py_str repr e) = line_breaks (py_str repr e) /\
  (~ In 10%N (py_str repr e) -> ~ In 10%N (py "❌ " ++ py_str repr e)).
Proof.
  intros H. unfold format_basic_info, format_extended_info, dict_has,
    dict_getitem. rewrite H. cbn [bind].
  split; [reflexivity|split; [reflexivity|split]].
  - now rewrite line_breaks_app.
  - intros Hn. rewrite <- line_breaks_none in *.
    now rewrite line_breaks_app, Hn.
Qed.

Lemma format_error_line_witness :
  format_basic_info no_repr [(py "error", VStr (py "boom"))]
  = Ok (py "❌ boom") /\
  format_extended_info no_repr [(py "error", VStr (py "boom"))]
  = Ok (py "❌ boom") /\
  ~ In 10%N (py "❌ boom").
Proof.
  assert (H : dict_get [(py "error", VStr (py "boom"))] (py "error")
              = Some (VStr (py "boom"))) by (vm_compute; reflexivity).
  destruct (format_error_line no_repr _ H) as (H1 & H2 & _ & H4).
  split; [exact H1|split; [exact H2|]].
  apply H4. apply line_breaks_none. vm_compute. reflexivity.
Defined.

(** C6 as stated fails: an error text with a line break gives a result
    of two lines. *)
Lemma format_error_line_counterexample :
  (forall repr,
      format_basic_info repr [(py "error", VStr (py "a" ++ nl ++ py "b"))]
      = Ok (py "❌ a" ++ nl ++ py "b") /\
      format_extended_info repr [(py "error", VStr (py "a" ++ nl ++ py "b"))]
      = Ok (py "❌ a" ++ nl ++ py "b")) /\
  line_breaks (py "❌ a" ++ nl ++ py "b") = 1.
Proof. split; [intros repr; split|]; reflexivity. Qed.

(** C7: the similar-tracks section of the extended text is the header,
    the first three entries of the list numbered from 1 in the order
    given, and an empty line; what stands before and after it does not
    depend on the list, and entries after the third change nothing. *)
Theorem similar_tracks_first_three (repr : value -> str) (info : dict)
  (l : list value) :
  dict_has info (py "error") = false ->
  wf_extended info = true ->
  dict_get info (py "similar_tracks") = Some (VList l) ->
  exists pre post,
    format_extended_info repr info = Ok (pre ++ similar_text repr l ++ post) /\
    similar_text repr l = similar_text repr (firstn 3 l) /\
    forall l',
      forallb wf_similar (firstn 3 l') = true ->
      format_extended_info repr (dict_set info (py "similar_tracks") (VList l'))
      = Ok (pre ++ similar_text repr (firstn 3 l') ++ post).
Proof.
  intros He Hwf Hl.
  destruct (format_extended_info_shape repr _ He Hwf)
    as (pre & S & C & L & HS & HC & Hshape).
  assert (Hfirst : forall l0, similar_text repr l0
                              = similar_text repr (firstn 3 l0)).
  { intros [|x l0]; [reflexivity|].
    change (firstn 3 (x :: l0)) with (x :: firstn 2 l0).
    unfold similar_text.
    change (firstn 3 (x :: firstn 2 l0)) with (x :: firstn 2 (firstn 2 l0)).
    change (firstn 3 (x :: l0)) with (x :: firstn 2 l0).
    now rewrite firstn_firstn. }
  assert (Hset : forall l',
             forallb wf_similar (firstn 3 l') = true ->
             format_extended_info repr
               (dict_set info (py "similar_tracks") (VList l'))
             = Ok (pre ++ similar_text repr l' ++ C ++ L)).
  { intros l' Hl'. apply Hshape.
    - apply same_on_set. vm_compute. reflexivity.
    - intros text. apply similar_block_render; [|exact Hl'].
      apply dict_get_set_same.
    - intros text. rewrite <- HC. apply chart_block_same.
      now apply dict_get_set_other. }
  exists pre, (C ++ L). split; [|split; [apply Hfirst|]].
  - rewrite <- (dict_set_get_same _ _ Hl) at 1. apply Hset.
    apply wf_extended_parts in Hwf. destruct Hwf as (_ & _ & Hs & _).
    now rewrite Hl in Hs.
  - intros l' Hl'. rewrite <- Hfirst. now apply Hset.
Qed.

Lemma similar_tracks_first_three_witness :
  exists pre post,
    format_extended_info no_repr sample_record
    = Ok (pre
          ++ (py "🎶 <b>Похожие треки:</b>" ++ nl
              ++ py "   1. t1 - a1" ++ nl
              ++ py "   2. t2 - a2" ++ nl
              ++ py "   3. t3 - a3" ++ nl ++ nl)
          ++ post).
Proof.
  assert (He : dict_has sample_record (py "error") = false)
    by (vm_compute; reflexivity).
  assert (Hwf : wf_extended sample_record = true)
    by (vm_compute; reflexivity).
  assert (Hl : dict_get sample_record (py "similar_tracks")
               = Some (VList [ similar_entry "t1" "a1"; similar_entry "t2" "a2";
                               similar_entry "t3" "a3"; similar_entry "t4" "a4";
                               similar_entry "t5" "a5" ]))
    by (vm_compute; reflexivity).
  destruct (similar_tracks_first_three no_repr _ He Hwf Hl)
    as (pre & post & H & _).
  exists pre, post. rewrite H. apply f_equal, f_equal.
  apply (f_equal (fun x => x ++ post)). vm_compute. reflexivity.
Defined.

(** C8, as the code has it: the chart section is its header and one line
    per entry; a line shows the marker of the trend (three different
    markers for "up", "down" and "new", none for any other value), the
    position, and the listener count when it is a true value (a count of 0
    or [None] is left out).  What stands before and after the section
    does not depend on the entries. *)
Theorem chart_positions_rendering (repr : value -> str) :
  (forall info l,
      dict_has info (py "error") = false ->
      wf_extended info = true ->
      dict_get info (py "chart_positions") = Some (VList l) ->
      exists pre post,
        format_extended_info repr info = Ok (pre ++ chart_text repr l ++ post) /\
        forall l',
          forallb wf_position l' = true ->
          format_extended_info repr
            (dict_set info (py "chart_positions") (VList l'))
          = Ok (pre ++ chart_text repr l' ++ post)) /\
  (forall position progress listeners,
      position_text repr (chart_entry position progress listeners)
      = py "   " ++ trend_marker progress ++ py " Позиция: "
        ++ py_str repr position
        ++ (if truthy listeners
            then py " (👂 " ++ py_str repr listeners ++ py ")" else [])
        ++ nl) /\
  trend_marker (VStr (py "up")) = py "🔺" /\
  trend_marker (VStr (py "down")) = py "🔻" /\
  trend_marker (VStr (py "new")) = py "🆕" /\
  py "🔺" <> py "🔻" /\ py "🔺" <> py "🆕" /\ py "🔻" <> py "🆕" /\
  (forall trend,
      eq_str trend (py "up") = false ->
      eq_str trend (py "down") = false ->
      eq_str trend (py "new") = false ->
      trend_marker trend = []).
Proof.
  split; [|split; [|repeat split; try discriminate]].
  - intros info l He Hwf Hl.
    destruct (format_extended_info_shape repr _ He Hwf)
      as (pre & S & C & L & HS & HC & Hshape).
    assert (Hset : forall l',
               forallb wf_position l' = true ->
               format_extended_info repr
                 (dict_set info (py "chart_positions") (VList l'))
               = Ok ((pre ++ S) ++ chart_text repr l' ++ L)).
    { intros l' Hl'. rewrite <- app_assoc. apply Hshape.
      - apply same_on_set. vm_compute. reflexivity.
      - intros text. rewrite <- HS. apply similar_block_same.
        now apply dict_get_set_other.
      - intros text. apply chart_block_render; [|exact Hl'].
        apply dict_get_set_same. }
    exists (pre ++ S), L. split; [|exact Hset].
    rewrite <- (dict_set_get_same _ _ Hl) at 1. apply Hset.
    apply wf_extended_parts in Hwf. destruct Hwf as (_ & _ & _ & Hc).
    now rewrite Hl in Hc.
  - intros position progress listeners. reflexivity.
  - intros trend Hu Hd Hn. destruct trend; try reflexivity.
    unfold trend_marker. cbn [eq_str] in Hu, Hd, Hn.
    now rewrite Hu, Hd, Hn.
Qed.

Lemma chart_positions_rendering_witness :
  exists pre post,
    format_extended_info no_repr sample_record
    = Ok (pre
          ++ (py "🏆 <b>Позиции в чартах:</b>" ++ nl
              ++ py "   🔺 Позиция: 10 (👂 500)" ++ nl)
          ++ post) /\
    format_extended_info no_repr
      (with_chart [chart_entry (VInt 3) (VStr (py "steady")) VNone])
    = Ok (pre
          ++ (py "🏆 <b>Позиции в чартах:</b>" ++ nl
              ++ py "    Позиция: 3" ++ nl)
          ++ post).
Proof.
  assert (He : dict_has sample_record (py "error") = false)
    by (vm_compute; reflexivity).
  assert (Hwf : wf_extended sample_record = true)
    by (vm_compute; reflexivity).
  assert (Hl : dict_get sample_record (py "chart_positions")
               = Some (VList [chart_entry (VInt 10) (VStr (py "up"))
                                (VInt 500)]))
    by (vm_compute; reflexivity).
  destruct (proj1 (chart_positions_rendering no_repr) _ _ He Hwf Hl)
    as (pre & post & H & H').
  exists pre, post. split.
  - rewrite H. apply f_equal, f_equal.
    apply (f_equal (fun x => x ++ post)). vm_compute. reflexivity.
  - unfold with_chart. rewrite H' by (vm_compute; reflexivity).
    apply f_equal, f_equal.
    apply (f_equal (fun x => x ++ post)). vm_compute. reflexivity.
Defined.

(** C8 as stated fails where it says the listener count is appended when
    present: a count of 0 is present and is not shown. *)
Lemma chart_positions_rendering_counterexample :
  py_get (chart_entry (VInt 10) (VStr (py "up")) (VInt 0)) (py "listeners")
  = Ok (VInt 0) /\
  exists out,
    format_extended_info no_repr
      (with_chart [chart_entry (VInt 10) (VStr (py "up")) (VInt 0)])
    = Ok out /\
    existsb (N.eqb 128066%N) out = false /\
    str_contains (py "🔺 Позиция: 10" ++ nl) out = true.
Proof.
  split; [reflexivity|].
  eexists. split; [vm_compute; reflexivity|].
  split; vm_compute; reflexivity.
Qed.

(** ** Records with optional fields missing *)

Lemma not_among k keys K :
  existsb (str_eqb k) keys = false -> In K keys -> str_eqb k K = false.
Proof.
  intros H HK. destruct (str_eqb k K) eqn:E; [|reflexivity].
  rewrite <- H. symmetry. apply existsb_exists. eauto.
Qed.


















(** ** The provider side *)

Lemma forallb_firstn {A} (f : A -> bool) n l :
  forallb f l = true -> forallb f (firstn n l) = true.
Proof.
  revert n. induction l as [|x l IH]; intros [|n]; simpl; auto.
  intros H. apply andb_prop in H. destruct H as [-> H]. now apply IH.
Qed.

Lemma wf_lists_parts info :
  wf_lists info = true <->
  match dict_get info (py "artists_detailed") with
  | None => true
  | Some (VList l) => forallb wf_artist l
  | Some _ => false
  end = true /\
  match dict_get info (py "similar_tracks") with
  | None => true
  | Some (VList l) => forallb wf_similar (firstn 3 l)
  | Some v => negb (truthy v)
  end = true /\
  match dict_get info (py "chart_positions") with
  | None => true
  | Some (VList l) => forallb wf_position l
  | Some v => negb (truthy v)
  end = true.
Proof. unfold wf_lists. rewrite !andb_true_iff. tauto. Qed.

Lemma wf_extended_intro info :
  forallb (dict_has info) required_keys = true -> wf_lists info = true ->
  wf_extended info = true.
Proof.
  intros Hk H. apply wf_lists_parts in H. destruct H as (H1 & H2 & H3).
  unfold wf_extended. now rewrite Hk, H1, H2, H3.
Qed.

Lemma has_keys_set keys info K v :
  forallb (dict_has info) keys = true ->
  forallb (dict_has (dict_set info K v)) keys = true.
Proof.
  rewrite !forallb_forall. intros H k Hk. apply dict_has_set. auto.
Qed.

Lemma good_set_other info K v :
  existsb (str_eqb K) list_keys = false -> good info ->
  good (dict_set info K v).
Proof.
  intros HK [Hk Hwf]. split; [now apply has_keys_set|].
  apply wf_lists_parts. apply wf_lists_parts in Hwf.
  rewrite !dict_get_set_other; [exact Hwf|..];
    apply not_among with list_keys; auto; cbv; tauto.
Qed.

Lemma good_set_artists info l :
  forallb wf_artist l = true -> good info ->
  good (dict_set info (py "artists_detailed") (VList l)).
Proof.
  intros Hl [Hk Hwf]. split; [now apply has_keys_set|].
  apply wf_lists_parts. apply wf_lists_parts in Hwf.
  destruct Hwf as (_ & H2 & H3).
  rewrite dict_get_set_same.
  rewrite !dict_get_set_other by (vm_compute; reflexivity). auto.
Qed.

Lemma good_set_similar info l :
  forallb wf_similar l = true -> good info ->
  good (dict_set info (py "similar_tracks") (VList l)).
Proof.
  intros Hl [Hk Hwf]. split; [now apply has_keys_set|].
  apply wf_lists_parts. apply wf_lists_parts in Hwf.
  destruct Hwf as (H1 & _ & H3).
  rewrite dict_get_set_same.
  rewrite !dict_get_set_other by (vm_compute; reflexivity).
  split; [exact H1|split; [now apply forallb_firstn|exact H3]].
Qed.

Lemma good_set_chart info l :
  forallb wf_position l = true -> good info ->
  good (dict_set info (py "chart_positions") (VList l)).
Proof.
  intros Hl [Hk Hwf]. split; [now apply has_keys_set|].
  apply wf_lists_parts. apply wf_lists_parts in Hwf.
  destruct Hwf as (H1 & H2 & _).
  rewrite dict_get_set_same.
  rewrite !dict_get_set_other by (vm_compute; reflexivity). auto.
Qed.

Lemma basic_literal_good v1 v2 v3 v4 v5 v6 v7 v8 v9 :
  good [ (py "title", v1); (py "artists", v2); (py "duration", v3);
         (py "album", v4); (py "year", v5); (py "genre", v6);
         (py "cover_url", v7); (py "track_id", v8); (py "album_id", v9) ].
Proof. split; vm_compute; reflexivity. Qed.

Lemma wf_artist_full n i g t a :
  negb (truthy g)
  || match g with VList l => forallb is_str l | _ => false end = true ->
  wf_artist (VDict [ (py "name", n); (py "id", i); (py "genres", g);
                     (py "tracks_count", t); (py "albums_count", a) ]) = true.
Proof.
  intros H. unfold wf_artist.
  replace (dict_has [ (py "name", n); (py "id", i); (py "genres", g);
                      (py "tracks_count", t); (py "albums_count", a) ]
             (py "name")) with true by (vm_compute; reflexivity).
  replace (dict_get [ (py "name", n); (py "id", i); (py "genres", g);
                      (py "tracks_count", t); (py "albums_count", a) ]
             (py "genres")) with (Some g) by (vm_compute; reflexivity).
  exact H.
Qed.

Lemma wf_artist_short n i :
  wf_artist (VDict [ (py "name", n); (py "id", i) ]) = true.
Proof. vm_compute. reflexivity. Qed.

Lemma wf_similar_literal t a i :
  wf_similar (VDict [ (py "title", t); (py "artists", a); (py "id", i) ])
  = true.
Proof. vm_compute. reflexivity. Qed.

Lemma wf_position_literal p q l :
  wf_position (VDict [ (py "position", p); (py "progress", q);
                       (py "listeners", l) ]) = true.
Proof. vm_compute. reflexivity. Qed.

Lemma genres_value_ok g :
  negb (truthy (genres_value g))
  || match genres_value g with
     | VList l => forallb is_str l
     | _ => false
     end = true.
Proof.
  destruct g as [names|]; [|reflexivity]. cbn [genres_value].
  apply orb_true_iff. right. induction names; simpl; auto.
Qed.

Lemma similar_entries_wf tracks : forall l,
  similar_entries tracks = Ok l -> forallb wf_similar l = true.
Proof.
  induction tracks as [|t tracks IH]; simpl; intros l.
  - now intros [= <-].
  - destruct (join_names (track_artists t)); cbn [bind]; [|discriminate].
    destruct (similar_entries tracks); cbn [bind]; [|discriminate].
    intros [= <-]. cbn [forallb]. rewrite wf_similar_literal. now apply IH.
Qed.

Lemma chart_loop_wf track_id items : forall acc,
  forallb wf_position acc = true ->
  forallb wf_position (chart_loop track_id items acc) = true.
Proof.
  induction items as [|c items IH]; simpl; intros acc H; [exact H|].
  apply IH. destruct (eq_str (item_track_id c) track_id); [|exact H].
  rewrite forallb_app, H. cbn [forallb]. now rewrite wf_position_literal.
Qed.

Lemma track_details_good format_megabytes track info info' :
  track_details format_megabytes track info = Ok info' ->
  good info -> good info' /\ dict_has info' (py "available") = true.
Proof.
  unfold track_details. intros H Hg.
  destruct (match track_file_size track with
            | Some size =>
              n <- as_int size ;;
              megabytes <- format_megabytes n ;;
              Ok (VStr (megabytes ++ py " MB"))
            | None => Ok (VStr (py "Неизвестно"))
            end) as [fs|e]; cbn [bind] in H; [|discriminate].
  injection H as <-. split.
  - repeat (apply good_set_other; [vm_compute; reflexivity|]). exact Hg.
  - do 8 apply dict_has_set. unfold dict_has. now rewrite dict_get_set_same.
Qed.

Section ProviderFacts.

Variable exn_message : exn -> str.
Variable format_megabytes : Z -> result str.
Variable World : Type.
Variable client_tracks : list str -> M World (list Track).
Variable client_albums_with_tracks : value -> M World (option AlbumWithTracks).
Variable client_artists : value -> M World (list ArtistData).
Variable client_tracks_similar : str -> M World (option SimilarTracks).
Variable client_chart_tracks : str -> M World (list ChartItem).

Lemma post_ret {A} (P : A -> Prop) (a : A) :
  P a -> post P (ret (World := World) a).
Proof. intros H w. exact H. Qed.

Lemma post_lift {A} (P : A -> Prop) (r : result A) :
  (forall a, r = Ok a -> P a) -> post P (lift (World := World) r).
Proof. intros H w. simpl. destruct r; auto. Qed.

Lemma post_any {A} (m : M World A) : post (fun _ => True) m.
Proof. intros w. now destruct (fst (m w)). Qed.

Lemma post_bind {A B} (Q : A -> Prop) (P : B -> Prop)
  (m : M World A) (f : A -> M World B) :
  post Q m -> (forall a, Q a -> post P (f a)) -> post P (bindM m f).
Proof.
  intros Hm Hf w. unfold bindM. specialize (Hm w).
  destruct (m w) as [[a|e] w1]; simpl in *; [|exact I].
  now apply Hf.
Qed.

Lemma post_try {A} (P : A -> Prop) (m : M World A) h :
  post P m -> (forall e, post P (h e)) -> post P (try_except m h).
Proof.
  intros Hm Hh w. unfold try_except. specialize (Hm w).
  destruct (m w) as [[a|e] w1]; simpl in *; [exact Hm|]. apply Hh.
Qed.

Lemma post_weaken {A} (Q P : A -> Prop) (m : M World A) :
  post Q m -> (forall a, Q a -> P a) -> post P m.
Proof.
  intros Hm H w. specialize (Hm w). destruct (fst (m w)); auto.
Qed.

Lemma try_ret_total {A} (m : M World A) (h : exn -> A) w :
  exists a w', try_except m (fun e => ret (h e)) w = (Ok a, w').
Proof.
  unfold try_except, ret. destruct (m w) as [[a|e] w1]; eauto.
Qed.

Lemma basic_info_of_good track track_id d :
  basic_info_of track track_id = Ok d -> good d.
Proof.
  unfold basic_info_of.
  destruct (join_names (track_artists track)); cbn [bind]; [|discriminate].
  destruct (as_int (track_duration_ms track)); cbn [bind]; [|discriminate].
  destruct (match track_get_cover_url track with
            | Some called => called
            | None => Ok VNone
            end); cbn [bind]; [|discriminate].
  intros [= <-]. apply basic_literal_good.
Qed.

Lemma get_basic_track_info_post track_id :
  post (fun d => dict_has d (py "error") = true \/ good d)
    (get_basic_track_info exn_message client_tracks track_id).
Proof.
  unfold get_basic_track_info. apply post_try.
  - apply post_bind with (Q := fun _ => True); [apply post_any|].
    intros tracks _.
    apply post_bind with (Q := fun _ => True); [apply post_any|].
    intros track _. apply post_lift. intros d Hd. right.
    eapply basic_info_of_good; eauto.
  - intros e. apply post_ret. left. vm_compute. reflexivity.
Qed.

Lemma album_details_post album_id_arg info :
  good info ->
  post good (album_details client_albums_with_tracks album_id_arg info).
Proof.
  intros Hg. unfold album_details. apply post_try.
  - apply post_bind with (Q := fun _ => True); [apply post_any|].
    intros [album|] _; [|now apply post_ret].
    apply post_bind with (Q := fun _ => True); [apply post_any|].
    intros count _. apply post_ret.
    repeat (apply good_set_other; [vm_compute; reflexivity|]). exact Hg.
  - intros e. now apply post_ret.
Qed.

Lemma artist_entry_post artist :
  post (fun v => wf_artist v = true) (artist_entry client_artists artist).
Proof.
  unfold artist_entry. apply post_try.
  - apply post_bind with (Q := fun _ => True); [apply post_any|].
    intros datas _.
    apply post_bind with (Q := fun _ => True); [apply post_any|].
    intros artist_data _. apply post_ret. apply wf_artist_full.
    destruct (data_genres artist_data); [apply genres_value_ok|reflexivity].
  - intros e. apply post_ret. apply wf_artist_short.
Qed.

Lemma artists_loop_post artists : forall acc,
  forallb wf_artist acc = true ->
  post (fun l => forallb wf_artist l = true)
    (artists_loop client_artists artists acc).
Proof.
  induction artists as [|a artists IH]; intros acc Hacc; simpl.
  - now apply post_ret.
  - apply post_bind with (Q := fun v => wf_artist v = true);
      [apply artist_entry_post|].
    intros v Hv. apply IH. rewrite forallb_app, Hacc. simpl. now rewrite Hv.
Qed.

Lemma similar_details_post track_id info :
  good info ->
  post good (similar_details client_tracks_similar track_id info).
Proof.
  intros Hg. unfold similar_details. apply post_try.
  - apply post_bind with (Q := fun _ => True); [apply post_any|].
    intros [similar|] _; [|now apply post_ret].
    destruct (similar_tracks_attr similar) as [attr|]; [|now apply post_ret].
    apply post_bind with (Q := fun _ => True); [apply post_any|].
    intros tracks _.
    apply post_bind with (Q := fun l => forallb wf_similar l = true).
    + apply post_lift. apply similar_entries_wf.
    + intros entries He. apply post_ret. now apply good_set_similar.
  - intros e. apply post_ret. now apply good_set_similar.
Qed.

Lemma chart_details_post track_id info k :
  good info -> dict_has info k = true ->
  post (fun d => good d /\ dict_has d k = true)
    (chart_details client_chart_tracks track_id info).
Proof.
  intros Hg Hk. unfold chart_details. apply post_try.
  - apply post_bind with (Q := fun _ => True); [apply post_any|].
    intros items _. apply post_ret. split; [|now apply dict_has_set].
    apply good_set_chart; [|exact Hg]. now apply chart_loop_wf.
  - intros e. apply post_ret. split; [|now apply dict_has_set].
    now apply good_set_chart.
Qed.

Lemma get_extended_track_info_post track_id album_id_arg :
  post (fun d => dict_has d (py "error") = true \/
                 (good d /\ dict_has d (py "available") = true))
    (get_extended_track_info exn_message format_megabytes client_tracks
       client_albums_with_tracks client_artists client_tracks_similar
       client_chart_tracks track_id album_id_arg).
Proof.
  unfold get_extended_track_info. apply post_try.
  - apply post_bind with (Q := fun _ => True); [apply post_any|].
    intros tracks _.
    apply post_bind with (Q := fun _ => True); [apply post_any|].
    intros track _.
    apply post_bind
      with (Q := fun d => dict_has d (py "error") = true \/ good d);
      [apply get_basic_track_info_post|].
    intros info Hinfo.
    destruct (dict_has info (py "error")) eqn:He;
      [apply post_ret; now left|].
    destruct Hinfo as [Hinfo|Hg]; [congruence|].
    apply post_bind with (Q := good).
    { destruct (truthy album_id_arg
                && match track_albums track with [] => false | _ => true end);
        [now apply album_details_post|now apply post_ret]. }
    intros info1 Hg1.
    apply post_bind with (Q := fun l => forallb wf_artist l = true);
      [now apply artists_loop_post|].
    intros artists_info Ha.
    apply post_bind with (Q := good).
    { apply similar_details_post. now apply good_set_artists. }
    intros info2 Hg2.
    apply post_bind
      with (Q := fun d => good d /\ dict_has d (py "available") = true).
    { apply post_lift. intros info3 H3.
      eapply track_details_good; eauto. }
    intros info3 [Hg3 Hav].
    apply post_weaken
      with (Q := fun d => good d /\ dict_has d (py "available") = true);
      [now apply chart_details_post|].
    intros d Hd. now right.
  - intros e. apply post_ret. left. vm_compute. reflexivity.
Qed.

End ProviderFacts.

Lemma required_from_base d :
  forallb (dict_has d) base_keys = true ->
  dict_has d (py "available") = true ->
  forallb (dict_has d) required_keys = true.
Proof.
  intros Hb Ha. rewrite forallb_forall in *. intros k Hk.
  unfold required_keys in Hk. cbn [In] in Hk.
  repeat (destruct Hk as [<-|Hk]; [try exact Ha; apply Hb; cbv; tauto|]).
  destruct Hk.
Qed.

Lemma dict_has_false d k : dict_has d k = false -> dict_get d k = None.
Proof. unfold dict_has. destruct (dict_get d k); [discriminate|reflexivity]. Qed.

(** Without one of [required_keys] the extended formatter raises. *)
Lemma format_extended_info_raises repr d k :
  dict_has d (py "error") = false ->
  In k required_keys -> dict_has d k = false ->
  exists e, format_extended_info repr d = Raise e.
Proof.
  intros He Hk Hmiss. apply dict_has_false in Hmiss.
  unfold format_extended_info. rewrite He.
  unfold required_keys in Hk. cbn [In] in Hk.
  assert (Hbasic :
            In k [py "title"; py "artists"; py "album"; py "year";
                  py "duration"; py "genre"] ->
            exists e, basic_block repr d = Raise e).
  { intros Hin. cbn [In] in Hin. unfold basic_block, dict_getitem.
    repeat (destruct Hin as [<-|Hin];
            [repeat (first [rewrite Hmiss
                           |match goal with
                            | |- context [dict_get d ?x] =>
                              destruct (dict_get d x)
                            end];
                     cbn [bind]; eauto)|]).
    destruct Hin. }
  destruct Hk as [<-|[<-|[<-|[<-|[<-|[<-|Hk]]]]]];
    try (destruct Hbasic as (e & ->); [cbn [In]; tauto|];
         cbn [bind]; eauto; fail).
  destruct (basic_block repr d) as [t0|]; cbn [bind]; [|eauto].
  destruct (artists_block repr d t0) as [t1|]; cbn [bind]; [|eauto].
  destruct (album_block repr d t1) as [t2|]; cbn [bind]; [|eauto].
  destruct Hk as [<-|Hk].
  { unfold technical_block, dict_getitem. rewrite Hmiss. cbn [bind]. eauto. }
  destruct (technical_block repr d t2) as [t3|]; cbn [bind]; [|eauto].
  destruct (similar_block repr d t3) as [t4|]; cbn [bind]; [|eauto].
  destruct (chart_block repr d t4) as [t5|]; cbn [bind]; [|eauto].
  unfold links_block, dict_getitem.
  destruct Hk as [<-|[<-|[]]].
  - rewrite Hmiss. cbn [bind]. eauto.
  - destruct (dict_get d (py "cover_url")) as [c|]; cbn [bind]; [|eauto].
    destruct (truthy c); cbn [bind]; rewrite Hmiss; cbn [bind]; eauto.
Qed.

(** C10: [get_extended_track_info] always returns a dictionary; when it
    has no ['error'] key it has every key [format_extended_info] indexes
    without a test, and the formatter returns a text on it.  On a
    dictionary without ['error'] that lacks one of these keys the
    formatter raises. *)
Theorem extended_result_formats
  (repr : value -> str) (exn_message : exn -> str)
  (format_megabytes : Z -> result str) (World : Type)
  (client_tracks : list str -> M World (list Track))
  (client_albums_with_tracks : value -> M World (option AlbumWithTracks))
  (client_artists : value -> M World (list ArtistData))
  (client_tracks_similar : str -> M World (option SimilarTracks))
  (client_chart_tracks : str -> M World (list ChartItem))
  (track_id : str) (album_id_arg : value) :
  (forall w, exists d w',
      get_extended_track_info exn_message format_megabytes client_tracks
        client_albums_with_tracks client_artists client_tracks_similar
        client_chart_tracks track_id album_id_arg w = (Ok d, w')) /\
  (forall w d w',
      get_extended_track_info exn_message format_megabytes client_tracks
        client_albums_with_tracks client_artists client_tracks_similar
        client_chart_tracks track_id album_id_arg w = (Ok d, w') ->
      dict_has d (py "error") = false ->
      forallb (dict_has d) required_keys = true /\
      exists out, format_extended_info repr d = Ok out) /\
  (forall d k,
      dict_has d (py "error") = false ->
      In k required_keys -> dict_has d k = false ->
      exists e, format_extended_info repr d = Raise e).
Proof.
  split; [|split].
  - intros w. unfold get_extended_track_info. apply try_ret_total.
  - intros w d w' Hrun He.
    pose proof (get_extended_track_info_post exn_message format_megabytes
                  client_tracks client_albums_with_tracks client_artists
                  client_tracks_similar client_chart_tracks track_id
                  album_id_arg w) as H.
    rewrite Hrun in H. cbn [fst] in H. destruct H as [H|[[Hb Hwf] Ha]]; [congruence|].
    pose proof (required_from_base _ Hb Ha) as Hk.
    split; [exact Hk|]. apply format_extended_info_ok.
    now apply wf_extended_intro.
  - apply format_extended_info_raises.
Qed.

Lemma extended_result_formats_witness :
  exists d,
    sample_extended = (Ok d, tt) /\
    dict_has d (py "error") = false /\
    forallb (dict_has d) required_keys = true /\
    exists out, format_extended_info no_repr d = Ok out.
Proof.
  eexists. split; [vm_compute; reflexivity|].
  split; [vm_compute; reflexivity|].
  apply (proj1 (proj2 (extended_result_formats no_repr (fun _ => py "failure")
                         (fun _ => Ok (py "0.00")) sample_tracks
                         sample_albums_with_tracks sample_artists
                         sample_tracks_similar sample_chart_tracks (py "42")
                         (VInt 5))) tt _ tt);
    vm_compute; reflexivity.
Defined.

(** * Further properties *)

(** ** The link extractor: which identifier, and when none *)

Section ExtractorFacts.

Variable nd : N -> bool.

Lemma many1_nonempty a c s :
  accepts nd a c = true -> many1 nd a (c :: s) <> [].
Proof.
  simpl. intros ->. destruct (many1 nd a s); discriminate.
Qed.

(** The first remainder [\d+] offers is the one after the whole run. *)
Lemma many1_head a s t :
  hd_error (many1 nd a s) = Some t ->
  exists ds,
    ds <> [] /\ forallb (accepts nd a) ds = true /\ s = ds ++ t /\
    match t with c :: _ => accepts nd a c | [] => false end = false.
Proof.
  revert t. induction s as [|c s IH]; intros t; simpl; [discriminate|].
  destruct (accepts nd a c) eqn:Hc; [|discriminate].
  destruct (many1 nd a s) as [|t0 ts] eqn:E; simpl.
  - intros [= <-]. exists [c]. repeat split; try discriminate.
    + simpl. now rewrite Hc.
    + destruct s as [|c' s']; [reflexivity|].
      destruct (accepts nd a c') eqn:Hc'; [|reflexivity].
      exfalso. now apply (@many1_nonempty a c' s' Hc').
  - intros [= <-]. destruct (IH t0 eq_refl) as (ds & _ & Hds & -> & Ht).
    exists (c :: ds). repeat split; try discriminate; auto.
    simpl. now rewrite Hc.
Qed.

Lemma many1_complete a ds t :
  ds <> [] -> forallb (accepts nd a) ds = true -> In t (many1 nd a (ds ++ t)).
Proof.
  induction ds as [|d ds IH]; [congruence|]. intros _ H. simpl in *.
  apply andb_prop in H. destruct H as [-> H]. apply in_or_app.
  destruct ds as [|d' ds]; [right; now left|].
  left. apply IH; [discriminate|exact H].
Qed.

Lemma digits_group_head st m :
  hd_error (run nd digits_group st) = Some m ->
  exists ds,
    ds <> [] /\ forallb (is_decimal nd) ds = true /\
    rest st = ds ++ rest m /\ group1 m = Some ds /\
    starts_with_decimal nd (rest m) = false.
Proof.
  unfold digits_group. cbn [run rest group1]. rewrite map_map.
  destruct (many1 nd Dec (rest st)) as [|t ts] eqn:E; [discriminate|].
  cbn [List.map hd_error rest]. intros [= <-]. cbn [rest group1].
  destruct (@many1_head Dec (rest st) t) as (ds & Hne & Hds & Heq & Ht).
  { now rewrite E. }
  exists ds. rewrite Heq, firstn_length_sub. repeat split; auto.
Qed.

Lemma track_match_shape s m :
  match_at nd track_pattern s = Some m ->
  exists ds,
    ds <> [] /\ forallb (is_decimal nd) ds = true /\
    s = py "track/" ++ ds ++ rest m /\ group1 m = Some ds /\
    starts_with_decimal nd (rest m) = false.
Proof.
  intros E. pose proof (match_at_in _ _ _ E) as Hin.
  change track_pattern with (lit (py "track/") digits_group) in E, Hin.
  apply run_lit_in in Hin. destruct Hin as (t & Ht & _).
  cbn [rest] in Ht. subst s.
  unfold match_at in E. rewrite run_lit_eq in E.
  destruct (digits_group_head _ E) as (ds & Hne & Hds & Heq & Hg & Hq).
  cbn [rest] in Heq. subst t. exists ds. repeat split; auto.
Qed.

Lemma playlist_match_shape s m :
  match_at nd playlist_pattern s = Some m ->
  exists pre ds,
    ds <> [] /\ forallb (is_decimal nd) ds = true /\
    s = pre ++ py "?trackId=" ++ ds ++ rest m /\ group1 m = Some ds /\
    starts_with_decimal nd (rest m) = false.
Proof.
  intros E. pose proof (match_at_in _ _ _ E) as Hin.
  change playlist_pattern with
    (lit (py "playlists/")
       (Cat (Many1 Dec)
          (lit (py "/")
             (Cat (Many1 Dec) (lit (py "?trackId=") digits_group)))))
    in E, Hin.
  apply run_lit_in in Hin. destruct Hin as (t1 & H1 & _).
  cbn [rest] in H1. subst s.
  unfold match_at in E. rewrite run_lit_eq in E.
  cbn [run rest group1] in E. apply hd_error_flat_map in E.
  destruct E as (st & Hst & E).
  apply in_map_iff in Hst. destruct Hst as (t2 & <- & Hst).
  apply many1_in in Hst. destruct Hst as (d1 & _ & _ & ->).
  assert (Hin : exists m0, In m0
            (run nd (lit (py "/")
                       (Cat (Many1 Dec) (lit (py "?trackId=") digits_group)))
               (MState t2 None))).
  { destruct (run nd _ (MState t2 None)) as [|m0 ms]; [discriminate|].
    exists m0. now left. }
  destruct Hin as (m0 & Hin).
  apply run_lit_in in Hin. destruct Hin as (t3 & H3 & _).
  cbn [rest] in H3. subst t2.
  rewrite run_lit_eq in E.
  cbn [run rest group1] in E. apply hd_error_flat_map in E.
  destruct E as (st & Hst & E).
  apply in_map_iff in Hst. destruct Hst as (t4 & <- & Hst).
  apply many1_in in Hst. destruct Hst as (d2 & _ & _ & ->).
  assert (Hin : exists m1, In m1
            (run nd (lit (py "?trackId=") digits_group) (MState t4 None))).
  { destruct (run nd _ (MState t4 None)) as [|m1 ms]; [discriminate|].
    exists m1. now left. }
  destruct Hin as (m1 & Hin).
  apply run_lit_in in Hin. destruct Hin as (t5 & H5 & _).
  cbn [rest] in H5. subst t4.
  rewrite run_lit_eq in E.
  destruct (digits_group_head _ E) as (ds & Hne & Hds & Heq & Hg & Hq).
  cbn [rest] in Heq. subst t5.
  exists (py "playlists/" ++ d1 ++ py "/" ++ d2), ds.
  repeat split; auto. now rewrite <- !app_assoc.
Qed.

(** Where the identifier of a result stands in the input. *)
Lemma extract_track_id_shape url id :
  extract_track_id nd url = Some id ->
  id <> [] /\ forallb (is_decimal nd) id = true /\
  exists p q,
    (url = p ++ py "track/" ++ id ++ q \/
     url = p ++ py "?trackId=" ++ id ++ q) /\
    starts_with_decimal nd q = false.
Proof.
  unfold extract_track_id, patterns. cbn [first_match].
  destruct (search nd track_pattern url) as [m|] eqn:E1.
  { intros Hg. apply search_some in E1. destruct E1 as (p & s' & -> & Hm).
    destruct (track_match_shape _ Hm) as (ds & Hne & Hds & -> & Hg' & Hq).
    rewrite Hg' in Hg. injection Hg as <-.
    split; [exact Hne|split; [exact Hds|]].
    exists p, (rest m). split; [now left|exact Hq]. }
  rewrite (search_track_none_album_none _ _ E1).
  destruct (search nd playlist_pattern url) as [m|] eqn:E3; [|discriminate].
  intros Hg. apply search_some in E3. destruct E3 as (p & s' & -> & Hm).
  destruct (playlist_match_shape _ Hm) as (pre & ds & Hne & Hds & -> & Hg' & Hq).
  rewrite Hg' in Hg. injection Hg as <-.
  split; [exact Hne|split; [exact Hds|]].
  exists (p ++ pre), (rest m). split; [right; now rewrite <- app_assoc|exact Hq].
Qed.

Lemma not_in_by_existsb (x : N) (l : str) :
  existsb (N.eqb x) l = false -> ~ In x l.
Proof.
  intros H Hin. assert (existsb (N.eqb x) l = true); [|congruence].
  apply existsb_exists. exists x. split; [exact Hin|apply N.eqb_refl].
Qed.

Lemma search_found r p s :
  match_at nd r s <> None -> search nd r (p ++ s) <> None.
Proof. intros H E. apply H. now apply search_none with p. Qed.

Lemma track_match_complete d t :
  is_decimal nd d = true -> match_at nd track_pattern (py "track/" ++ d :: t) <> None.
Proof.
  intros Hd. unfold match_at.
  change track_pattern with (lit (py "track/") digits_group).
  rewrite run_lit_eq. unfold digits_group. cbn [run rest group1].
  rewrite map_map.
  destruct (many1 nd Dec (d :: t)) eqn:E; [|discriminate].
  exfalso. now apply (@many1_nonempty Dec d t Hd).
Qed.

Lemma flat_map_nonempty {A B} (f : A -> list B) l x :
  In x l -> f x <> [] -> flat_map f l <> [].
Proof.
  intros Hin Hf E. apply Hf. destruct (f x) as [|y ys] eqn:Ef; [reflexivity|].
  assert (In y (flat_map f l)).
  { apply in_flat_map. exists x. split; [exact Hin|]. rewrite Ef. now left. }
  rewrite E in H. destruct H.
Qed.

Lemma run_digits_cat_complete k ds t g :
  ds <> [] -> forallb (is_decimal nd) ds = true ->
  run nd k (MState t g) <> [] ->
  run nd (Cat (Many1 Dec) k) (MState (ds ++ t) g) <> [].
Proof.
  intros Hne Hds Hk. cbn [run rest group1].
  apply flat_map_nonempty with (x := MState t g); [|exact Hk].
  apply in_map_iff. exists t. split; [reflexivity|].
  now apply many1_complete.
Qed.

Lemma playlist_match_complete a b d t :
  a <> [] -> forallb (is_decimal nd) a = true ->
  b <> [] -> forallb (is_decimal nd) b = true ->
  is_decimal nd d = true ->
  match_at nd playlist_pattern
    (py "playlists/" ++ a ++ py "/" ++ b ++ py "?trackId=" ++ d :: t) <> None.
Proof.
  intros Ha Hda Hb Hdb Hd. unfold match_at.
  change playlist_pattern with
    (lit (py "playlists/")
       (Cat (Many1 Dec)
          (lit (py "/")
             (Cat (Many1 Dec) (lit (py "?trackId=") digits_group))))).
  rewrite run_lit_eq.
  assert (H : run nd (Cat (Many1 Dec)
                        (lit (py "/")
                           (Cat (Many1 Dec)
                              (lit (py "?trackId=") digits_group))))
                (MState (a ++ py "/" ++ b ++ py "?trackId=" ++ d :: t) None)
              <> []).
  { apply run_digits_cat_complete; auto. rewrite run_lit_eq.
    apply run_digits_cat_complete; auto. rewrite run_lit_eq.
    unfold digits_group. cbn [run rest group1]. rewrite map_map.
    destruct (many1 nd Dec (d :: t)) eqn:E; [|discriminate].
    exfalso. now apply (@many1_nonempty Dec d t Hd). }
  destruct (run nd _ _); [congruence|discriminate].
Qed.

Lemma first_match_found url :
  search nd track_pattern url <> None \/
  search nd playlist_pattern url <> None ->
  exists id, extract_track_id nd url = Some id.
Proof.
  intros H. unfold extract_track_id, patterns. cbn [first_match].
  destruct (search nd track_pattern url) as [m|] eqn:E1.
  { apply search_some in E1. destruct E1 as (p & s' & _ & Hm).
    destruct (track_match_shape _ Hm) as (ds & _ & _ & _ & -> & _). eauto. }
  rewrite (search_track_none_album_none _ _ E1).
  destruct (search nd playlist_pattern url) as [m|] eqn:E3.
  { apply search_some in E3. destruct E3 as (p & s' & _ & Hm).
    destruct (playlist_match_shape _ Hm) as (pre & ds & _ & _ & _ & -> & _).
    eauto. }
  destruct H as [H|H]; congruence.
Qed.

Lemma match_at_track_not_t c s :
  c <> 116%N -> match_at nd track_pattern (c :: s) = None.
Proof.
  intros Hc. unfold match_at, track_pattern. cbn [run rest accepts].
  destruct (N.eqb_spec c 116%N); [contradiction|reflexivity].
Qed.

Lemma search_skip_no_t p s :
  ~ In 116%N p ->
  search nd track_pattern (p ++ s) = search nd track_pattern s.
Proof.
  induction p as [|c p IH]; intros Hp; [reflexivity|].
  cbn [app search]. rewrite match_at_track_not_t by (intros ->; apply Hp; now left).
  apply IH. intros H. apply Hp. now right.
Qed.

Lemma decimal_not_t ds : forallb (is_decimal nd) ds = true -> ~ In 116%N ds.
Proof.
  intros H Hin. rewrite forallb_forall in H. specialize (H _ Hin).
  discriminate H.
Qed.

Lemma track_link_match ds q :
  ds <> [] -> forallb (is_decimal nd) ds = true ->
  starts_with_decimal nd q = false ->
  search nd track_pattern (py "track/" ++ ds ++ q)
  = Some (MState q (Some ds)).
Proof.
  intros Hne Hds Hq. apply search_here. unfold match_at.
  change track_pattern with (lit (py "track/") digits_group).
  rewrite run_lit_eq. now apply digits_group_greedy.
Qed.

End ExtractorFacts.

(** X1.  A text with no decimal digit, or with no lower-case letter t,
    gives no identifier: the patterns are case-sensitive and each needs
    digits. *)
Theorem extract_track_id_none (nd : N -> bool) (url : str) :
  forallb (fun c => negb (is_decimal nd c)) url = true \/ ~ In 116%N url ->
  extract_track_id nd url = None.
Proof.
  intros H. destruct (extract_track_id nd url) as [id|] eqn:E; [|reflexivity].
  exfalso. destruct (extract_track_id_shape _ _ E) as (Hne & Hds & p & q & Hu & _).
  destruct id as [|c id]; [congruence|].
  destruct H as [H|H].
  - rewrite forallb_forall in H. simpl in Hds. apply andb_prop in Hds.
    destruct Hds as [Hc _].
    assert (Hin : In c url).
    { destruct Hu as [-> | ->]; apply in_or_app; right; apply in_or_app;
        right; now left. }
    specialize (H _ Hin). rewrite Hc in H. discriminate.
  - apply H. destruct Hu as [-> | ->]; apply in_or_app; right;
      apply in_or_app; left; cbv; tauto.
Qed.

Lemma extract_track_id_none_witness :
  extract_track_id ascii_only (py "HTTPS://MUSIC.YANDEX.RU/TRACK/42") = None /\
  extract_track_id ascii_only (py "https://music.yandex.ru/track/") = None.
Proof.
  split.
  - apply extract_track_id_none. right. apply not_in_by_existsb.
    vm_compute. reflexivity.
  - apply extract_track_id_none. left. vm_compute. reflexivity.
Defined.

(** X2.  A returned identifier is never cut short: it stands in the input
    right after [track/] or [?trackId=], it is the whole run of digits
    there (no digit follows it), and it is not empty. *)
Theorem extract_track_id_whole_run (nd : N -> bool) (url id : str) :
  extract_track_id nd url = Some id ->
  id <> [] /\
  exists p q,
    (url = p ++ py "track/" ++ id ++ q \/
     url = p ++ py "?trackId=" ++ id ++ q) /\
    starts_with_decimal nd q = false.
Proof.
  intros H. destruct (extract_track_id_shape _ _ H) as (Hne & _ & Hpq).
  split; assumption.
Qed.

Lemma extract_track_id_whole_run_witness :
  exists p q,
    (py "https://music.yandex.ru/album/7/track/4512?from=x"
     = p ++ py "track/" ++ py "4512" ++ q \/
     py "https://music.yandex.ru/album/7/track/4512?from=x"
     = p ++ py "?trackId=" ++ py "4512" ++ q) /\
    starts_with_decimal ascii_only q = false.
Proof.
  apply (@extract_track_id_whole_run ascii_only
           (py "https://music.yandex.ru/album/7/track/4512?from=x") (py "4512")).
  vm_compute. reflexivity.
Defined.

(** X3.  Every text in which a decimal digit follows [track/] gives an
    identifier, and so does every text with a playlist link
    [playlists/<digits>/<digits>?trackId=<digit>...]. *)
Theorem extract_track_id_found (nd : N -> bool) :
  (forall p d t,
      is_decimal nd d = true ->
      exists id, extract_track_id nd (p ++ py "track/" ++ d :: t) = Some id) /\
  (forall p a b d t,
      a <> [] -> forallb (is_decimal nd) a = true ->
      b <> [] -> forallb (is_decimal nd) b = true ->
      is_decimal nd d = true ->
      exists id,
        extract_track_id nd
          (p ++ py "playlists/" ++ a ++ py "/" ++ b ++ py "?trackId=" ++ d :: t)
        = Some id).
Proof.
  split.
  - intros p d t Hd. apply first_match_found. left.
    apply search_found. now apply track_match_complete.
  - intros p a b d t Ha Hda Hb Hdb Hd. apply first_match_found. right.
    apply search_found. now apply playlist_match_complete.
Qed.

Lemma extract_track_id_found_witness :
  (exists id,
      extract_track_id ascii_only
        (py "look: " ++ py "track/" ++ 57%N :: py "x track/12") = Some id) /\
  (exists id,
      extract_track_id ascii_only
        (py "https://music.yandex.ru/users/u/" ++ py "playlists/" ++ py "10"
           ++ py "/" ++ py "3" ++ py "?trackId=" ++ 52%N :: py "2&x")
      = Some id).
Proof.
  destruct (extract_track_id_found ascii_only) as [H1 H2]. split.
  - apply H1. reflexivity.
  - apply H2; try discriminate; reflexivity.
Defined.

(** X4.  The two link forms the bot advertises and prints are read back:
    for every non-empty identifier of decimal digits, followed by no
    further digit, [https://music.yandex.ru/track/<id>] and
    [https://music.yandex.ru/album/<digits>/track/<id>] give that
    identifier. *)
Theorem extract_track_id_of_link (nd : N -> bool) (id q : str) :
  id <> [] -> forallb (is_decimal nd) id = true ->
  starts_with_decimal nd q = false ->
  extract_track_id nd (py "https://music.yandex.ru/track/" ++ id ++ q)
  = Some id /\
  forall album,
    forallb (is_decimal nd) album = true ->
    extract_track_id nd
      (py "https://music.yandex.ru/album/" ++ album ++ py "/track/" ++ id ++ q)
    = Some id.
Proof.
  intros Hne Hds Hq. split.
  - unfold extract_track_id, patterns. cbn [first_match].
    change (py "https://music.yandex.ru/track/" ++ id ++ q)
      with (py "https://music.yandex.ru/" ++ py "track/" ++ id ++ q).
    rewrite (search_skip nd track_pattern (py "https://music.yandex.ru/"))
      by reflexivity.
    now rewrite track_link_match.
  - intros album Ha. unfold extract_track_id, patterns. cbn [first_match].
    rewrite (search_skip nd track_pattern (py "https://music.yandex.ru/album/"))
      by reflexivity.
    rewrite (search_skip_no_t nd album) by (now apply decimal_not_t with nd).
    change (py "/track/" ++ id ++ q) with ([47%N] ++ py "track/" ++ id ++ q).
    rewrite (search_skip_no_t nd [47%N]) by (cbv; intuition discriminate).
    now rewrite track_link_match.
Qed.

Lemma extract_track_id_of_link_witness :
  extract_track_id ascii_only
    (py "https://music.yandex.ru/track/" ++ py "12345678" ++ py "?utm=1")
  = Some (py "12345678") /\
  extract_track_id ascii_only
    (py "https://music.yandex.ru/album/" ++ py "1234567" ++ py "/track/"
       ++ py "12345678" ++ py "?utm=1")
  = Some (py "12345678").
Proof.
  assert (Hne : py "12345678" <> []) by discriminate.
  assert (Hds : forallb (is_decimal ascii_only) (py "12345678") = true)
    by (vm_compute; reflexivity).
  assert (Hq : starts_with_decimal ascii_only (py "?utm=1") = false)
    by (vm_compute; reflexivity).
  destruct (@extract_track_id_of_link ascii_only (py "12345678") (py "?utm=1")
              Hne Hds Hq) as [H1 H2].
  split; [exact H1|]. apply H2. vm_compute. reflexivity.
Defined.

(** ** format_duration on all integers *)

Lemma utf8_decode_ascii (l : list N) :
  forallb (fun b => (b <? 128)%N) l = true -> utf8_decode l = l.
Proof.
  induction l as [|b l IH]; simpl; [reflexivity|].
  intros H. apply andb_prop in H. destruct H as [-> H]. now rewrite IH.
Qed.

Lemma codes_inj s1 s2 : codes s1 = codes s2 -> s1 = s2.
Proof.
  unfold codes. intros H.
  rewrite <- (string_of_list_ascii_of_string s1),
          <- (string_of_list_ascii_of_string s2).
  f_equal. revert H.
  generalize (list_ascii_of_string s1) (list_ascii_of_string s2).
  induction l as [|a l IH]; intros [|b l']; simpl; try discriminate; auto.
  intros [= Hab Hl]. f_equal; [|now apply IH].
  rewrite <- (ascii_N_embedding a), <- (ascii_N_embedding b). now rewrite Hab.
Qed.

Lemma uint_codes_ascii d :
  forallb (fun b => (b <? 128)%N) (codes (NilEmpty.string_of_uint d)) = true.
Proof. induction d; simpl; auto. Qed.

Lemma int_codes_ascii z :
  forallb (fun b => (b <? 128)%N)
    (codes (NilZero.string_of_int (Z.to_int z))) = true.
Proof.
  destruct z as [|p|p]; [reflexivity| |];
    cbn [Z.to_int NilZero.string_of_int];
    pose proof (DecimalPos.Unsigned.to_uint_nonnil p) as Hn;
    destruct (Pos.to_uint p) eqn:E; try congruence;
    rewrite <- E; unfold NilZero.string_of_uint; rewrite E;
    try (rewrite <- E; apply uint_codes_ascii);
    rewrite <- E; cbn [codes list_ascii_of_string List.map forallb];
    apply uint_codes_ascii.
Qed.

Lemma str_of_int_codes z :
  str_of_int z = codes (NilZero.string_of_int (Z.to_int z)).
Proof. unfold str_of_int, py. apply utf8_decode_ascii, int_codes_ascii. Qed.

Lemma str_of_int_inj a b : str_of_int a = str_of_int b -> a = b.
Proof.
  rewrite !str_of_int_codes. intros H. apply codes_inj in H.
  apply DecimalZ.to_int_inj.
  assert (Hok : forall z, Z.to_int z <> Decimal.Pos Decimal.Nil /\
                          Z.to_int z <> Decimal.Neg Decimal.Nil).
  { intros [|p|p]; split; try discriminate; cbn [Z.to_int];
      intros [= E]; now apply (DecimalPos.Unsigned.to_uint_nonnil p). }
  assert (Hs : Some (Z.to_int a) = Some (Z.to_int b)).
  { rewrite <- (NilZero.isi (Z.to_int a) (proj1 (Hok a)) (proj2 (Hok a))).
    rewrite <- (NilZero.isi (Z.to_int b) (proj1 (Hok b)) (proj2 (Hok b))).
    now rewrite H. }
  now injection Hs.
Qed.

Lemma str_of_int_negative z :
  (z < 0)%Z -> exists t, str_of_int z = 45%N :: t.
Proof.
  intros Hz. destruct z as [|p|p]; try lia.
  rewrite str_of_int_codes. cbn [Z.to_int NilZero.string_of_int].
  eexists. reflexivity.
Qed.

Lemma format_duration_form (n : Z) :
  format_duration n
  = str_of_int (n / 60) ++ py ":"
    ++ [(48 + Z.to_N ((n mod 60) / 10))%N; (48 + Z.to_N ((n mod 60) mod 10))%N].
Proof.
  unfold format_duration. rewrite format_02d_below_60; [reflexivity|].
  apply Z.mod_pos_bound. lia.
Qed.

(** X5.  Different durations never give the same text: [format_duration]
    is one-to-one on the integers. *)
Theorem format_duration_injective (a b : Z) :
  format_duration a = format_duration b -> a = b.
Proof.
  rewrite !format_duration_form.
  set (ra := (a mod 60)%Z). set (rb := (b mod 60)%Z).
  assert (Ha : (0 <= ra < 60)%Z) by (apply Z.mod_pos_bound; lia).
  assert (Hb : (0 <= rb < 60)%Z) by (apply Z.mod_pos_bound; lia).
  intros H.
  change (py ":") with [58%N] in H.
  assert (H' : ((str_of_int (a / 60) ++ [58%N])
                ++ [(48 + Z.to_N (ra / 10))%N]) ++ [(48 + Z.to_N (ra mod 10))%N]
               = ((str_of_int (b / 60) ++ [58%N])
                  ++ [(48 + Z.to_N (rb / 10))%N])
                 ++ [(48 + Z.to_N (rb mod 10))%N]).
  { rewrite <- !app_assoc. exact H. }
  apply app_inj_tail in H'. destruct H' as [H' H0].
  apply app_inj_tail in H'. destruct H' as [H' H1].
  apply app_inj_tail in H'. destruct H' as [Hm _].
  apply str_of_int_inj in Hm.
  assert (E1 : (ra / 10 = rb / 10)%Z).
  { assert (0 <= ra / 10)%Z by (apply Z.div_pos; lia).
    assert (0 <= rb / 10)%Z by (apply Z.div_pos; lia). lia. }
  assert (E0 : (ra mod 10 = rb mod 10)%Z).
  { assert (0 <= ra mod 10)%Z by (apply Z.mod_pos_bound; lia).
    assert (0 <= rb mod 10)%Z by (apply Z.mod_pos_bound; lia). lia. }
  assert (Er : ra = rb).
  { rewrite (Z.div_mod ra 10), (Z.div_mod rb 10) by lia. now rewrite E1, E0. }
  rewrite (Z.div_mod a 60), (Z.div_mod b 60) by lia.
  fold ra rb. now rewrite Hm, Er.
Qed.

(** X6.  On every integer, a negative one too, the minutes are the floor
    quotient by 60 and the seconds field is the two digits of the
    remainder, which lies between 0 and 59; a negative input gives a
    text that begins with a minus sign and still has a seconds field
    without sign (so -1 gives "-1:59"). *)
Theorem format_duration_negative (n : Z) :
  format_duration n
  = str_of_int (n / 60) ++ py ":"
    ++ [(48 + Z.to_N ((n mod 60) / 10))%N; (48 + Z.to_N ((n mod 60) mod 10))%N]
  /\ (0 <= n mod 60 < 60)%Z
  /\ ((n < 0)%Z -> exists t, format_duration n = 45%N :: t).
Proof.
  split; [apply format_duration_form|split].
  - apply Z.mod_pos_bound. lia.
  - intros Hn. rewrite format_duration_form.
    destruct (@str_of_int_negative (n / 60)%Z) as (t & ->).
    + apply Z.div_lt_upper_bound; lia.
    + eexists. reflexivity.
Qed.

Lemma format_duration_negative_witness :
  exists t, format_duration (-1) = 45%N :: t.
Proof.
  apply (proj2 (proj2 (format_duration_negative (-1)))). lia.
Defined.

Lemma format_duration_injective_witness :
  (125 = 125)%Z /\ format_duration 60 <> format_duration 100.
Proof.
  split.
  - apply format_duration_injective. reflexivity.
  - intros H. apply format_duration_injective in H. discriminate H.
Defined.

(** ** The formatters: when they fail *)

(** X7.  The basic formatter fails in one way only: on a record without
    ['error'] that lacks ['title'], ['artists'] or ['duration'], with a
    [KeyError] for the first of them that is missing; on every other
    record it returns a text. *)
Theorem format_basic_info_failure (repr : value -> str) (info : dict) :
  match format_basic_info repr info with
  | Ok _ =>
    dict_has info (py "error") = true \/ first_missing basic_keys info = None
  | Raise e =>
    dict_has info (py "error") = false /\
    exists k, first_missing basic_keys info = Some k /\ e = KeyError k
  end.
Proof.
  unfold format_basic_info, basic_keys, first_missing, dict_getitem, dict_has.
  destruct (dict_get info (py "error")); cbn [bind]; [now left|].
  destruct (dict_get info (py "title")); cbn [bind]; [|eauto].
  destruct (dict_get info (py "artists")); cbn [bind]; [|eauto].
  destruct (dict_get info (py "duration")); cbn [bind]; [|eauto].
  now right.
Qed.

Section FormatterFailures.

Variable repr : value -> str.

Lemma for_each_raises {A} (body : str -> A -> result str) l x :
  In x l -> (forall text, exists e, body text x = Raise e) ->
  forall text, exists e, for_each body l text = Raise e.
Proof.
  induction l as [|y l IH]; intros Hin Hx text; [destruct Hin|].
  simpl. destruct Hin as [->|Hin].
  - destruct (Hx text) as (e & ->). cbn [bind]. eauto.
  - destruct (body text y); cbn [bind]; eauto.
Qed.

Lemma similar_line_raises text i v :
  wf_similar v = false -> exists e, similar_line repr text (i, v) = Raise e.
Proof.
  unfold similar_line, py_getitem, dict_getitem.
  destruct v; cbn [bind]; eauto. cbn [wf_similar]. unfold dict_has.
  destruct (dict_get d (py "title")); cbn [bind]; [|eauto].
  destruct (dict_get d (py "artists")); cbn [bind]; [discriminate|eauto].
Qed.

Lemma chart_line_raises text v :
  wf_position v = false -> exists e, chart_line repr text v = Raise e.
Proof.
  unfold chart_line, py_getitem, dict_getitem.
  destruct v; cbn [bind]; eauto. cbn [wf_position]. unfold dict_has.
  destruct (dict_get d (py "progress")); cbn [bind]; [|eauto].
  destruct (dict_get d (py "position")); cbn [bind]; [discriminate|eauto].
Qed.

Lemma forallb_false_in {A} (f : A -> bool) l :
  forallb f l = false -> exists x, In x l /\ f x = false.
Proof.
  induction l as [|y l IH]; simpl; [discriminate|].
  destruct (f y) eqn:E; simpl.
  - intros H. destruct (IH H) as (x & ? & ?). eauto.
  - intros _. eauto.
Qed.

Lemma in_enumerate_inv {A} (l : list A) : forall start x,
  In x l -> exists i, In (i, x) (enumerate start l).
Proof.
  induction l as [|y l IH]; intros start x Hin; [destruct Hin|].
  simpl. destruct Hin as [->|Hin]; [eauto|].
  destruct (IH (start + 1)%Z x Hin) as (i & Hi). eauto.
Qed.

Lemma similar_block_raises info l text :
  dict_get info (py "similar_tracks") = Some (VList l) ->
  forallb wf_similar (firstn 3 l) = false ->
  exists e, similar_block repr info text = Raise e.
Proof.
  intros Hl Hwf. unfold similar_block, dict_get_default, dict_getitem.
  rewrite Hl. destruct l as [|x l']; [discriminate|].
  cbn [truthy bind py_slice_to py_iter].
  apply forallb_false_in in Hwf. destruct Hwf as (v & Hin & Hv).
  destruct (in_enumerate_inv _ 1%Z _ Hin) as (i & Hi).
  destruct (@for_each_raises _ (similar_line repr) _ (i, v) Hi
              (fun text => similar_line_raises text i v Hv)
              (text ++ py "🎶 <b>Похожие треки:</b>" ++ nl)) as (e & ->).
  cbn [bind]. eauto.
Qed.

Lemma chart_block_raises info l text :
  dict_get info (py "chart_positions") = Some (VList l) ->
  forallb wf_position l = false ->
  exists e, chart_block repr info text = Raise e.
Proof.
  intros Hl Hwf. unfold chart_block, dict_get_default, dict_getitem.
  rewrite Hl. destruct l as [|x l']; [discriminate|].
  cbn [truthy bind py_iter].
  apply forallb_false_in in Hwf. destruct Hwf as (v & Hin & Hv).
  apply (@for_each_raises _ (chart_line repr) _ v Hin
           (fun text => chart_line_raises text v Hv)).
Qed.

(** The extended formatter up to the two list sections. *)
Lemma format_extended_info_steps info a :
  dict_has info (py "error") = false ->
  wf_extended info = true ->
  same_on other_keys a info ->
  exists t4,
    format_extended_info repr a
    = (t5 <- similar_block repr a t4 ;;
       t6 <- chart_block repr a t5 ;; links_block repr a t6).
Proof.
  intros He Hwf Hsame.
  destruct (wf_extended_parts _ Hwf) as (Hk & Ha & _ & _).
  destruct (basic_block_ok repr _ Hk) as (B & HB).
  destruct (artists_block_ok repr _ Ha) as (A & HA).
  destruct (album_block_ok repr info) as (Al & HAl).
  destruct (@technical_block_ok repr info) as (T & HT);
    [apply required_key; [exact Hk|cbv; tauto]|].
  destruct (other_blocks_same repr Hsame) as (E0 & E1 & E2 & E3 & E4 & _).
  exists ((((B ++ A) ++ Al) ++ T)).
  unfold format_extended_info.
  rewrite E0, He, E1, HB. cbn [bind].
  rewrite E2, HA. cbn [bind]. rewrite E3, HAl. cbn [bind].
  rewrite E4, HT. cbn [bind]. reflexivity.
Qed.

End FormatterFailures.

(** X8.  On a record that is well-formed apart from its list of similar
    tracks, the extended formatter returns a text exactly when the first
    three entries of the list are dictionaries with ['title'] and
    ['artists']; later entries are never looked at.  Likewise for the
    chart positions, where every entry must be a dictionary with
    ['progress'] and ['position']. *)
Theorem format_extended_info_entries (repr : value -> str) (info : dict) :
  dict_has info (py "error") = false ->
  wf_extended info = true ->
  (forall l,
      (exists out,
          format_extended_info repr
            (dict_set info (py "similar_tracks") (VList l)) = Ok out) <->
      forallb wf_similar (firstn 3 l) = true) /\
  (forall l,
      (exists out,
          format_extended_info repr
            (dict_set info (py "chart_positions") (VList l)) = Ok out) <->
      forallb wf_position l = true).
Proof.
  intros He Hwf.
  destruct (format_extended_info_shape repr _ He Hwf)
    as (pre & S & C & L & HS & HC & Hshape).
  split; intros l; split.
  - intros (out & Hout).
    destruct (forallb wf_similar (firstn 3 l)) eqn:E; [reflexivity|].
    exfalso.
    destruct (@format_extended_info_steps repr info
                (dict_set info (py "similar_tracks") (VList l)) He Hwf)
      as (t4 & Hsteps).
    { apply same_on_set. vm_compute. reflexivity. }
    destruct (@similar_block_raises repr
                (dict_set info (py "similar_tracks") (VList l)) l t4
                (dict_get_set_same _ _ _) E) as (e & He').
    rewrite Hsteps, He' in Hout. discriminate Hout.
  - intros Hl. eexists. apply Hshape.
    + apply same_on_set. vm_compute. reflexivity.
    + intros text. apply similar_block_render; [|exact Hl].
      apply dict_get_set_same.
    + intros text. rewrite <- HC. apply chart_block_same.
      now apply dict_get_set_other.
  - intros (out & Hout).
    destruct (forallb wf_position l) eqn:E; [reflexivity|].
    exfalso.
    destruct (@format_extended_info_steps repr info
                (dict_set info (py "chart_positions") (VList l)) He Hwf)
      as (t4 & Hsteps).
    { apply same_on_set. vm_compute. reflexivity. }
    rewrite Hsteps in Hout.
    rewrite (@similar_block_same repr _ info) in Hout
      by (now apply dict_get_set_other).
    rewrite HS in Hout. cbn [bind] in Hout.
    destruct (@chart_block_raises repr
                (dict_set info (py "chart_positions") (VList l)) l (t4 ++ S)
                (dict_get_set_same _ _ _) E) as (e & He').
    rewrite He' in Hout. discriminate Hout.
  - intros Hl. eexists. apply Hshape.
    + apply same_on_set. vm_compute. reflexivity.
    + intros text. rewrite <- HS. apply similar_block_same.
      now apply dict_get_set_other.
    + intros text. apply chart_block_render; [|exact Hl].
      apply dict_get_set_same.
Qed.

Lemma format_extended_info_entries_witness :
  (exists out,
      format_extended_info no_repr
        (dict_set sample_record (py "similar_tracks")
           (VList [ similar_entry "t1" "a1"; similar_entry "t2" "a2";
                    similar_entry "t3" "a3"; VInt 4 ])) = Ok out) /\
  ~ (exists out,
        format_extended_info no_repr
          (dict_set sample_record (py "similar_tracks")
             (VList [ similar_entry "t1" "a1"; VInt 4 ])) = Ok out) /\
  ~ (exists out,
        format_extended_info no_repr
          (dict_set sample_record (py "chart_positions")
             (VList [ VDict [(py "position", VInt 1)] ])) = Ok out).
Proof.
  assert (He : dict_has sample_record (py "error") = false)
    by (vm_compute; reflexivity).
  assert (Hwf : wf_extended sample_record = true)
    by (vm_compute; reflexivity).
  destruct (format_extended_info_entries no_repr _ He Hwf) as [H1 H2].
  split; [|split].
  - apply H1. vm_compute. reflexivity.
  - intros H. apply H1 in H. vm_compute in H. discriminate H.
  - intros H. apply H2 in H. vm_compute in H. discriminate H.
Defined.

(** ** The provider: what the records hold *)

Lemma keeps_refl ks a : keeps ks a a.
Proof. intros k _. reflexivity. Qed.

Lemma keeps_trans ks a b c : keeps ks a b -> keeps ks b c -> keeps ks a c.
Proof. intros H1 H2 k Hk. rewrite H2, H1; auto. Qed.

Lemma keeps_set ks a K v :
  existsb (str_eqb K) ks = true -> keeps ks a (dict_set a K v).
Proof.
  intros HK k Hk. apply dict_get_set_other.
  destruct (str_eqb K k) eqn:E; [|reflexivity].
  apply str_eqb_eq in E. subst k. congruence.
Qed.

Lemma keeps_among ks ks' a b :
  forallb (fun k => existsb (str_eqb k) ks') ks = true ->
  keeps ks a b -> keeps ks' a b.
Proof.
  intros Hsub H k Hk. apply H.
  destruct (existsb (str_eqb k) ks) eqn:E; [|reflexivity].
  apply existsb_exists in E. destruct E as (k0 & Hin & Heq).
  apply str_eqb_eq in Heq. subst k0.
  rewrite forallb_forall in Hsub. rewrite (Hsub _ Hin) in Hk. discriminate.
Qed.

Lemma keeps_same_on ks keys a b :
  forallb (fun k => negb (existsb (str_eqb k) ks)) keys = true ->
  keeps ks a b -> same_on keys a b.
Proof.
  intros Hd H k Hin. rewrite forallb_forall in Hd. specialize (Hd _ Hin).
  symmetry. apply H. now destruct (existsb (str_eqb k) ks).
Qed.

Lemma same_on_trans keys a b c :
  same_on keys a b -> same_on keys b c -> same_on keys a c.
Proof. intros H1 H2 k Hk. rewrite H1, H2; auto. Qed.

Lemma in_by_existsb (k : str) l : existsb (str_eqb k) l = true -> In k l.
Proof.
  intros H. apply existsb_exists in H. destruct H as (x & Hin & Hx).
  apply str_eqb_eq in Hx. now subst x.
Qed.

Lemma album_fact_same a b :
  same_on album_keys a b -> album_fact a -> album_fact b.
Proof.
  intros H [Hn|(n & Hn & Hc & Hall)]; [left|right].
  - intros k Hin. rewrite <- (H k Hin). auto.
  - exists n. split; [exact Hn|]. split.
    + rewrite <- (H (py "album_tracks_count")); [exact Hc|]. now left.
    + intros k Hin. specialize (Hall k Hin). unfold dict_has in *.
      now rewrite <- (H k Hin).
Qed.

Lemma artists_fact_same track a b :
  same_on [py "artists_detailed"] a b ->
  artists_fact track a -> artists_fact track b.
Proof.
  intros H (l & Hl & Hn). exists l. split; [|exact Hn].
  rewrite <- (H (py "artists_detailed")); [exact Hl|]. now left.
Qed.

Lemma similar_fact_same a b :
  same_on [py "similar_tracks"] a b -> similar_fact a -> similar_fact b.
Proof.
  intros H. unfold similar_fact.
  rewrite <- (H (py "similar_tracks")); [auto|]. now left.
Qed.

Lemma technical_fact_same track a b :
  same_on technical_keys a b ->
  technical_fact track a -> technical_fact track b.
Proof.
  intros H (Hav & (s & Hs) & Hall). split; [|split].
  - rewrite <- (H (py "available")); [exact Hav|]. now left.
  - exists s. rewrite <- (H (py "file_size")); [exact Hs|].
    apply in_by_existsb. vm_compute. reflexivity.
  - intros k Hin. specialize (Hall k Hin). unfold dict_has in *.
    now rewrite <- (H k Hin).
Qed.

Lemma literal_no_extended v1 v2 v3 v4 v5 v6 v7 v8 v9 k :
  In k extended_keys ->
  dict_get [ (py "title", v1); (py "artists", v2); (py "duration", v3);
             (py "album", v4); (py "year", v5); (py "genre", v6);
             (py "cover_url", v7); (py "track_id", v8); (py "album_id", v9) ]
    k = None.
Proof.
  intros H. unfold extended_keys, album_keys, technical_keys in H.
  cbn [app In] in H.
  repeat (destruct H as [<-|H]; [vm_compute; reflexivity|]). destruct H.
Qed.

Lemma basic_info_of_literal track track_id d :
  basic_info_of track track_id = Ok d ->
  exists names ms album year genre cover album_id,
    join_names (track_artists track) = Ok names /\
    as_int (track_duration_ms track) = Ok ms /\
    d = [ (py "title", track_title track); (py "artists", VStr names);
          (py "duration", VStr (format_duration (ms / 1000)));
          (py "album", album); (py "year", year); (py "genre", genre);
          (py "cover_url", cover); (py "track_id", VStr track_id);
          (py "album_id", album_id) ].
Proof.
  unfold basic_info_of.
  destruct (join_names (track_artists track)) as [names|];
    cbn [bind]; [|discriminate].
  destruct (as_int (track_duration_ms track)) as [ms|];
    cbn [bind]; [|discriminate].
  destruct (match track_get_cover_url track with
            | Some called => called
            | None => Ok VNone
            end) as [cover|]; cbn [bind]; [|discriminate].
  intros [= <-]. do 7 eexists.
  split; [reflexivity|]. split; reflexivity.
Qed.

Lemma basic_info_of_total track track_id :
  basic_ok track -> exists d, basic_info_of track track_id = Ok d.
Proof.
  intros ((names & Hn) & (ms & Hms) & Hc). unfold basic_info_of.
  rewrite Hn, Hms. cbn [bind].
  destruct (track_get_cover_url track) as [[c|e]|]; cbn [bind]; eauto.
  exfalso. now apply (Hc e).
Qed.

Lemma similar_entries_length tracks : forall l,
  similar_entries tracks = Ok l -> List.length l = List.length tracks.
Proof.
  induction tracks as [|t tracks IH]; simpl; intros l.
  - now intros [= <-].
  - destruct (join_names (track_artists t)); cbn [bind]; [|discriminate].
    destruct (similar_entries tracks); cbn [bind]; [|discriminate].
    intros [= <-]. simpl. f_equal. now apply IH.
Qed.

Lemma chart_loop_length track_id items : forall acc,
  List.length (chart_loop track_id items acc)
  <= List.length acc + List.length items.
Proof.
  induction items as [|c items IH]; intros acc; cbn [chart_loop List.length].
  - lia.
  - eapply Nat.le_trans; [apply IH|].
    destruct (eq_str (item_track_id c) track_id);
      rewrite ?length_app; cbn [List.length]; lia.
Qed.

Lemma track_details_total format_megabytes track info :
  file_size_ok format_megabytes track ->
  exists d, track_details format_megabytes track info = Ok d.
Proof.
  intros H. unfold track_details. unfold file_size_ok in H.
  destruct (track_file_size track) as [size|].
  - destruct H as (n & megabytes & -> & Hm). cbn [bind]. rewrite Hm.
    cbn [bind]. eauto.
  - cbn [bind]. eauto.
Qed.

Lemma track_details_raises format_megabytes track info e :
  file_size_raises format_megabytes track e ->
  track_details format_megabytes track info = Raise e.
Proof.
  intros (size & n & Hs & Hn & Hm). unfold track_details.
  rewrite Hs, Hn. cbn [bind]. rewrite Hm. reflexivity.
Qed.

Lemma track_details_keeps format_megabytes track info info' :
  track_details format_megabytes track info = Ok info' ->
  keeps technical_keys info info' /\ technical_fact track info'.
Proof.
  unfold track_details. intros H.
  destruct (match track_file_size track with
            | Some size =>
              n <- as_int size ;;
              megabytes <- format_megabytes n ;;
              Ok (VStr (megabytes ++ py " MB"))
            | None => Ok (VStr (py "Неизвестно"))
            end) as [fs|e] eqn:E; cbn [bind] in H; [|discriminate].
  assert (Hfs : exists s, fs = VStr s).
  { destruct (track_file_size track) as [size|].
    - destruct (as_int size) as [n|]; cbn [bind] in E; [|discriminate].
      destruct (format_megabytes n); cbn [bind] in E; [|discriminate].
      injection E as <-. eauto.
    - injection E as <-. eauto. }
  destruct Hfs as (s & ->). cbv zeta in H. injection H as <-. split.
  - repeat (eapply keeps_trans; [|apply keeps_set; vm_compute; reflexivity]).
    apply keeps_refl.
  - split; [|split].
    + rewrite !dict_get_set_other by (vm_compute; reflexivity).
      apply dict_get_set_same.
    + exists s. rewrite !dict_get_set_other by (vm_compute; reflexivity).
      apply dict_get_set_same.
    + intros k Hk. unfold technical_keys in Hk. cbn [In] in Hk.
      unfold dict_has.
      repeat (destruct Hk as [<-|Hk];
              [rewrite ?dict_get_set_other by (vm_compute; reflexivity);
               now rewrite dict_get_set_same|]).
      destruct Hk.
Qed.

Ltac kept H := eapply keeps_same_on; [|exact H]; vm_compute; reflexivity.

Section ProviderResults.

Variable exn_message : exn -> str.
Variable format_megabytes : Z -> result str.
Variable World : Type.
Variable client_tracks : list str -> M World (list Track).
Variable client_albums_with_tracks : value -> M World (option AlbumWithTracks).
Variable client_artists : value -> M World (list ArtistData).
Variable client_tracks_similar : str -> M World (option SimilarTracks).
Variable client_chart_tracks : str -> M World (list ChartItem).

Notation "x <~ m ;; k" := (bindM m (fun x => k))
  (at level 61, m at next level, right associativity).

Lemma always_ret {A} (a : A) : always (ret (World := World) a).
Proof. intros w. unfold ret. eauto. Qed.

Lemma always_bind {A B} (m : M World A) (f : A -> M World B) :
  always m -> (forall a, always (f a)) -> always (bindM m f).
Proof.
  intros Hm Hf w. unfold bindM. destruct (Hm w) as (a & w1 & ->).
  apply Hf.
Qed.

Lemma always_try_ret {A} (m : M World A) (h : exn -> A) :
  always (try_except m (fun e => ret (h e))).
Proof. intros w. apply try_ret_total. Qed.

Lemma always_post {A} (P : A -> Prop) (m : M World A) w :
  always m -> post P m -> exists a w', m w = (Ok a, w') /\ P a.
Proof.
  intros Hm Hp. destruct (Hm w) as (a & w' & E). exists a, w'.
  split; [exact E|]. specialize (Hp w). now rewrite E in Hp.
Qed.

Lemma post_run {A} (P : A -> Prop) (m : M World A) w a w' :
  post P m -> m w = (Ok a, w') -> P a.
Proof. intros Hp E. specialize (Hp w). now rewrite E in Hp. Qed.

(** [get_basic_track_info]: an error record, or the literal for the
    first track the client returned. *)
Lemma get_basic_cases track_id w :
  exists d w',
    get_basic_track_info exn_message client_tracks track_id w = (Ok d, w') /\
    ((exists e, d = [ (py "error", VStr (basic_prefix ++ exn_message e)) ]) \/
     (exists t ts,
         client_tracks [track_id] w = (Ok (t :: ts), w') /\
         basic_info_of t track_id = Ok d)).
Proof.
  unfold basic_prefix, get_basic_track_info, try_except, bindM, lift, ret.
  destruct (client_tracks [track_id] w) as [[[|t ts]|e] w1]; cbn [head].
  - do 2 eexists. split; [reflexivity|]. left. eauto.
  - destruct (basic_info_of t track_id) as [d|e] eqn:E.
    + do 2 eexists. split; [reflexivity|]. right. eauto.
    + do 2 eexists. split; [reflexivity|]. left. eauto.
  - do 2 eexists. split; [reflexivity|]. left. eauto.
Qed.

Lemma album_details_keeps album_id_arg info :
  post (fun d =>
          keeps album_keys info d /\
          (d = info \/
           exists n, (0 <= n)%Z /\
             dict_get d (py "album_tracks_count") = Some (VInt n) /\
             forall k, In k album_keys -> dict_has d k = true))
    (album_details client_albums_with_tracks album_id_arg info).
Proof.
  unfold album_details. apply post_try.
  - apply post_bind with (Q := fun _ => True); [apply post_any|].
    intros [album|] _;
      [|apply post_ret; split; [apply keeps_refl|now left]].
    apply post_bind with (Q := fun c => exists n, (0 <= n)%Z /\ c = VInt n).
    + apply post_lift. intros c.
      destruct (truthy (full_volumes album)).
      * destruct (py_index0 (full_volumes album)) as [first|];
          cbn [bind]; [|discriminate].
        destruct (py_len first) as [n|] eqn:E; cbn [bind]; [|discriminate].
        intros [= <-]. exists n. split; [|reflexivity].
        destruct first; simpl in E; try discriminate; injection E as <-; lia.
      * intros [= <-]. exists 0%Z. split; [lia|reflexivity].
    + intros c (n & Hn & ->). apply post_ret. cbv zeta. split.
      * repeat (eapply keeps_trans;
                [|apply keeps_set; vm_compute; reflexivity]).
        apply keeps_refl.
      * right. exists n. split; [exact Hn|]. split.
        -- rewrite !dict_get_set_other by (vm_compute; reflexivity).
           apply dict_get_set_same.
        -- intros k Hk. unfold album_keys in Hk. cbn [In] in Hk.
           unfold dict_has.
           repeat (destruct Hk as [<-|Hk];
                   [rewrite ?dict_get_set_other by (vm_compute; reflexivity);
                    now rewrite dict_get_set_same|]).
           destruct Hk.
  - intros e. apply post_ret. split; [apply keeps_refl|now left].
Qed.

Lemma artist_entry_fields artist :
  post (fun v => entry_field (py "name") v = artist_name artist /\
                 entry_field (py "id") v = artist_id artist)
    (artist_entry client_artists artist).
Proof.
  unfold artist_entry. apply post_try.
  - apply post_bind with (Q := fun _ => True); [apply post_any|].
    intros datas _.
    apply post_bind with (Q := fun _ => True); [apply post_any|].
    intros artist_data _. apply post_ret. split; reflexivity.
  - intros e. apply post_ret. split; reflexivity.
Qed.

Lemma artists_loop_fields artists : forall acc,
  post (fun l =>
          List.map (entry_field (py "name")) l
          = List.map (entry_field (py "name")) acc
            ++ List.map artist_name artists /\
          List.map (entry_field (py "id")) l
          = List.map (entry_field (py "id")) acc
            ++ List.map artist_id artists)
    (artists_loop client_artists artists acc).
Proof.
  induction artists as [|a artists IH]; intros acc; cbn [artists_loop List.map].
  - apply post_ret. now rewrite !List.app_nil_r.
  - apply post_bind
      with (Q := fun v => entry_field (py "name") v = artist_name a /\
                          entry_field (py "id") v = artist_id a);
      [apply artist_entry_fields|].
    intros v [Hn Hi]. eapply post_weaken; [apply IH|].
    intros l [H1 H2]. rewrite H1, H2, !map_app. cbn [List.map].
    rewrite Hn, Hi, <- !app_assoc. split; reflexivity.
Qed.

Lemma artists_loop_always artists : forall acc,
  always (artists_loop client_artists artists acc).
Proof.
  induction artists as [|a artists IH]; intros acc; cbn [artists_loop].
  - apply always_ret.
  - apply always_bind; [|intros v; apply IH].
    unfold artist_entry. apply always_try_ret.
Qed.

Lemma similar_details_keeps track_id info :
  dict_get info (py "similar_tracks") = None ->
  post (fun d => keeps [py "similar_tracks"] info d /\ similar_fact d)
    (similar_details client_tracks_similar track_id info).
Proof.
  intros Hnone.
  assert (Hsame : keeps [py "similar_tracks"] info info /\ similar_fact info).
  { split; [apply keeps_refl|]. unfold similar_fact. now rewrite Hnone. }
  assert (Hset : forall entries,
             List.length entries <= 5 ->
             forallb wf_similar entries = true ->
             keeps [py "similar_tracks"] info
               (dict_set info (py "similar_tracks") (VList entries)) /\
             similar_fact
               (dict_set info (py "similar_tracks") (VList entries))).
  { intros entries Hlen Hwf. split.
    - apply keeps_set. vm_compute. reflexivity.
    - unfold similar_fact. rewrite dict_get_set_same. eauto. }
  unfold similar_details. apply post_try.
  - apply post_bind with (Q := fun _ => True); [apply post_any|].
    intros [similar|] _; [|now apply post_ret].
    destruct (similar_tracks_attr similar) as [attr|]; [|now apply post_ret].
    apply post_bind with (Q := fun tracks => List.length tracks <= 5).
    { apply post_lift. intros tracks. destruct attr as [l|]; [|discriminate].
      intros H. replace tracks with (firstn 5 l) by congruence.
      apply firstn_le_length. }
    intros tracks Hlen.
    apply post_bind
      with (Q := fun l => List.length l <= 5 /\ forallb wf_similar l = true).
    + apply post_lift. intros l Hl. split.
      * now rewrite (similar_entries_length _ Hl).
      * now apply similar_entries_wf with tracks.
    + intros entries [He1 He2]. apply post_ret. now apply Hset.
  - intros e. apply post_ret. apply Hset; [simpl; lia|reflexivity].
Qed.

Lemma chart_details_keeps track_id info :
  post (fun d => keeps [py "chart_positions"] info d /\ chart_fact d)
    (chart_details client_chart_tracks track_id info).
Proof.
  assert (Hset : forall l,
             List.length l <= 50 -> forallb wf_position l = true ->
             keeps [py "chart_positions"] info
               (dict_set info (py "chart_positions") (VList l)) /\
             chart_fact (dict_set info (py "chart_positions") (VList l))).
  { intros l Hlen Hwf. split.
    - apply keeps_set. vm_compute. reflexivity.
    - exists l. rewrite dict_get_set_same. auto. }
  unfold chart_details. apply post_try.
  - apply post_bind with (Q := fun _ => True); [apply post_any|].
    intros items _. apply post_ret. cbv zeta. apply Hset.
    + eapply Nat.le_trans; [apply chart_loop_length|].
      cbn [List.length plus]. apply firstn_le_length.
    + now apply chart_loop_wf.
  - intros e. apply post_ret. apply Hset; [simpl; lia|reflexivity].
Qed.

(** The steps after the basic record: what each adds, and that no step
    touches what an earlier one has set. *)
Lemma extended_rest_post track track_id album_id_arg info :
  (forall k, In k extended_keys -> dict_get info k = None) ->
  post (extended_fact track info)
    (extended_rest format_megabytes client_albums_with_tracks client_artists
       client_tracks_similar client_chart_tracks track track_id album_id_arg
       info).
Proof.
  intros Hnone. unfold extended_rest.
  assert (A0 : album_fact info).
  { left. intros k Hk. apply Hnone. unfold extended_keys.
    apply in_or_app. now left. }
  apply post_bind with (Q := fun i1 => keeps album_keys info i1 /\ album_fact i1).
  { destruct (truthy album_id_arg
              && match track_albums track with [] => false | _ => true end).
    - eapply post_weaken; [apply album_details_keeps|].
      intros d [Hk [->|Hr]]; (split; [exact Hk|]); [exact A0|now right].
    - apply post_ret. split; [apply keeps_refl|exact A0]. }
  intros i1 [K1 A1].
  apply post_bind
    with (Q := fun l =>
                 List.map (entry_field (py "name")) l
                 = List.map artist_name (track_artists track) /\
                 List.map (entry_field (py "id")) l
                 = List.map artist_id (track_artists track)).
  { eapply post_weaken; [apply (artists_loop_fields (track_artists track) [])|].
    intros l H. exact H. }
  intros l Hl. cbv zeta.
  set (i1' := dict_set i1 (py "artists_detailed") (VList l)).
  assert (K1' : keeps [py "artists_detailed"] i1 i1')
    by (apply keeps_set; vm_compute; reflexivity).
  assert (R1 : artists_fact track i1').
  { exists l. split; [apply dict_get_set_same|exact Hl]. }
  assert (Hsim : dict_get i1' (py "similar_tracks") = None).
  { rewrite (K1' (py "similar_tracks")) by (vm_compute; reflexivity).
    rewrite (K1 (py "similar_tracks")) by (vm_compute; reflexivity).
    apply Hnone. apply in_by_existsb. vm_compute. reflexivity. }
  apply post_bind
    with (Q := fun i2 => keeps [py "similar_tracks"] i1' i2 /\ similar_fact i2);
    [now apply similar_details_keeps|].
  intros i2 [K2 S2].
  apply post_bind
    with (Q := fun i3 => keeps technical_keys i2 i3 /\ technical_fact track i3).
  { apply post_lift. intros i3 H3.
    now apply track_details_keeps with format_megabytes. }
  intros i3 [K3 T3].
  eapply post_weaken; [apply chart_details_keeps|].
  intros d [K4 C4]. unfold extended_fact.
  split; [|split; [|split; [|split; [|split]]]].
  - apply keeps_trans with i3;
      [apply keeps_trans with i2;
       [apply keeps_trans with i1'; [apply keeps_trans with i1|]|]|];
      (eapply keeps_among; [|eassumption]; vm_compute; reflexivity).
  - apply album_fact_same with i1; [|exact A1].
    apply same_on_trans with i3;
      [apply same_on_trans with i2;
       [apply same_on_trans with i1'; [kept K1'|kept K2]|kept K3]|kept K4].
  - apply artists_fact_same with i1'; [|exact R1].
    apply same_on_trans with i3;
      [apply same_on_trans with i2; [kept K2|kept K3]|kept K4].
  - apply similar_fact_same with i2; [|exact S2].
    apply same_on_trans with i3; [kept K3|kept K4].
  - apply technical_fact_same with i3; [|exact T3]. kept K4.
  - exact C4.
Qed.

Lemma extended_rest_always track track_id album_id_arg info :
  file_size_ok format_megabytes track ->
  always
    (extended_rest format_megabytes client_albums_with_tracks client_artists
       client_tracks_similar client_chart_tracks track track_id album_id_arg
       info).
Proof.
  intros Hfs. unfold extended_rest. apply always_bind.
  { destruct (truthy album_id_arg
              && match track_albums track with [] => false | _ => true end);
      [unfold album_details; apply always_try_ret|apply always_ret]. }
  intros i1. apply always_bind; [apply artists_loop_always|].
  intros l. cbv zeta. apply always_bind.
  { unfold similar_details. apply always_try_ret. }
  intros i2. apply always_bind.
  { destruct (track_details_total format_megabytes track i2 Hfs) as (d & ->).
    apply always_ret. }
  intros i3. unfold chart_details. apply always_try_ret.
Qed.

Lemma extended_rest_raises track track_id album_id_arg info e w :
  file_size_raises format_megabytes track e ->
  exists w',
    extended_rest format_megabytes client_albums_with_tracks client_artists
      client_tracks_similar client_chart_tracks track track_id album_id_arg
      info w = (Raise e, w').
Proof.
  intros Hfs. unfold extended_rest, bindM.
  assert (Ha : always
                 (if truthy album_id_arg
                     && match track_albums track with
                        | [] => false
                        | _ => true
                        end
                  then album_details client_albums_with_tracks album_id_arg
                         info
                  else ret info)).
  { destruct (truthy album_id_arg
              && match track_albums track with [] => false | _ => true end);
      [unfold album_details; apply always_try_ret|apply always_ret]. }
  destruct (Ha w) as (i1 & wa & ->).
  destruct (artists_loop_always (track_artists track) [] wa)
    as (l & wb & ->).
  cbv zeta.
  assert (Hs : always
                 (similar_details client_tracks_similar track_id
                    (dict_set i1 (py "artists_detailed") (VList l)))).
  { unfold similar_details. apply always_try_ret. }
  destruct (Hs wb) as (i2 & wc & ->).
  unfold lift. rewrite (track_details_raises _ Hfs). eauto.
Qed.

Lemma get_extended_unfold track_id album_id_arg :
  get_extended_track_info exn_message format_megabytes client_tracks
    client_albums_with_tracks client_artists client_tracks_similar
    client_chart_tracks track_id album_id_arg
  = try_except
      (tracks <~ client_tracks [track_id] ;;
       track <~ lift (head tracks) ;;
       info <~ get_basic_track_info exn_message client_tracks track_id ;;
       if dict_has info (py "error") then ret info
       else
         extended_rest format_megabytes client_albums_with_tracks
           client_artists client_tracks_similar client_chart_tracks track
           track_id album_id_arg info)
      (fun e => ret [ (py "error", VStr (extended_prefix ++ exn_message e)) ]).
Proof. unfold extended_prefix. reflexivity. Qed.

(** A result of [get_extended_track_info] without ['error']: the track
    it was built from, the basic record, and what was added. *)
Lemma get_extended_result track_id album_id_arg w d w' :
  get_extended_track_info exn_message format_megabytes client_tracks
    client_albums_with_tracks client_artists client_tracks_similar
    client_chart_tracks track_id album_id_arg w = (Ok d, w') ->
  dict_has d (py "error") = false ->
  exists t ts w1 t' ts' w2 info,
    client_tracks [track_id] w = (Ok (t :: ts), w1) /\
    client_tracks [track_id] w1 = (Ok (t' :: ts'), w2) /\
    get_basic_track_info exn_message client_tracks track_id w1
    = (Ok info, w2) /\
    basic_info_of t' track_id = Ok info /\
    extended_fact t info d.
Proof.
  rewrite get_extended_unfold. unfold try_except at 1. unfold bindM at 1.
  intros H He.
  destruct (client_tracks [track_id] w) as [[[|t ts]|e] w1] eqn:E1.
  - unfold bindM, lift, ret in H. cbn [head] in H. injection H as <- <-.
    vm_compute in He. discriminate He.
  - unfold bindM at 1 in H. unfold lift at 1 in H. cbn [head] in H.
    unfold bindM at 1 in H.
    destruct (get_basic_cases track_id w1) as (info & w2 & E2 & Hinfo).
    rewrite E2 in H.
    destruct (dict_has info (py "error")) eqn:Herr.
    { unfold ret in H. injection H as <- <-. congruence. }
    destruct Hinfo as [(e & ->)|(t' & ts' & E3 & Hlit)];
      [vm_compute in Herr; discriminate Herr|].
    destruct (basic_info_of_literal _ _ Hlit)
      as (names & ms & al & yr & ge & co & ai & _ & _ & Hd).
    assert (Hnone : forall k, In k extended_keys -> dict_get info k = None).
    { intros k Hk. rewrite Hd. now apply literal_no_extended. }
    pose proof (extended_rest_post t track_id album_id_arg info Hnone w2) as Hp.
    destruct (extended_rest format_megabytes client_albums_with_tracks
                client_artists client_tracks_similar client_chart_tracks t
                track_id album_id_arg info w2) as [[d'|e] w3].
    + injection H as <- <-. cbn [fst] in Hp.
      exists t, ts, w1, t', ts', w2, info. auto.
    + unfold ret in H. injection H as <- <-.
      vm_compute in He. discriminate He.
  - unfold ret in H. injection H as <- <-.
    vm_compute in He. discriminate He.
Qed.

End ProviderResults.

Lemma format_basic_info_error repr m :
  format_basic_info repr [ (py "error", VStr m) ] = Ok (py "❌ " ++ m).
Proof.
  unfold format_basic_info, dict_has, dict_getitem.
  replace (dict_get [ (py "error", VStr m) ] (py "error"))
    with (Some (VStr m)) by (vm_compute; reflexivity).
  reflexivity.
Qed.

Lemma format_extended_info_error repr m :
  format_extended_info repr [ (py "error", VStr m) ] = Ok (py "❌ " ++ m).
Proof.
  unfold format_extended_info, dict_has, dict_getitem.
  replace (dict_get [ (py "error", VStr m) ] (py "error"))
    with (Some (VStr m)) by (vm_compute; reflexivity).
  reflexivity.
Qed.

Lemma format_basic_info_literal repr title names duration v4 v5 v6 v7 v8 v9 :
  format_basic_info repr
    [ (py "title", title); (py "artists", VStr names);
      (py "duration", VStr duration); (py "album", v4); (py "year", v5);
      (py "genre", v6); (py "cover_url", v7); (py "track_id", v8);
      (py "album_id", v9) ]
  = Ok (py "🎵 <b>" ++ py_str repr title ++ py "</b>" ++ nl
        ++ py "👤 <b>Исполнитель:</b> " ++ names ++ nl
        ++ py "⏱ <b>Длительность:</b> " ++ duration ++ nl).
Proof.
  set (d := [ (py "title", title); (py "artists", VStr names);
              (py "duration", VStr duration); (py "album", v4);
              (py "year", v5); (py "genre", v6); (py "cover_url", v7);
              (py "track_id", v8); (py "album_id", v9) ]).
  assert (H0 : dict_get d (py "error") = None) by (vm_compute; reflexivity).
  assert (H1 : dict_get d (py "title") = Some title)
    by (vm_compute; reflexivity).
  assert (H2 : dict_get d (py "artists") = Some (VStr names))
    by (vm_compute; reflexivity).
  assert (H3 : dict_get d (py "duration") = Some (VStr duration))
    by (vm_compute; reflexivity).
  unfold format_basic_info, dict_has, dict_getitem.
  rewrite H0, H1, H2, H3. cbn [bind py_str].
  rewrite <- !app_assoc. reflexivity.
Qed.

(** X9.  [get_basic_track_info] never raises.  It returns the one-key
    error record, or the record of the first track the client returned:
    its nine keys in the order written, the title, the artist names
    joined by a comma, the duration of the whole seconds and the
    identifier it was asked for. *)
Theorem get_basic_track_info_result
  (exn_message : exn -> str) (World : Type)
  (client_tracks : list str -> M World (list Track))
  (track_id : str) (w : World) :
  exists d w',
    get_basic_track_info exn_message client_tracks track_id w = (Ok d, w') /\
    ((exists e, d = [ (py "error", VStr (basic_prefix ++ exn_message e)) ]) \/
     (exists t ts names ms,
         client_tracks [track_id] w = (Ok (t :: ts), w') /\
         join_names (track_artists t) = Ok names /\
         as_int (track_duration_ms t) = Ok ms /\
         List.map fst d = nine_keys /\
         dict_get d (py "title") = Some (track_title t) /\
         dict_get d (py "artists") = Some (VStr names) /\
         dict_get d (py "duration")
         = Some (VStr (format_duration (ms / 1000))) /\
         dict_get d (py "track_id") = Some (VStr track_id))).
Proof.
  destruct (get_basic_cases exn_message client_tracks track_id w)
    as (d & w' & E & [He|(t & ts & Et & Hlit)]).
  - exists d, w'. split; [exact E|]. now left.
  - exists d, w'. split; [exact E|]. right.
    destruct (basic_info_of_literal _ _ Hlit)
      as (names & ms & al & yr & ge & co & ai & Hn & Hms & ->).
    exists t, ts, names, ms.
    split; [exact Et|]. split; [exact Hn|]. split; [exact Hms|].
    split; [reflexivity|].
    generalize (format_duration (ms / 1000)). intros dur.
    split; [vm_compute; reflexivity|]. split; [vm_compute; reflexivity|].
    split; vm_compute; reflexivity.
Qed.

(** X10.  The basic reply: [format_basic_info] never raises on what
    [get_basic_track_info] returns.  The text is the error line with the
    fixed prefix and the message of the exception, or the three lines
    with the title, the joined artist names and the duration of
    [duration_ms // 1000] seconds. *)
Theorem basic_reply_text
  (repr : value -> str) (exn_message : exn -> str) (World : Type)
  (client_tracks : list str -> M World (list Track))
  (track_id : str) (w : World) :
  exists d w' out,
    get_basic_track_info exn_message client_tracks track_id w = (Ok d, w') /\
    format_basic_info repr d = Ok out /\
    ((exists e, out = py "❌ " ++ basic_prefix ++ exn_message e) \/
     (exists t ts names ms,
         client_tracks [track_id] w = (Ok (t :: ts), w') /\
         join_names (track_artists t) = Ok names /\
         as_int (track_duration_ms t) = Ok ms /\
         out = py "🎵 <b>" ++ py_str repr (track_title t) ++ py "</b>" ++ nl
               ++ py "👤 <b>Исполнитель:</b> " ++ names ++ nl
               ++ py "⏱ <b>Длительность:</b> "
               ++ format_duration (ms / 1000) ++ nl)).
Proof.
  destruct (get_basic_cases exn_message client_tracks track_id w)
    as (d & w' & E & [(e & ->)|(t & ts & Et & Hlit)]).
  - do 3 eexists. split; [exact E|].
    split; [apply format_basic_info_error|]. left. eauto.
  - destruct (basic_info_of_literal _ _ Hlit)
      as (names & ms & al & yr & ge & co & ai & Hn & Hms & ->).
    do 3 eexists. split; [exact E|].
    split; [apply format_basic_info_literal|]. right.
    exists t, ts, names, ms. auto.
Qed.

(** X11.  [get_track_info] of the first variant never raises: it returns
    the error line, or three lines with the title, the joined artist
    names and the duration of [duration_ms // 1000] seconds, each ended
    by a line break. *)
Theorem get_track_info_result
  (repr : value -> str) (exn_message : exn -> str) (World : Type)
  (client_tracks : list str -> M World (list Track))
  (track_id : str) (w : World) :
  exists out w',
    get_track_info repr exn_message client_tracks track_id w = (Ok out, w') /\
    ((exists e,
         out = py "❌ Ошибка при получении информации: " ++ exn_message e) \/
     (exists t ts names ms,
         client_tracks [track_id] w = (Ok (t :: ts), w') /\
         join_names (track_artists t) = Ok names /\
         as_int (track_duration_ms t) = Ok ms /\
         out = py "<b>Название " ++ py_str repr (track_title t) ++ py "</b>"
               ++ nl
               ++ py "<b>Исполнитель:</b> " ++ names ++ nl
               ++ py "<b>Длительность:</b> " ++ format_duration (ms / 1000)
               ++ nl)).
Proof.
  unfold get_track_info, try_except, bindM, lift, ret.
  destruct (client_tracks [track_id] w) as [[[|t ts]|e] w1]; cbn [head].
  - do 2 eexists. split; [reflexivity|]. left. eauto.
  - unfold track_info_text.
    destruct (join_names (track_artists t)) as [names|e] eqn:Hn; cbn [bind];
      [|do 2 eexists; split; [reflexivity|]; left; eauto].
    destruct (as_int (track_duration_ms t)) as [ms|e] eqn:Hms; cbn [bind];
      [|do 2 eexists; split; [reflexivity|]; left; eauto].
    do 2 eexists. split; [reflexivity|]. right.
    exists t, ts, names, ms.
    split; [reflexivity|]. split; [exact Hn|]. split; [exact Hms|].
    cbv zeta. rewrite <- !app_assoc. reflexivity.
  - do 2 eexists. split; [reflexivity|]. left. eauto.
Qed.


(** X12.  The two variants agree: where [get_basic_track_info] returns a
    record without ['error'], [get_track_info], run from the same state
    of the service, returns the three lines built from the title, the
    artists and the duration of that record, and leaves the same
    state. *)
Theorem get_track_info_agrees
  (repr : value -> str) (exn_message exn_message' : exn -> str)
  (World : Type) (client_tracks : list str -> M World (list Track))
  (track_id : str) (w : World) (d : dict) (w' : World) :
  get_basic_track_info exn_message client_tracks track_id w = (Ok d, w') ->
  dict_has d (py "error") = false ->
  exists title names duration,
    dict_get d (py "title") = Some title /\
    dict_get d (py "artists") = Some (VStr names) /\
    dict_get d (py "duration") = Some (VStr duration) /\
    get_track_info repr exn_message' client_tracks track_id w
    = (Ok (py "<b>Название " ++ py_str repr title ++ py "</b>" ++ nl
           ++ py "<b>Исполнитель:</b> " ++ names ++ nl
           ++ py "<b>Длительность:</b> " ++ duration ++ nl), w').
Proof.
  intros E He.
  destruct (get_basic_cases exn_message client_tracks track_id w)
    as (d0 & w0 & E0 & H).
  rewrite E in E0. injection E0 as <- <-.
  destruct H as [(e & ->)|(t & ts & Et & Hlit)];
    [vm_compute in He; discriminate He|].
  destruct (basic_info_of_literal _ _ Hlit)
    as (names & ms & al & yr & ge & co & ai & Hn & Hms & ->).
  exists (track_title t), names, (format_duration (ms / 1000)).
  split; [|split; [|split]].
  - generalize (format_duration (ms / 1000)). intros dur.
    vm_compute. reflexivity.
  - generalize (format_duration (ms / 1000)). intros dur.
    vm_compute. reflexivity.
  - generalize (format_duration (ms / 1000)). intros dur.
    vm_compute. reflexivity.
  - unfold get_track_info, try_except, bindM, lift, ret.
    rewrite Et. cbn [head]. unfold track_info_text.
    rewrite Hn, Hms. cbn [bind]. cbv zeta.
    rewrite <- !app_assoc. reflexivity.
Qed.

Lemma get_track_info_agrees_witness :
  exists title names duration,
    dict_get
      [ (py "title", VStr (py "Song")); (py "artists", VStr (py "A, B"));
        (py "duration", VStr (py "3:05")); (py "album", VStr (py "Album"));
        (py "year", VInt 2020); (py "genre", VNone);
        (py "cover_url", VStr (py "https://img/400x400"));
        (py "track_id", VStr (py "42")); (py "album_id", VInt 5) ]
      (py "title") = Some title /\
    dict_get
      [ (py "title", VStr (py "Song")); (py "artists", VStr (py "A, B"));
        (py "duration", VStr (py "3:05")); (py "album", VStr (py "Album"));
        (py "year", VInt 2020); (py "genre", VNone);
        (py "cover_url", VStr (py "https://img/400x400"));
        (py "track_id", VStr (py "42")); (py "album_id", VInt 5) ]
      (py "artists") = Some (VStr names) /\
    dict_get
      [ (py "title", VStr (py "Song")); (py "artists", VStr (py "A, B"));
        (py "duration", VStr (py "3:05")); (py "album", VStr (py "Album"));
        (py "year", VInt 2020); (py "genre", VNone);
        (py "cover_url", VStr (py "https://img/400x400"));
        (py "track_id", VStr (py "42")); (py "album_id", VInt 5) ]
      (py "duration") = Some (VStr duration) /\
    get_track_info no_repr (fun _ => py "failure") sample_tracks (py "42") tt
    = (Ok (py "<b>Название " ++ py_str no_repr title ++ py "</b>" ++ nl
           ++ py "<b>Исполнитель:</b> " ++ names ++ nl
           ++ py "<b>Длительность:</b> " ++ duration ++ nl), tt).
Proof.
  apply (@get_track_info_agrees no_repr (fun _ => py "none")
           (fun _ => py "failure") unit sample_tracks (py "42") tt).
  - vm_compute. reflexivity.
  - vm_compute. reflexivity.
Defined.

Lemma nine_keys_kept info d :
  keeps extended_keys info d ->
  forall k, In k nine_keys -> dict_get d k = dict_get info k.
Proof.
  intros H k Hk. apply H. unfold nine_keys in Hk. cbn [In] in Hk.
  repeat (destruct Hk as [<-|Hk]; [vm_compute; reflexivity|]). destruct Hk.
Qed.

(** X13.  The extended record repeats the basic one: a result of
    [get_extended_track_info] without ['error'] has, at each of the nine
    basic keys, the value [get_basic_track_info] returned (run after the
    first lookup of the track), and its ['track_id'] is the identifier
    asked for; nothing the later steps add overwrites a basic field. *)
Theorem extended_keeps_basic_fields
  (exn_message : exn -> str) (format_megabytes : Z -> result str) (World : Type)
  (client_tracks : list str -> M World (list Track))
  (client_albums_with_tracks : value -> M World (option AlbumWithTracks))
  (client_artists : value -> M World (list ArtistData))
  (client_tracks_similar : str -> M World (option SimilarTracks))
  (client_chart_tracks : str -> M World (list ChartItem))
  (track_id : str) (album_id_arg : value) (w : World) (d : dict)
  (w' : World) :
  get_extended_track_info exn_message format_megabytes client_tracks
    client_albums_with_tracks client_artists client_tracks_similar
    client_chart_tracks track_id album_id_arg w = (Ok d, w') ->
  dict_has d (py "error") = false ->
  dict_get d (py "track_id") = Some (VStr track_id) /\
  exists t ts w1 w2 info,
    client_tracks [track_id] w = (Ok (t :: ts), w1) /\
    get_basic_track_info exn_message client_tracks track_id w1
    = (Ok info, w2) /\
    dict_has info (py "error") = false /\
    forall k, In k nine_keys -> dict_get d k = dict_get info k.
Proof.
  intros H He.
  destruct (get_extended_result _ _ _ _ _ _ _ _ _ _ H He)
    as (t & ts & w1 & t' & ts' & w2 & info & E1 & E2 & E3 & Hlit & Hf).
  destruct Hf as (K & _).
  pose proof (nine_keys_kept K) as Hk.
  destruct (basic_info_of_literal _ _ Hlit)
    as (names & ms & al & yr & ge & co & ai & _ & _ & Hd).
  split.
  - rewrite Hk by (apply in_by_existsb; vm_compute; reflexivity).
    rewrite Hd. generalize (format_duration (ms / 1000)). intros dur.
    vm_compute. reflexivity.
  - exists t, ts, w1, w2, info. split; [exact E1|]. split; [exact E3|].
    split; [|exact Hk]. rewrite Hd.
    generalize (format_duration (ms / 1000)). intros dur.
    vm_compute. reflexivity.
Qed.

Lemma extended_keeps_basic_fields_witness :
  exists d,
    sample_extended = (Ok d, tt) /\
    dict_get d (py "track_id") = Some (VStr (py "42")) /\
    exists t ts w1 w2 info,
      sample_tracks [py "42"] tt = (Ok (t :: ts), w1) /\
      get_basic_track_info (fun _ => py "failure") sample_tracks (py "42") w1
      = (Ok info, w2) /\
      dict_has info (py "error") = false /\
      forall k, In k nine_keys -> dict_get d k = dict_get info k.
Proof.
  eexists. split; [vm_compute; reflexivity|].
  apply (@extended_keeps_basic_fields (fun _ => py "failure")
           (fun _ => Ok (py "0.00")) unit sample_tracks sample_albums_with_tracks
           sample_artists sample_tracks_similar sample_chart_tracks (py "42")
           (VInt 5) tt _ tt);
    vm_compute; reflexivity.
Defined.

(** X14.  ['artists_detailed'] has one entry for each artist of the
    track, in the order of the track's artists, with that artist's name
    and id, whether the lookup of the artist succeeded or not. *)
Theorem extended_artists_in_order
  (exn_message : exn -> str) (format_megabytes : Z -> result str) (World : Type)
  (client_tracks : list str -> M World (list Track))
  (client_albums_with_tracks : value -> M World (option AlbumWithTracks))
  (client_artists : value -> M World (list ArtistData))
  (client_tracks_similar : str -> M World (option SimilarTracks))
  (client_chart_tracks : str -> M World (list ChartItem))
  (track_id : str) (album_id_arg : value) (w : World) (d : dict)
  (w' : World) :
  get_extended_track_info exn_message format_megabytes client_tracks
    client_albums_with_tracks client_artists client_tracks_similar
    client_chart_tracks track_id album_id_arg w = (Ok d, w') ->
  dict_has d (py "error") = false ->
  exists t ts w1 l,
    client_tracks [track_id] w = (Ok (t :: ts), w1) /\
    dict_get d (py "artists_detailed") = Some (VList l) /\
    List.length l = List.length (track_artists t) /\
    List.map (entry_field (py "name")) l
    = List.map artist_name (track_artists t) /\
    List.map (entry_field (py "id")) l
    = List.map artist_id (track_artists t).
Proof.
  intros H He.
  destruct (get_extended_result _ _ _ _ _ _ _ _ _ _ H He)
    as (t & ts & w1 & t' & ts' & w2 & info & E1 & _ & _ & _ & Hf).
  destruct Hf as (_ & _ & (l & Hl & Hn & Hi) & _).
  exists t, ts, w1, l. split; [exact E1|]. split; [exact Hl|].
  split; [|split; assumption].
  rewrite <- (length_map (entry_field (py "name")) l), Hn.
  apply length_map.
Qed.

Lemma extended_artists_in_order_witness :
  exists d,
    sample_extended = (Ok d, tt) /\
    exists t ts w1 l,
      sample_tracks [py "42"] tt = (Ok (t :: ts), w1) /\
      dict_get d (py "artists_detailed") = Some (VList l) /\
      List.length l = List.length (track_artists t) /\
      List.map (entry_field (py "name")) l
      = List.map artist_name (track_artists t) /\
      List.map (entry_field (py "id")) l
      = List.map artist_id (track_artists t).
Proof.
  eexists. split; [vm_compute; reflexivity|].
  apply (@extended_artists_in_order (fun _ => py "failure")
           (fun _ => Ok (py "0.00")) unit sample_tracks sample_albums_with_tracks
           sample_artists sample_tracks_similar sample_chart_tracks (py "42")
           (VInt 5) tt _ tt);
    vm_compute; reflexivity.
Defined.

(** X15.  The two lists are bounded: ['similar_tracks'], when the key is
    set, is a list of at most 5 entries, each with ['title'] and
    ['artists']; ['chart_positions'] is always set, to a list of at most
    50 entries, each with ['position'] and ['progress']. *)
Theorem extended_lists_bounded
  (exn_message : exn -> str) (format_megabytes : Z -> result str) (World : Type)
  (client_tracks : list str -> M World (list Track))
  (client_albums_with_tracks : value -> M World (option AlbumWithTracks))
  (client_artists : value -> M World (list ArtistData))
  (client_tracks_similar : str -> M World (option SimilarTracks))
  (client_chart_tracks : str -> M World (list ChartItem))
  (track_id : str) (album_id_arg : value) (w : World) (d : dict)
  (w' : World) :
  get_extended_track_info exn_message format_megabytes client_tracks
    client_albums_with_tracks client_artists client_tracks_similar
    client_chart_tracks track_id album_id_arg w = (Ok d, w') ->
  dict_has d (py "error") = false ->
  (forall v,
      dict_get d (py "similar_tracks") = Some v ->
      exists entries,
        v = VList entries /\ List.length entries <= 5 /\
        forallb wf_similar entries = true) /\
  (exists positions,
      dict_get d (py "chart_positions") = Some (VList positions) /\
      List.length positions <= 50 /\
      forallb wf_position positions = true).
Proof.
  intros H He.
  destruct (get_extended_result _ _ _ _ _ _ _ _ _ _ H He)
    as (t & ts & w1 & t' & ts' & w2 & info & _ & _ & _ & _ & Hf).
  destruct Hf as (_ & _ & _ & Hs & _ & Hc). split; [|exact Hc].
  intros v Hv. unfold similar_fact in Hs. now rewrite Hv in Hs.
Qed.

Lemma extended_lists_bounded_witness :
  exists d,
    sample_extended = (Ok d, tt) /\
    (forall v,
        dict_get d (py "similar_tracks") = Some v ->
        exists entries,
          v = VList entries /\ List.length entries <= 5 /\
          forallb wf_similar entries = true) /\
    (exists positions,
        dict_get d (py "chart_positions") = Some (VList positions) /\
        List.length positions <= 50 /\
        forallb wf_position positions = true).
Proof.
  eexists. split; [vm_compute; reflexivity|].
  apply (@extended_lists_bounded (fun _ => py "failure")
           (fun _ => Ok (py "0.00")) unit sample_tracks sample_albums_with_tracks
           sample_artists sample_tracks_similar sample_chart_tracks (py "42")
           (VInt 5) tt _ tt);
    vm_compute; reflexivity.
Defined.

(** X16.  The four album keys come together or not at all, and
    ['album_tracks_count'] is then a number that is not negative; the
    nine technical keys are always set, ['available'] to the track's own
    flag or to [True] and ['file_size'] to a string. *)
Theorem extended_album_and_technical_keys
  (exn_message : exn -> str) (format_megabytes : Z -> result str) (World : Type)
  (client_tracks : list str -> M World (list Track))
  (client_albums_with_tracks : value -> M World (option AlbumWithTracks))
  (client_artists : value -> M World (list ArtistData))
  (client_tracks_similar : str -> M World (option SimilarTracks))
  (client_chart_tracks : str -> M World (list ChartItem))
  (track_id : str) (album_id_arg : value) (w : World) (d : dict)
  (w' : World) :
  get_extended_track_info exn_message format_megabytes client_tracks
    client_albums_with_tracks client_artists client_tracks_similar
    client_chart_tracks track_id album_id_arg w = (Ok d, w') ->
  dict_has d (py "error") = false ->
  ((forall k, In k album_keys -> dict_has d k = false) \/
   (exists n, (0 <= n)%Z /\
      dict_get d (py "album_tracks_count") = Some (VInt n) /\
      forall k, In k album_keys -> dict_has d k = true)) /\
  exists t ts w1,
    client_tracks [track_id] w = (Ok (t :: ts), w1) /\
    dict_get d (py "available")
    = Some (or_default (track_available t) (VBool true)) /\
    (exists size, dict_get d (py "file_size") = Some (VStr size)) /\
    forall k, In k technical_keys -> dict_has d k = true.
Proof.
  intros H He.
  destruct (get_extended_result _ _ _ _ _ _ _ _ _ _ H He)
    as (t & ts & w1 & t' & ts' & w2 & info & E1 & _ & _ & _ & Hf).
  destruct Hf as (_ & Ha & _ & _ & Ht & _). split.
  - destruct Ha as [Hn|Hr]; [left|now right].
    intros k Hk. unfold dict_has. now rewrite (Hn k Hk).
  - exists t, ts, w1. split; [exact E1|exact Ht].
Qed.

Lemma extended_album_and_technical_keys_witness :
  exists d,
    sample_extended = (Ok d, tt) /\
    ((forall k, In k album_keys -> dict_has d k = false) \/
     (exists n, (0 <= n)%Z /\
        dict_get d (py "album_tracks_count") = Some (VInt n) /\
        forall k, In k album_keys -> dict_has d k = true)) /\
    exists t ts w1,
      sample_tracks [py "42"] tt = (Ok (t :: ts), w1) /\
      dict_get d (py "available")
      = Some (or_default (track_available t) (VBool true)) /\
      (exists size, dict_get d (py "file_size") = Some (VStr size)) /\
      forall k, In k technical_keys -> dict_has d k = true.
Proof.
  eexists. split; [vm_compute; reflexivity|].
  apply (@extended_album_and_technical_keys (fun _ => py "failure")
           (fun _ => Ok (py "0.00")) unit sample_tracks sample_albums_with_tracks
           sample_artists sample_tracks_similar sample_chart_tracks (py "42")
           (VInt 5) tt _ tt);
    vm_compute; reflexivity.
Defined.

(** X17.  The four sub-lookups are best effort, and the file size is
    not.  Let every lookup of the track give a track whose basic
    literal evaluates.  If the file size of the track, when it has one,
    is a number that the interpreter divides and formats, then
    [get_extended_track_info] returns a record without ['error'],
    whatever the lookups of the album, of the artists, of the similar
    tracks and of the chart do.  If it is a number on which the
    division raises (an integer too large for a float), the result is
    the ['error'] record with the message of that exception. *)
Theorem extended_sub_lookups_best_effort
  (exn_message : exn -> str) (format_megabytes : Z -> result str)
  (World : Type)
  (client_tracks : list str -> M World (list Track))
  (client_albums_with_tracks : value -> M World (option AlbumWithTracks))
  (client_artists : value -> M World (list ArtistData))
  (client_tracks_similar : str -> M World (option SimilarTracks))
  (client_chart_tracks : str -> M World (list ChartItem))
  (track_id : str) (album_id_arg : value) :
  (forall w, exists t ts w',
      client_tracks [track_id] w = (Ok (t :: ts), w') /\ basic_ok t) ->
  forall w t ts w1,
    client_tracks [track_id] w = (Ok (t :: ts), w1) ->
    (file_size_ok format_megabytes t ->
     exists d w',
       get_extended_track_info exn_message format_megabytes client_tracks
         client_albums_with_tracks client_artists client_tracks_similar
         client_chart_tracks track_id album_id_arg w = (Ok d, w') /\
       dict_has d (py "error") = false) /\
    (forall e,
        file_size_raises format_megabytes t e ->
        exists w',
          get_extended_track_info exn_message format_megabytes client_tracks
            client_albums_with_tracks client_artists client_tracks_similar
            client_chart_tracks track_id album_id_arg w
          = (Ok [ (py "error", VStr (extended_prefix ++ exn_message e)) ],
             w')).
Proof.
  intros Hc w t ts w1 E1. rewrite get_extended_unfold.
  destruct (Hc w1) as (t' & ts' & w2 & E2 & Hok').
  destruct (basic_info_of_total track_id Hok') as (info & Hlit).
  assert (E3 : get_basic_track_info exn_message client_tracks track_id w1
               = (Ok info, w2)).
  { unfold get_basic_track_info, try_except, bindM, lift.
    rewrite E2. cbn [head]. now rewrite Hlit. }
  destruct (basic_info_of_literal _ _ Hlit)
    as (names & ms & al & yr & ge & co & ai & _ & _ & Hd).
  assert (Herr : dict_has info (py "error") = false).
  { rewrite Hd. generalize (format_duration (ms / 1000)). intros dur.
    vm_compute. reflexivity. }
  assert (Hnone : forall k, In k extended_keys -> dict_get info k = None).
  { intros k Hk. rewrite Hd. now apply literal_no_extended. }
  split.
  - intros Hfs.
    destruct (@always_post World _ (extended_fact t info)
                (extended_rest format_megabytes client_albums_with_tracks
                   client_artists client_tracks_similar client_chart_tracks t
                   track_id album_id_arg info) w2
                (@extended_rest_always format_megabytes World
                   client_albums_with_tracks client_artists
                   client_tracks_similar client_chart_tracks t track_id
                   album_id_arg info Hfs)
                (@extended_rest_post format_megabytes World
                   client_albums_with_tracks client_artists
                   client_tracks_similar client_chart_tracks t track_id
                   album_id_arg info Hnone))
      as (d & w3 & E4 & (K & _)).
    exists d, w3. split.
    + unfold try_except at 1. unfold bindM at 1. rewrite E1.
      unfold bindM at 1. unfold lift at 1. cbn [head].
      unfold bindM at 1. rewrite E3, Herr, E4. reflexivity.
    + unfold dict_has in *.
      rewrite (K (py "error")) by (vm_compute; reflexivity). exact Herr.
  - intros e Hfs.
    destruct (@extended_rest_raises format_megabytes World
                client_albums_with_tracks client_artists
                client_tracks_similar client_chart_tracks t track_id
                album_id_arg info e w2 Hfs) as (w3 & E4).
    exists w3.
    unfold try_except at 1. unfold bindM at 1. rewrite E1.
    unfold bindM at 1. unfold lift at 1. cbn [head].
    unfold bindM at 1. rewrite E3, Herr, E4. reflexivity.
Qed.

Lemma extended_sub_lookups_best_effort_witness :
  (exists d w',
      get_extended_track_info (fun _ => py "failure") sample_megabytes
        (fun _ => ret [sized_track 4000000])
        (fun _ => lift (Raise (LibraryError (py "no album"))))
        (fun _ => lift (Raise (LibraryError (py "no artist"))))
        (fun _ => lift (Raise (LibraryError (py "no similar tracks"))))
        (fun _ => lift (Raise (LibraryError (py "no chart"))))
        (py "42") (VInt 5) tt = (Ok d, w') /\
      dict_has d (py "error") = false) /\
  (exists w',
      get_extended_track_info (fun _ => py "failure") sample_megabytes
        (fun _ => ret [sized_track (10 ^ 400)])
        sample_albums_with_tracks sample_artists sample_tracks_similar
        sample_chart_tracks (py "42") (VInt 5) tt
      = (Ok [ (py "error", VStr (extended_prefix ++ py "failure")) ], w')).
Proof.
  assert (Hb : forall size, basic_ok (sized_track size)).
  { intros size. split; [eexists; vm_compute; reflexivity|].
    split; [eexists; vm_compute; reflexivity|]. intros e H. discriminate H. }
  split.
  - apply (proj1
             (@extended_sub_lookups_best_effort (fun _ => py "failure")
                sample_megabytes unit (fun _ => ret [sized_track 4000000])
                (fun _ => lift (Raise (LibraryError (py "no album"))))
                (fun _ => lift (Raise (LibraryError (py "no artist"))))
                (fun _ => lift (Raise (LibraryError (py "no similar tracks"))))
                (fun _ => lift (Raise (LibraryError (py "no chart"))))
                (py "42") (VInt 5)
                (fun w => ex_intro _ (sized_track 4000000)
                            (ex_intro _ []
                               (ex_intro _ w (conj eq_refl (Hb 4000000%Z)))))
                tt (sized_track 4000000) [] tt eq_refl)).
    exists 4000000%Z, (py "0.00"). split; [reflexivity|].
    vm_compute. reflexivity.
  - apply (proj2
             (@extended_sub_lookups_best_effort (fun _ => py "failure")
                sample_megabytes unit (fun _ => ret [sized_track (10 ^ 400)])
                sample_albums_with_tracks sample_artists
                sample_tracks_similar sample_chart_tracks
                (py "42") (VInt 5)
                (fun w => ex_intro _ (sized_track (10 ^ 400))
                            (ex_intro _ []
                               (ex_intro _ w
                                  (conj eq_refl (Hb (10 ^ 400)%Z)))))
                tt (sized_track (10 ^ 400)) [] tt eq_refl) OverflowError).
    exists (VInt (10 ^ 400)), (10 ^ 400)%Z.
    split; [reflexivity|]. split; [reflexivity|].
    vm_compute. reflexivity.
Defined.

(** X18.  An error result is a record with the single key ['error'],
    whose text is one of two fixed prefixes followed by the message of
    the exception; the extended formatter shows it as one error line.
    Every other result has no ['error'] key. *)
Theorem extended_error_record
  (repr : value -> str)
  (exn_message : exn -> str) (format_megabytes : Z -> result str) (World : Type)
  (client_tracks : list str -> M World (list Track))
  (client_albums_with_tracks : value -> M World (option AlbumWithTracks))
  (client_artists : value -> M World (list ArtistData))
  (client_tracks_similar : str -> M World (option SimilarTracks))
  (client_chart_tracks : str -> M World (list ChartItem))
  (track_id : str) (album_id_arg : value) (w : World) :
  exists d w',
    get_extended_track_info exn_message format_megabytes client_tracks
      client_albums_with_tracks client_artists client_tracks_similar
      client_chart_tracks track_id album_id_arg w = (Ok d, w') /\
    (dict_has d (py "error") = false \/
     exists prefix e,
       (prefix = basic_prefix \/ prefix = extended_prefix) /\
       d = [ (py "error", VStr (prefix ++ exn_message e)) ] /\
       format_extended_info repr d
       = Ok (py "❌ " ++ prefix ++ exn_message e)).
Proof.
  assert (Herr : forall prefix e (w1 : World),
             prefix = basic_prefix \/ prefix = extended_prefix ->
             exists d w',
               (Ok [ (py "error", VStr (prefix ++ exn_message e)) ], w1)
               = (Ok d, w') /\
               (dict_has d (py "error") = false \/
                exists prefix e,
                  (prefix = basic_prefix \/ prefix = extended_prefix) /\
                  d = [ (py "error", VStr (prefix ++ exn_message e)) ] /\
                  format_extended_info repr d
                  = Ok (py "❌ " ++ prefix ++ exn_message e))).
  { intros prefix e w1 Hp. do 2 eexists. split; [reflexivity|]. right.
    exists prefix, e. split; [exact Hp|]. split; [reflexivity|].
    apply format_extended_info_error. }
  rewrite get_extended_unfold. unfold try_except at 1. unfold bindM at 1.
  destruct (client_tracks [track_id] w) as [[[|t ts]|e] w1] eqn:E1.
  - unfold bindM, lift, ret. cbn [head]. apply Herr. now right.
  - unfold bindM at 1. unfold lift at 1. cbn [head]. unfold bindM at 1.
    destruct (get_basic_cases exn_message client_tracks track_id w1)
      as (info & w2 & E2 & Hinfo).
    rewrite E2.
    destruct Hinfo as [(e & ->)|(t' & ts' & E3 & Hlit)].
    + replace (dict_has [ (py "error", VStr (basic_prefix ++ exn_message e)) ]
                 (py "error")) with true by (vm_compute; reflexivity).
      unfold ret. apply Herr. now left.
    + destruct (basic_info_of_literal _ _ Hlit)
        as (names & ms & al & yr & ge & co & ai & _ & _ & Hd).
      assert (Hno : dict_has info (py "error") = false).
      { rewrite Hd. generalize (format_duration (ms / 1000)). intros dur.
        vm_compute. reflexivity. }
      rewrite Hno.
      assert (Hnone : forall k, In k extended_keys -> dict_get info k = None).
      { intros k Hk. rewrite Hd. now apply literal_no_extended. }
      pose proof (extended_rest_post format_megabytes
                    client_albums_with_tracks client_artists
                    client_tracks_similar client_chart_tracks t track_id
                    album_id_arg info Hnone w2) as Hp.
      destruct (extended_rest format_megabytes client_albums_with_tracks
                  client_artists client_tracks_similar client_chart_tracks t
                  track_id album_id_arg info w2) as [[d'|e] w3].
      * do 2 eexists. split; [reflexivity|]. left. cbn [fst] in Hp.
        destruct Hp as (K & _). unfold dict_has in *.
        now rewrite (K (py "error")) by (vm_compute; reflexivity).
      * unfold ret. apply Herr. now right.
  - unfold ret. apply Herr. now right.
Qed.

(** ** The handlers *)

Lemma perform_log {World} (platform : action -> M World unit) a s r s' :
  perform platform a s = (r, s') ->
  actions s' = actions s ++ [a] /\ user_data s' = user_data s.
Proof.
  unfold perform. destruct (platform a (world s)) as [r0 w].
  intros [= <- <-]. split; reflexivity.
Qed.

Lemma perform_delivers {World} (platform : action -> M World unit) kind a s :
  delivers platform kind -> kind a = true ->
  exists s',
    perform platform a s = (Ok tt, s') /\
    actions s' = actions s ++ [a] /\ user_data s' = user_data s.
Proof.
  intros H Ha. destruct (H a (world s) Ha) as (w' & E).
  unfold perform. rewrite E. eexists. split; [reflexivity|].
  split; reflexivity.
Qed.

Lemma quiet_ret {World A} (a : A) : quiet (ret (World := bot_state World) a).
Proof. intros s. split; reflexivity. Qed.

Lemma quiet_lift {World A} (r : result A) :
  quiet (lift (World := bot_state World) r).
Proof. intros s. split; reflexivity. Qed.

Lemma quiet_outside {World A} (m : M World A) : quiet (outside m).
Proof.
  intros s. unfold outside. destruct (m (world s)). split; reflexivity.
Qed.

Lemma quiet_bind {World A B} (m : M (bot_state World) A)
  (f : A -> M (bot_state World) B) :
  quiet m -> (forall a, quiet (f a)) -> quiet (bindM m f).
Proof.
  intros Hm Hf s. unfold bindM. specialize (Hm s).
  destruct (m s) as [[a|e] s1]; cbn [snd] in *; [|exact Hm].
  destruct (Hf a s1) as [H1 H2]. destruct Hm as [H3 H4].
  split; congruence.
Qed.

Lemma quiet_try {World A} (m : M (bot_state World) A) h :
  quiet m -> (forall e, quiet (h e)) -> quiet (try_except m h).
Proof.
  intros Hm Hh s. unfold try_except. specialize (Hm s).
  destruct (m s) as [[a|e] s1]; cbn [snd] in *; [exact Hm|].
  destruct (Hh e s1) as [H1 H2]. destruct Hm as [H3 H4].
  split; congruence.
Qed.

Lemma quiet_run {World A} (m : M (bot_state World) A) s r s' :
  quiet m -> m s = (r, s') ->
  actions s' = actions s /\ user_data s' = user_data s.
Proof. intros H E. specialize (H s). now rewrite E in H. Qed.

Ltac quiet_tac :=
  repeat first
    [ apply quiet_ret
    | apply quiet_lift
    | apply quiet_outside
    | apply quiet_try; [|intros]
    | apply quiet_bind; [|intros]
    | match goal with
      | |- quiet (match ?x with _ => _ end) => destruct x
      end ].

Lemma quiet_get_basic {World} exn_message
  (client_tracks : list str -> M World (list Track)) track_id :
  quiet (get_basic_track_info exn_message
           (fun ids => outside (client_tracks ids)) track_id).
Proof. unfold get_basic_track_info. quiet_tac. Qed.

Lemma quiet_get_track_info {World} repr exn_message
  (client_tracks : list str -> M World (list Track)) track_id :
  quiet (get_track_info repr exn_message
           (fun ids => outside (client_tracks ids)) track_id).
Proof. unfold get_track_info. quiet_tac. Qed.

Lemma quiet_artists_loop {World}
  (client_artists : value -> M World (list ArtistData)) artists :
  forall acc,
    quiet (artists_loop (fun id => outside (client_artists id)) artists acc).
Proof.
  induction artists as [|a artists IH]; intros acc; cbn [artists_loop].
  - apply quiet_ret.
  - apply quiet_bind; [|intros v; apply IH]. unfold artist_entry. quiet_tac.
Qed.

Lemma quiet_get_extended {World} exn_message format_megabytes
  (client_tracks : list str -> M World (list Track))
  (client_albums_with_tracks : value -> M World (option AlbumWithTracks))
  (client_artists : value -> M World (list ArtistData))
  (client_tracks_similar : str -> M World (option SimilarTracks))
  (client_chart_tracks : str -> M World (list ChartItem))
  track_id album_id_arg :
  quiet (get_extended_track_info exn_message format_megabytes
           (fun ids => outside (client_tracks ids))
           (fun id => outside (client_albums_with_tracks id))
           (fun id => outside (client_artists id))
           (fun id => outside (client_tracks_similar id))
           (fun name => outside (client_chart_tracks name))
           track_id album_id_arg).
Proof.
  unfold get_extended_track_info.
  apply quiet_try; [|intros e; apply quiet_ret].
  apply quiet_bind; [apply quiet_outside|]. intros tracks.
  apply quiet_bind; [apply quiet_lift|]. intros track.
  apply quiet_bind; [apply quiet_get_basic|]. intros info.
  destruct (dict_has info (py "error")); [apply quiet_ret|].
  apply quiet_bind.
  { destruct (truthy album_id_arg
              && match track_albums track with [] => false | _ => true end);
      [unfold album_details; quiet_tac|apply quiet_ret]. }
  intros info1. apply quiet_bind; [apply quiet_artists_loop|].
  intros artists_info. cbv zeta.
  apply quiet_bind; [unfold similar_details; quiet_tac|]. intros info2.
  apply quiet_bind; [apply quiet_lift|]. intros info3.
  unfold chart_details. quiet_tac.
Qed.

(** [str.lower] and the keywords *)

Lemma lower_from_app nonascii_lower whole p : forall i q,
  lower_from nonascii_lower whole i (p ++ q)
  = lower_from nonascii_lower whole i p
    ++ lower_from nonascii_lower whole (i + List.length p) q.
Proof.
  induction p as [|c p IH]; intros i q; cbn [lower_from List.app List.length].
  - now rewrite Nat.add_0_r.
  - rewrite IH, <- app_assoc. do 3 f_equal. lia.
Qed.

Lemma lower_from_ascii nonascii_lower whole k : forall i,
  forallb (fun c => (c <? 128)%N) k = true ->
  lower_from nonascii_lower whole i k = List.map ascii_lower k.
Proof.
  induction k as [|c k IH]; intros i H; cbn [lower_from List.map];
    [reflexivity|].
  cbn [forallb] in H. apply andb_prop in H. destruct H as [Hc Hk].
  rewrite Hc, IH by exact Hk. reflexivity.
Qed.

Lemma starts_with_app sub q : starts_with sub (sub ++ q) = true.
Proof.
  induction sub as [|c sub IH]; cbn [starts_with List.app]; [reflexivity|].
  now rewrite N.eqb_refl, IH.
Qed.

Lemma str_contains_app sub p q : str_contains sub (p ++ sub ++ q) = true.
Proof.
  induction p as [|c p IH]; cbn [List.app].
  - destruct (sub ++ q) eqn:E; cbn [str_contains]; rewrite <- E;
      now rewrite starts_with_app.
  - cbn [str_contains]. rewrite IH. apply orb_true_r.
Qed.

Lemma lower_contains nonascii_lower text p k q word :
  text = p ++ k ++ q -> spells k word = true ->
  str_contains word (py_lower nonascii_lower text) = true.
Proof.
  intros Ht Hk. unfold spells in Hk. apply andb_prop in Hk.
  destruct Hk as [Ha Hw]. apply str_eqb_eq in Hw.
  unfold py_lower. rewrite Ht at 2. rewrite !lower_from_app.
  rewrite (lower_from_ascii _ _ _ _ Ha), Hw. apply str_contains_app.
Qed.

(** The payloads of the two buttons *)

Lemma decimal_not_underscore nd ds :
  forallb (is_decimal nd) ds = true -> ~ In 95%N ds.
Proof.
  intros H Hin. rewrite forallb_forall in H. specialize (H _ Hin).
  discriminate H.
Qed.

Lemma payload_round_trip nd id user_data :
  id <> [] -> forallb (is_decimal nd) id = true ->
  button_callback (py "basic_" ++ id) user_data = Basic (VStr id) /\
  button_callback (py "extended_" ++ id) user_data = Extended (VStr id).
Proof.
  intros Hne Hds. pose proof (decimal_not_underscore nd id Hds) as Hu.
  assert (H1 : split 95%N (py "basic_" ++ id) = [py "basic"; id]).
  { change (py "basic_" ++ id) with (py "basic" ++ 95%N :: id).
    rewrite split_at_sep by (apply not_in_by_existsb; vm_compute; reflexivity).
    now rewrite split_no_sep. }
  assert (H2 : split 95%N (py "extended_" ++ id) = [py "extended"; id]).
  { change (py "extended_" ++ id) with (py "extended" ++ 95%N :: id).
    rewrite split_at_sep by (apply not_in_by_existsb; vm_compute; reflexivity).
    now rewrite split_no_sep. }
  unfold button_callback, callback_track_id. rewrite H1, H2.
  cbn [List.hd]. destruct id as [|c id]; [congruence|].
  cbn [truthy negb].
  replace (str_eqb (py "basic") (py "basic")) with true
    by (vm_compute; reflexivity).
  replace (str_eqb (py "extended") (py "basic")) with false
    by (vm_compute; reflexivity).
  replace (str_eqb (py "extended") (py "extended")) with true
    by (vm_compute; reflexivity).
  split; reflexivity.
Qed.

(** X19.  What [handle_message] of the second variant does with a
    message, when the platform carries out the replies: it answers and
    returns.  A text without the two keywords gets the prompt; a text
    with them but without an identifier gets the notice of failure, and
    in both cases [user_data] is left alone; otherwise the identifier is
    stored under ['track_id'] and two buttons are offered, whose
    payloads [button_callback] reads back as this identifier and the
    matching branch, whatever [user_data] holds by then.  Which of the
    three it is, is fixed by the text: the keyword test and the
    extractor. *)
Theorem handle_message_outcomes
  (nd : N -> bool) (nonascii_lower : str -> nat -> str) (World : Type)
  (platform : action -> M World unit) (text : str) (s : bot_state World) :
  delivers platform is_reply ->
  exists s',
    handle_message nd nonascii_lower platform text s = (Ok tt, s') /\
    ((str_contains (py "yandex") (py_lower nonascii_lower text)
      && str_contains (py "music") (py_lower nonascii_lower text) = false /\
      user_data s' = user_data s /\
      actions s'
      = actions s
        ++ [ReplyText
              (py "📎 Отправьте мне ссылку на трек из Яндекс.Музыки." ++ nl
               ++ py "Используйте /start для справки.")]) \/
     (str_contains (py "yandex") (py_lower nonascii_lower text)
      && str_contains (py "music") (py_lower nonascii_lower text) = true /\
      extract_track_id nd text = None /\
      user_data s' = user_data s /\
      actions s'
      = actions s
        ++ [ReplyText (py "🔍 Обрабатываю ссылку...");
            ReplyText (py "❌ Не удалось извлечь ID трека из ссылки.")]) \/
     (exists id,
         str_contains (py "yandex") (py_lower nonascii_lower text)
         && str_contains (py "music") (py_lower nonascii_lower text) = true /\
         extract_track_id nd text = Some id /\
         user_data s' = dict_set (user_data s) (py "track_id") (VStr id) /\
         actions s'
         = actions s
           ++ [ReplyText (py "🔍 Обрабатываю ссылку...");
               ReplyKeyboard (py "Выберите уровень детализации информации:")
                 [ [ (py "📋 Основная информация", py "basic_" ++ id);
                     (py "📊 Расширенная информация",
                      py "extended_" ++ id) ] ]] /\
         forall later,
           button_callback (py "basic_" ++ id) later = Basic (VStr id) /\
           button_callback (py "extended_" ++ id) later
           = Extended (VStr id))).
Proof.
  intros Hd. unfold handle_message.
  destruct (str_contains (py "yandex") (py_lower nonascii_lower text)
            && str_contains (py "music") (py_lower nonascii_lower text)).
  - unfold bindM at 1.
    destruct (perform_delivers
                (ReplyText (py "🔍 Обрабатываю ссылку...")) s Hd eq_refl)
      as (s1 & -> & A1 & U1).
    destruct (extract_track_id nd text) as [id|] eqn:E.
    + destruct (@extract_track_id_shape nd text id E) as (Hne & Hds & _).
      destruct id as [|c id]; [congruence|].
      unfold bindM, set_user_data.
      match goal with
      | |- context [perform platform ?a ?st] =>
        destruct (perform_delivers a st Hd eq_refl)
          as (s2 & -> & A2 & U2)
      end.
      exists s2. split; [reflexivity|]. right. right. exists (c :: id).
      split; [reflexivity|]. split; [reflexivity|].
      cbn [actions user_data] in A2, U2.
      split; [now rewrite U2, U1|].
      split; [rewrite A2, A1, <- app_assoc; reflexivity|].
      intros later. now apply payload_round_trip with nd.
    + destruct (perform_delivers
                (ReplyText
                          (py "❌ Не удалось извлечь ID трека из ссылки."))
                  s1 Hd eq_refl) as (s2 & -> & A2 & U2).
      exists s2. split; [reflexivity|]. right. left.
      split; [reflexivity|]. split; [reflexivity|].
      split; [now rewrite U2, U1|].
      rewrite A2, A1, <- app_assoc. reflexivity.
  - destruct (perform_delivers
                (ReplyText
                        (py "📎 Отправьте мне ссылку на трек из Яндекс.Музыки."
                         ++ nl ++ py "Используйте /start для справки."))
                s Hd eq_refl) as (s1 & -> & A1 & U1).
    exists s1. split; [reflexivity|]. left. auto.
Qed.

Lemma handle_message_outcomes_witness :
  exists s',
    handle_message ascii_only (fun _ _ => []) sample_platform
      (py "check this out https://music.yandex.ru/track/42") sample_state
    = (Ok tt, s') /\
    user_data s' = [ (py "track_id", VStr (py "42")) ] /\
    button_callback (py "basic_42") (user_data s') = Basic (VStr (py "42")).
Proof.
  destruct (@handle_message_outcomes ascii_only (fun _ _ => []) unit
              sample_platform
              (py "check this out https://music.yandex.ru/track/42")
              sample_state) as (s' & E & H).
  { intros a w _. exists tt. destruct w. reflexivity. }
  exists s'. split; [exact E|].
  assert (Hid : extract_track_id ascii_only
                  (py "check this out https://music.yandex.ru/track/42")
                = Some (py "42")) by (vm_compute; reflexivity).
  assert (Hgate : str_contains (py "yandex")
                    (py_lower (fun _ _ => [])
                       (py "check this out https://music.yandex.ru/track/42"))
                  && str_contains (py "music")
                       (py_lower (fun _ _ => [])
                          (py "check this out https://music.yandex.ru/track/42"))
                  = true) by (vm_compute; reflexivity).
  destruct H as [(Hg & _)|[(_ & Hn & _)|(id & _ & Hi & Hu & _ & Hb)]].
  - rewrite Hgate in Hg. discriminate Hg.
  - rewrite Hid in Hn. discriminate Hn.
  - rewrite Hid in Hi. injection Hi as <-. split; [exact Hu|].
    apply (proj1 (Hb (user_data s'))).
Defined.

(** X20.  The keyword test is blind to letter case: a text in which
    the letters of "yandex" and of "music" occur in any mix of upper and
    lower case is taken for a link, and the first reply is the notice
    that it is being processed, not the prompt. *)
Theorem handle_message_keywords_any_case
  (nd : N -> bool) (nonascii_lower : str -> nat -> str) (World : Type)
  (platform : action -> M World unit) (text : str) (s : bot_state World)
  (p1 k1 q1 p2 k2 q2 : str) :
  text = p1 ++ k1 ++ q1 -> spells k1 (py "yandex") = true ->
  text = p2 ++ k2 ++ q2 -> spells k2 (py "music") = true ->
  exists r s' rest,
    handle_message nd nonascii_lower platform text s = (r, s') /\
    actions s'
    = actions s ++ ReplyText (py "🔍 Обрабатываю ссылку...") :: rest.
Proof.
  intros H1 Hk1 H2 Hk2. unfold handle_message.
  rewrite (@lower_contains nonascii_lower _ _ _ _ _ H1 Hk1).
  rewrite (@lower_contains nonascii_lower _ _ _ _ _ H2 Hk2).
  cbn [andb]. unfold bindM at 1.
  destruct (perform platform (ReplyText (py "🔍 Обрабатываю ссылку...")) s)
    as [[[]|e] s1] eqn:E1;
    destruct (perform_log _ _ _ E1) as [A1 U1].
  - destruct (extract_track_id nd text) as [[|c id]|]; cbv beta iota zeta.
    + match goal with
      | |- context [perform platform ?a s1] =>
        destruct (perform platform a s1) as [r s2] eqn:E2
      end.
      destruct (perform_log _ _ _ E2) as [A2 _].
      do 3 eexists. split; [reflexivity|].
      rewrite A2, A1, <- app_assoc. reflexivity.
    + unfold bindM, set_user_data.
      match goal with
      | |- context [perform platform ?a ?st] =>
        destruct (perform platform a st) as [r s2] eqn:E2
      end.
      destruct (perform_log _ _ _ E2) as [A2 _]. cbn [actions] in A2.
      do 3 eexists. split; [reflexivity|].
      rewrite A2, A1, <- app_assoc. reflexivity.
    + match goal with
      | |- context [perform platform ?a s1] =>
        destruct (perform platform a s1) as [r s2] eqn:E2
      end.
      destruct (perform_log _ _ _ E2) as [A2 _].
      do 3 eexists. split; [reflexivity|].
      rewrite A2, A1, <- app_assoc. reflexivity.
  - do 3 eexists. split; [reflexivity|]. rewrite A1. reflexivity.
Qed.

Lemma handle_message_keywords_any_case_witness :
  exists r s' rest,
    handle_message ascii_only (fun _ _ => []) sample_platform
      (py "HTTPS://" ++ py "MUSIC" ++ py ".YANDEX.RU/TRACK/42") sample_state
    = (r, s') /\
    actions s'
    = actions sample_state
      ++ ReplyText (py "🔍 Обрабатываю ссылку...") :: rest.
Proof.
  apply (@handle_message_keywords_any_case ascii_only (fun _ _ => []) unit
           sample_platform
           (py "HTTPS://" ++ py "MUSIC" ++ py ".YANDEX.RU/TRACK/42")
           sample_state
           (py "HTTPS://MUSIC.") (py "YANDEX") (py ".RU/TRACK/42")
           (py "HTTPS://") (py "MUSIC") (py ".YANDEX.RU/TRACK/42"));
    vm_compute; reflexivity.
Defined.

Lemma basic_formats {World} repr exn_message
  (client_tracks : list str -> M World (list Track)) track_id w :
  exists info w' out,
    get_basic_track_info exn_message client_tracks track_id w = (Ok info, w') /\
    format_basic_info repr info = Ok out.
Proof.
  destruct (get_basic_cases exn_message client_tracks track_id w)
    as (d & w' & E & [(e & ->)|(t & ts & Et & Hlit)]).
  - do 3 eexists. split; [exact E|apply format_basic_info_error].
  - destruct (basic_info_of_literal _ _ Hlit)
      as (names & ms & al & yr & ge & co & ai & _ & _ & ->).
    do 3 eexists. split; [exact E|apply format_basic_info_literal].
Qed.

Lemma extended_formats {World} repr exn_message format_megabytes
  (client_tracks : list str -> M World (list Track))
  (client_albums_with_tracks : value -> M World (option AlbumWithTracks))
  (client_artists : value -> M World (list ArtistData))
  (client_tracks_similar : str -> M World (option SimilarTracks))
  (client_chart_tracks : str -> M World (list ChartItem))
  track_id album_id_arg w :
  exists d w' out,
    get_extended_track_info exn_message format_megabytes client_tracks
      client_albums_with_tracks client_artists client_tracks_similar
      client_chart_tracks track_id album_id_arg w = (Ok d, w') /\
    format_extended_info repr d = Ok out.
Proof.
  assert (Ht : exists d w',
             get_extended_track_info exn_message format_megabytes
               client_tracks client_albums_with_tracks client_artists
               client_tracks_similar client_chart_tracks track_id
               album_id_arg w = (Ok d, w')).
  { unfold get_extended_track_info. apply try_ret_total. }
  destruct Ht as (d & w' & E).
  pose proof (get_extended_track_info_post exn_message format_megabytes
                client_tracks client_albums_with_tracks client_artists
                client_tracks_similar client_chart_tracks track_id
                album_id_arg w) as H.
  rewrite E in H. cbn [fst] in H. exists d, w'.
  destruct H as [H|[[Hb Hwf] Ha]].
  - unfold format_extended_info. rewrite H.
    destruct (dict_has_getitem _ _ H) as (e & ->). cbn [bind]. eauto.
  - destruct (format_extended_info_ok repr d) as (out & Hout).
    + apply wf_extended_intro; [|exact Hwf]. now apply required_from_base.
    + eauto.
Qed.

Ltac run_perform a s e E A U :=
  match goal with
  | |- context [perform ?p a ?st] =>
    destruct (perform p a st) as [[[]|e] s] eqn:E;
    destruct (perform_log _ _ _ E) as [A U];
    cbv beta iota
  end.

Ltac run_edit Hd s A U :=
  match goal with
  | |- context [perform ?p (EditMessageText ?t ?m ?d) ?st] =>
    destruct (perform_delivers (EditMessageText t m d) st Hd eq_refl)
      as (s & -> & A & U);
    cbn [actions user_data world] in A, U;
    cbv beta iota
  end.

Ltac log_eq :=
  repeat match goal with
         | H : actions _ = _ |- _ => rewrite H; clear H
         end;
  rewrite <- ?app_assoc; reflexivity.

(** X22.  The branch ['basic'] of [button_callback], on a platform that
    carries out the edits of the message: the branch returns, whatever
    the provider and the other requests do, and [user_data] is left
    alone.  After the notice it shows the text of [format_basic_info]
    for the record of [get_basic_track_info].  Without a cover the
    message is edited to the text.  With a cover the photo is sent with
    the text as its caption and the notice is deleted, and that is all
    when the platform carries out both; when it refuses one of the two,
    nothing after it is tried and the message is edited to the text. *)
Theorem basic_branch_shows_text
  (repr : value -> str) (exn_message : exn -> str) (World : Type)
  (client_tracks : list str -> M World (list Track))
  (platform : action -> M World unit) (track_id : str)
  (s : bot_state World) :
  delivers platform is_edit ->
  exists s' s1 s2 track_info out rest,
    basic_branch repr exn_message client_tracks platform track_id s
    = (Ok tt, s') /\
    user_data s' = user_data s /\
    perform platform
      (EditMessageText (py "📋 Получаю основную информацию...") None false) s
    = (Ok tt, s1) /\
    get_basic_track_info exn_message (fun ids => outside (client_tracks ids))
      track_id s1 = (Ok track_info, s2) /\
    format_basic_info repr track_info = Ok out /\
    actions s'
    = actions s
      ++ EditMessageText (py "📋 Получаю основную информацию...") None false
         :: rest /\
    ((has_cover track_info = false /\
      rest = [EditMessageText out (Some (py "HTML")) false]) \/
     (exists cover,
         dict_get track_info (py "cover_url") = Some cover /\
         truthy cover = true /\
         ((exists s3,
              perform_all platform [SendPhoto cover out; DeleteMessage] s2
              = (Ok tt, s3) /\
              rest = [SendPhoto cover out; DeleteMessage]) \/
          (exists n e s3 s4,
              n < 2 /\
              perform_all platform
                (firstn n [SendPhoto cover out; DeleteMessage]) s2
              = (Ok tt, s3) /\
              perform_all platform
                (firstn (S n) [SendPhoto cover out; DeleteMessage]) s2
              = (Raise e, s4) /\
              rest
              = firstn (S n) [SendPhoto cover out; DeleteMessage]
                ++ [EditMessageText out (Some (py "HTML")) false])))).
Proof.
  intros Hd.
  destruct (perform_delivers
              (EditMessageText (py "📋 Получаю основную информацию...")
                 None false) s Hd eq_refl) as (s1 & E1 & A1 & U1).
  destruct (basic_formats repr exn_message
              (fun ids => outside (client_tracks ids)) track_id s1)
    as (info & s2 & out & E2 & Hout).
  destruct (quiet_run s1
              (quiet_get_basic exn_message client_tracks track_id) E2)
    as [A2 U2].
  assert (Hrun :
            exists s' rest,
              basic_branch repr exn_message client_tracks platform track_id s
              = (Ok tt, s') /\
              user_data s' = user_data s /\
              actions s'
              = actions s
                ++ EditMessageText (py "📋 Получаю основную информацию...")
                     None false
                   :: rest /\
              ((has_cover info = false /\
                rest = [EditMessageText out (Some (py "HTML")) false]) \/
               (exists cover,
                   dict_get info (py "cover_url") = Some cover /\
                   truthy cover = true /\
                   ((exists s3,
                        perform_all platform
                          [SendPhoto cover out; DeleteMessage] s2
                        = (Ok tt, s3) /\
                        rest = [SendPhoto cover out; DeleteMessage]) \/
                    (exists n e s3 s4,
                        n < 2 /\
                        perform_all platform
                          (firstn n [SendPhoto cover out; DeleteMessage]) s2
                        = (Ok tt, s3) /\
                        perform_all platform
                          (firstn (S n) [SendPhoto cover out; DeleteMessage])
                          s2
                        = (Raise e, s4) /\
                        rest
                        = firstn (S n) [SendPhoto cover out; DeleteMessage]
                          ++ [EditMessageText out (Some (py "HTML"))
                                false]))))).
  { unfold basic_branch, bindM, try_except, lift, ret, has_cover.
    rewrite E1. cbv beta iota. rewrite E2. cbv beta iota. rewrite Hout.
    cbv beta iota.
    destruct (dict_get info (py "cover_url")) as [cover|] eqn:Hc.
    2: { run_edit Hd s7 A7 U7.
         exists s7, [EditMessageText out (Some (py "HTML")) false].
         split; [reflexivity|]. split; [congruence|].
         split; [log_eq|]. left. split; reflexivity. }
    destruct (truthy cover) eqn:Ht.
    2: { run_edit Hd s7 A7 U7.
         exists s7, [EditMessageText out (Some (py "HTML")) false].
         split; [reflexivity|]. split; [congruence|].
         split; [log_eq|]. left. split; reflexivity. }
    run_perform (SendPhoto cover out) s3 e E3 A3 U3.
    - run_perform DeleteMessage s4 e E4 A4 U4.
      + exists s4, [SendPhoto cover out; DeleteMessage].
        split; [reflexivity|]. split; [congruence|].
        split; [log_eq|]. right. exists cover.
        split; [reflexivity|]. split; [exact Ht|]. left. exists s4.
        split; [|reflexivity].
        cbn [perform_all]. unfold bindM, ret. now rewrite E3, E4.
      + run_edit Hd s7 A7 U7.
        exists s7, [SendPhoto cover out; DeleteMessage;
                    EditMessageText out (Some (py "HTML")) false].
        split; [reflexivity|]. split; [congruence|].
        split; [log_eq|]. right. exists cover.
        split; [reflexivity|]. split; [exact Ht|]. right.
        exists 1, e, s3, s4. split; [lia|].
        split; [|split; [|reflexivity]];
          cbn [perform_all firstn]; unfold bindM, ret;
          rewrite ?E3, ?E4; reflexivity.
    - run_edit Hd s7 A7 U7.
      exists s7, [SendPhoto cover out;
                  EditMessageText out (Some (py "HTML")) false].
      split; [reflexivity|]. split; [congruence|].
      split; [log_eq|]. right. exists cover.
      split; [reflexivity|]. split; [exact Ht|]. right.
      exists 0, e, s2, s3. split; [lia|].
      split; [|split; [|reflexivity]];
        cbn [perform_all firstn]; unfold bindM, ret;
        rewrite ?E3; reflexivity. }
  destruct Hrun as (s' & rest & Er & U & A & Hr).
  exists s', s1, s2, info, out, rest.
  split; [exact Er|]. split; [exact U|]. split; [exact E1|].
  split; [exact E2|]. split; [exact Hout|]. split; [exact A|exact Hr].
Qed.

Lemma basic_branch_shows_text_witness :
  (exists s',
      basic_branch no_repr (fun _ => py "failure") sample_tracks
        sample_platform (py "42") sample_state = (Ok tt, s') /\
      actions s'
      = [EditMessageText (py "📋 Получаю основную информацию...") None false;
         SendPhoto (VStr (py "https://img/400x400"))
           (py "🎵 <b>Song</b>" ++ nl ++ py "👤 <b>Исполнитель:</b> A, B" ++ nl
            ++ py "⏱ <b>Длительность:</b> 3:05" ++ nl);
         DeleteMessage]) /\
  (exists s',
      basic_branch no_repr (fun _ => py "failure") sample_tracks
        no_photo_platform (py "42") sample_state = (Ok tt, s') /\
      actions s'
      = [EditMessageText (py "📋 Получаю основную информацию...") None false;
         SendPhoto (VStr (py "https://img/400x400"))
           (py "🎵 <b>Song</b>" ++ nl ++ py "👤 <b>Исполнитель:</b> A, B" ++ nl
            ++ py "⏱ <b>Длительность:</b> 3:05" ++ nl);
         EditMessageText
           (py "🎵 <b>Song</b>" ++ nl ++ py "👤 <b>Исполнитель:</b> A, B" ++ nl
            ++ py "⏱ <b>Длительность:</b> 3:05" ++ nl)
           (Some (py "HTML")) false]).
Proof.
  split.
  - destruct (@basic_branch_shows_text no_repr (fun _ => py "failure") unit
                sample_tracks sample_platform (py "42") sample_state)
      as (s' & s1 & s2 & info & out & rest & E & _).
    { intros a w _. exists tt. destruct w. reflexivity. }
    exists s'. split; [exact E|].
    assert (Hrun : exists st,
               basic_branch no_repr (fun _ => py "failure") sample_tracks
                 sample_platform (py "42") sample_state = (Ok tt, st) /\
               actions st
               = [EditMessageText (py "📋 Получаю основную информацию...")
                    None false;
                  SendPhoto (VStr (py "https://img/400x400"))
                    (py "🎵 <b>Song</b>" ++ nl
                     ++ py "👤 <b>Исполнитель:</b> A, B" ++ nl
                     ++ py "⏱ <b>Длительность:</b> 3:05" ++ nl);
                  DeleteMessage])
      by (eexists; split; vm_compute; reflexivity).
    destruct Hrun as (st & Hst & Ha). rewrite Hst in E.
    injection E as <-. exact Ha.
  - destruct (@basic_branch_shows_text no_repr (fun _ => py "failure") unit
                sample_tracks no_photo_platform (py "42") sample_state)
      as (s' & s1 & s2 & info & out & rest & E & _).
    { intros a w Ha. destruct a; try discriminate Ha.
      exists tt. destruct w. reflexivity. }
    exists s'. split; [exact E|].
    assert (Hrun : exists st,
               basic_branch no_repr (fun _ => py "failure") sample_tracks
                 no_photo_platform (py "42") sample_state = (Ok tt, st) /\
               actions st
               = [EditMessageText (py "📋 Получаю основную информацию...")
                    None false;
                  SendPhoto (VStr (py "https://img/400x400"))
                    (py "🎵 <b>Song</b>" ++ nl
                     ++ py "👤 <b>Исполнитель:</b> A, B" ++ nl
                     ++ py "⏱ <b>Длительность:</b> 3:05" ++ nl);
                  EditMessageText
                    (py "🎵 <b>Song</b>" ++ nl
                     ++ py "👤 <b>Исполнитель:</b> A, B" ++ nl
                     ++ py "⏱ <b>Длительность:</b> 3:05" ++ nl)
                    (Some (py "HTML")) false])
      by (eexists; split; vm_compute; reflexivity).
    destruct Hrun as (st & Hst & Ha). rewrite Hst in E.
    injection E as <-. exact Ha.
Defined.

(** X23.  The branch ['extended'] of [button_callback], on a platform
    that carries out the edits of the message: the branch returns,
    whatever the provider and the other requests do.  Without a cover
    the message is edited to the text of [format_extended_info].  With a
    cover the text goes out as the caption of the photo if it has at
    most 1000 characters, and otherwise as a message of its own after a
    photo with the short caption; then the notice is deleted, and that
    is all when the platform carries out each of these requests.  When
    it refuses one of them, nothing after it is tried, the error is
    printed and the message is edited to the text twice in a row: once
    in the handler of the exception and once more after it. *)
Theorem extended_branch_shows_text
  (repr : value -> str) (exn_message : exn -> str)
  (format_megabytes : Z -> result str) (World : Type)
  (client_tracks : list str -> M World (list Track))
  (client_albums_with_tracks : value -> M World (option AlbumWithTracks))
  (client_artists : value -> M World (list ArtistData))
  (client_tracks_similar : str -> M World (option SimilarTracks))
  (client_chart_tracks : str -> M World (list ChartItem))
  (platform : action -> M World unit) (track_id : str)
  (s : bot_state World) :
  delivers platform is_edit ->
  exists s' s1 s2 s3 basic_info track_info out rest,
    extended_branch repr exn_message format_megabytes client_tracks
      client_albums_with_tracks client_artists client_tracks_similar
      client_chart_tracks platform track_id s = (Ok tt, s') /\
    user_data s' = user_data s /\
    perform platform
      (EditMessageText (py "📊 Получаю расширенную информацию...") None false)
      s = (Ok tt, s1) /\
    get_basic_track_info exn_message (fun ids => outside (client_tracks ids))
      track_id s1 = (Ok basic_info, s2) /\
    get_extended_track_info exn_message format_megabytes
      (fun ids => outside (client_tracks ids))
      (fun id => outside (client_albums_with_tracks id))
      (fun id => outside (client_artists id))
      (fun id => outside (client_tracks_similar id))
      (fun name => outside (client_chart_tracks name))
      track_id
      (if negb (dict_has basic_info (py "error"))
       then dict_get_default basic_info (py "album_id") VNone
       else VNone) s2 = (Ok track_info, s3) /\
    format_extended_info repr track_info = Ok out /\
    actions s'
    = actions s
      ++ EditMessageText (py "📊 Получаю расширенную информацию...") None
           false
         :: rest /\
    ((has_cover basic_info = false /\
      rest = [EditMessageText out (Some (py "HTML")) true]) \/
     (exists cover,
         dict_get basic_info (py "cover_url") = Some cover /\
         truthy cover = true /\
         ((exists s4,
              perform_all platform
                (photo_part repr basic_info cover out ++ [DeleteMessage]) s3
              = (Ok tt, s4) /\
              rest = photo_part repr basic_info cover out ++ [DeleteMessage]) \/
          (exists n e s4 s5,
              n < List.length (photo_part repr basic_info cover out
                               ++ [DeleteMessage]) /\
              perform_all platform
                (firstn n (photo_part repr basic_info cover out
                           ++ [DeleteMessage])) s3
              = (Ok tt, s4) /\
              perform_all platform
                (firstn (S n) (photo_part repr basic_info cover out
                               ++ [DeleteMessage])) s3
              = (Raise e, s5) /\
              rest
              = firstn (S n) (photo_part repr basic_info cover out
                              ++ [DeleteMessage])
                ++ [PrintLine (py "Ошибка при отправке фото: "
                                 ++ exn_message e);
                    EditMessageText out (Some (py "HTML")) true;
                    EditMessageText out (Some (py "HTML")) true])))).
Proof.
  intros Hd.
  destruct (perform_delivers
              (EditMessageText (py "📊 Получаю расширенную информацию...")
                 None false) s Hd eq_refl) as (s1 & E1 & A1 & U1).
  destruct (basic_formats repr exn_message
              (fun ids => outside (client_tracks ids)) track_id s1)
    as (binfo & s2 & out0 & E2 & _).
  destruct (quiet_run s1
              (quiet_get_basic exn_message client_tracks track_id) E2)
    as [A2 U2].
  set (album_id := if negb (dict_has binfo (py "error"))
                   then dict_get_default binfo (py "album_id") VNone
                   else VNone).
  destruct (extended_formats repr exn_message format_megabytes
              (fun ids => outside (client_tracks ids))
              (fun id => outside (client_albums_with_tracks id))
              (fun id => outside (client_artists id))
              (fun id => outside (client_tracks_similar id))
              (fun name => outside (client_chart_tracks name))
              track_id album_id s2)
    as (tinfo & s3 & out & E3 & Hout).
  destruct (quiet_run s2
              (quiet_get_extended exn_message format_megabytes client_tracks
                 client_albums_with_tracks client_artists
                 client_tracks_similar client_chart_tracks track_id album_id)
              E3) as [A3 U3].
  assert (Hrun :
            exists s' rest,
              extended_branch repr exn_message format_megabytes client_tracks
                client_albums_with_tracks client_artists
                client_tracks_similar client_chart_tracks platform track_id s
              = (Ok tt, s') /\
              user_data s' = user_data s /\
              actions s'
              = actions s
                ++ EditMessageText
                     (py "📊 Получаю расширенную информацию...") None false
                   :: rest /\
              ((has_cover binfo = false /\
                rest = [EditMessageText out (Some (py "HTML")) true]) \/
               (exists cover,
                   dict_get binfo (py "cover_url") = Some cover /\
                   truthy cover = true /\
                   ((exists s4,
                        perform_all platform
                          (photo_part repr binfo cover out
                           ++ [DeleteMessage]) s3
                        = (Ok tt, s4) /\
                        rest = photo_part repr binfo cover out
                               ++ [DeleteMessage]) \/
                    (exists n e s4 s5,
                        n < List.length (photo_part repr binfo cover out
                                         ++ [DeleteMessage]) /\
                        perform_all platform
                          (firstn n (photo_part repr binfo cover out
                                     ++ [DeleteMessage])) s3
                        = (Ok tt, s4) /\
                        perform_all platform
                          (firstn (S n) (photo_part repr binfo cover out
                                         ++ [DeleteMessage])) s3
                        = (Raise e, s5) /\
                        rest
                        = firstn (S n) (photo_part repr binfo cover out
                                        ++ [DeleteMessage])
                          ++ [PrintLine (py "Ошибка при отправке фото: "
                                           ++ exn_message e);
                              EditMessageText out (Some (py "HTML")) true;
                              EditMessageText out (Some (py "HTML"))
                                true]))))).
  { unfold extended_branch, bindM, try_except, lift, ret, note, has_cover.
    rewrite E1. cbv beta iota zeta. fold album_id. rewrite E2.
    cbv beta iota. fold album_id. rewrite E3. cbv beta iota. rewrite Hout.
    cbv beta iota.
    destruct (dict_get binfo (py "cover_url")) as [cover|] eqn:Hc.
    2: { run_edit Hd s7 A7 U7.
         exists s7, [EditMessageText out (Some (py "HTML")) true].
         split; [reflexivity|]. split; [congruence|].
         split; [log_eq|]. left. split; reflexivity. }
    destruct (truthy cover) eqn:Ht.
    2: { run_edit Hd s7 A7 U7.
         exists s7, [EditMessageText out (Some (py "HTML")) true].
         split; [reflexivity|]. split; [congruence|].
         split; [log_eq|]. left. split; reflexivity. }
    unfold photo_part.
    destruct (1000 <? Z.of_nat (List.length out))%Z eqn:Hlen;
      cbn [List.app List.length].
    - run_perform (SendPhoto cover (short_caption repr binfo)) s4 e E4 A4 U4.
      + run_perform (SendMessage out) s5 e E5 A5 U5.
        * run_perform DeleteMessage s6 e E6 A6 U6.
          -- exists s6, [SendPhoto cover (short_caption repr binfo);
                         SendMessage out; DeleteMessage].
             split; [reflexivity|]. split; [congruence|].
             split; [log_eq|]. right. exists cover.
             split; [reflexivity|]. split; [exact Ht|]. left. exists s6.
             split; [|reflexivity].
             cbn [perform_all]. unfold bindM, ret.
             now rewrite E4, E5, E6.
          -- run_edit Hd s7 A7 U7. run_edit Hd s8 A8 U8.
             exists s8, [SendPhoto cover (short_caption repr binfo);
                         SendMessage out; DeleteMessage;
                         PrintLine (py "Ошибка при отправке фото: "
                                      ++ exn_message e);
                         EditMessageText out (Some (py "HTML")) true;
                         EditMessageText out (Some (py "HTML")) true].
             split; [reflexivity|]. split; [congruence|].
             split; [log_eq|]. right. exists cover.
             split; [reflexivity|]. split; [exact Ht|]. right.
             exists 2, e, s5, s6. split; [lia|].
             split; [|split; [|reflexivity]];
               cbn [perform_all firstn]; unfold bindM, ret;
               rewrite ?E4, ?E5, ?E6; reflexivity.
        * run_edit Hd s7 A7 U7. run_edit Hd s8 A8 U8.
          exists s8, [SendPhoto cover (short_caption repr binfo);
                      SendMessage out;
                      PrintLine (py "Ошибка при отправке фото: "
                                   ++ exn_message e);
                      EditMessageText out (Some (py "HTML")) true;
                      EditMessageText out (Some (py "HTML")) true].
          split; [reflexivity|]. split; [congruence|].
          split; [log_eq|]. right. exists cover.
          split; [reflexivity|]. split; [exact Ht|]. right.
          exists 1, e, s4, s5. split; [lia|].
          split; [|split; [|reflexivity]];
            cbn [perform_all firstn]; unfold bindM, ret;
            rewrite ?E4, ?E5; reflexivity.
      + run_edit Hd s7 A7 U7. run_edit Hd s8 A8 U8.
        exists s8, [SendPhoto cover (short_caption repr binfo);
                    PrintLine (py "Ошибка при отправке фото: "
                                 ++ exn_message e);
                    EditMessageText out (Some (py "HTML")) true;
                    EditMessageText out (Some (py "HTML")) true].
        split; [reflexivity|]. split; [congruence|].
        split; [log_eq|]. right. exists cover.
        split; [reflexivity|]. split; [exact Ht|]. right.
        exists 0, e, s3, s4. split; [lia|].
        split; [|split; [|reflexivity]];
          cbn [perform_all firstn]; unfold bindM, ret;
          rewrite ?E4; reflexivity.
    - run_perform (SendPhoto cover out) s4 e E4 A4 U4.
      + run_perform DeleteMessage s6 e E6 A6 U6.
        * exists s6, [SendPhoto cover out; DeleteMessage].
          split; [reflexivity|]. split; [congruence|].
          split; [log_eq|]. right. exists cover.
          split; [reflexivity|]. split; [exact Ht|]. left. exists s6.
          split; [|reflexivity].
          cbn [perform_all]. unfold bindM, ret. now rewrite E4, E6.
        * run_edit Hd s7 A7 U7. run_edit Hd s8 A8 U8.
          exists s8, [SendPhoto cover out; DeleteMessage;
                      PrintLine (py "Ошибка при отправке фото: "
                                   ++ exn_message e);
                      EditMessageText out (Some (py "HTML")) true;
                      EditMessageText out (Some (py "HTML")) true].
          split; [reflexivity|]. split; [congruence|].
          split; [log_eq|]. right. exists cover.
          split; [reflexivity|]. split; [exact Ht|]. right.
          exists 1, e, s4, s6. split; [lia|].
          split; [|split; [|reflexivity]];
            cbn [perform_all firstn]; unfold bindM, ret;
            rewrite ?E4, ?E6; reflexivity.
      + run_edit Hd s7 A7 U7. run_edit Hd s8 A8 U8.
        exists s8, [SendPhoto cover out;
                    PrintLine (py "Ошибка при отправке фото: "
                                 ++ exn_message e);
                    EditMessageText out (Some (py "HTML")) true;
                    EditMessageText out (Some (py "HTML")) true].
        split; [reflexivity|]. split; [congruence|].
        split; [log_eq|]. right. exists cover.
        split; [reflexivity|]. split; [exact Ht|]. right.
        exists 0, e, s3, s4. split; [lia|].
        split; [|split; [|reflexivity]];
          cbn [perform_all firstn]; unfold bindM, ret;
          rewrite ?E4; reflexivity. }
  destruct Hrun as (s' & rest & Er & U & A & Hr).
  exists s', s1, s2, s3, binfo, tinfo, out, rest.
  split; [exact Er|]. split; [exact U|]. split; [exact E1|].
  split; [exact E2|]. split; [exact E3|]. split; [exact Hout|].
  split; [exact A|exact Hr].
Qed.

Lemma extended_branch_shows_text_witness :
  (exists s' out,
      extended_branch no_repr (fun _ => py "failure")
        (fun _ => Ok (py "0.00")) sample_tracks sample_albums_with_tracks
        sample_artists sample_tracks_similar sample_chart_tracks
        sample_platform (py "42") sample_state = (Ok tt, s') /\
      actions s'
      = [EditMessageText (py "📊 Получаю расширенную информацию...") None
           false;
         SendPhoto (VStr (py "https://img/400x400")) out;
         DeleteMessage]) /\
  (exists s' out,
      extended_branch no_repr (fun _ => py "failure")
        (fun _ => Ok (py "0.00")) sample_tracks sample_albums_with_tracks
        sample_artists sample_tracks_similar sample_chart_tracks
        no_photo_platform (py "42") sample_state = (Ok tt, s') /\
      actions s'
      = [EditMessageText (py "📊 Получаю расширенную информацию...") None
           false;
         SendPhoto (VStr (py "https://img/400x400")) out;
         PrintLine (py "Ошибка при отправке фото: " ++ py "failure");
         EditMessageText out (Some (py "HTML")) true;
         EditMessageText out (Some (py "HTML")) true]).
Proof.
  split.
  - destruct (@extended_branch_shows_text no_repr (fun _ => py "failure")
                (fun _ => Ok (py "0.00")) unit sample_tracks
                sample_albums_with_tracks sample_artists
                sample_tracks_similar sample_chart_tracks sample_platform
                (py "42") sample_state)
      as (s' & s1 & s2 & s3 & binfo & tinfo & out & rest & E & _).
    { intros a w _. exists tt. destruct w. reflexivity. }
    assert (Hrun : exists st o,
               extended_branch no_repr (fun _ => py "failure")
                 (fun _ => Ok (py "0.00")) sample_tracks
                 sample_albums_with_tracks sample_artists
                 sample_tracks_similar sample_chart_tracks sample_platform
                 (py "42") sample_state = (Ok tt, st) /\
               actions st
               = [EditMessageText
                    (py "📊 Получаю расширенную информацию...") None false;
                  SendPhoto (VStr (py "https://img/400x400")) o;
                  DeleteMessage])
      by (do 2 eexists; split; vm_compute; reflexivity).
    destruct Hrun as (st & o & Hst & Ha). rewrite Hst in E.
    injection E as <-. exists st, o. split; [exact Hst|exact Ha].
  - destruct (@extended_branch_shows_text no_repr (fun _ => py "failure")
                (fun _ => Ok (py "0.00")) unit sample_tracks
                sample_albums_with_tracks sample_artists
                sample_tracks_similar sample_chart_tracks no_photo_platform
                (py "42") sample_state)
      as (s' & s1 & s2 & s3 & binfo & tinfo & out & rest & E & _).
    { intros a w Ha. destruct a; try discriminate Ha.
      exists tt. destruct w. reflexivity. }
    assert (Hrun : exists st o,
               extended_branch no_repr (fun _ => py "failure")
                 (fun _ => Ok (py "0.00")) sample_tracks
                 sample_albums_with_tracks sample_artists
                 sample_tracks_similar sample_chart_tracks no_photo_platform
                 (py "42") sample_state = (Ok tt, st) /\
               actions st
               = [EditMessageText
                    (py "📊 Получаю расширенную информацию...") None false;
                  SendPhoto (VStr (py "https://img/400x400")) o;
                  PrintLine (py "Ошибка при отправке фото: " ++ py "failure");
                  EditMessageText o (Some (py "HTML")) true;
                  EditMessageText o (Some (py "HTML")) true])
      by (do 2 eexists; split; vm_compute; reflexivity).
    destruct Hrun as (st & o & Hst & Ha). rewrite Hst in E.
    injection E as <-. exists st, o. split; [exact Hst|exact Ha].
Defined.

(** X21.  What [handle_message] of the first variant does with a
    message, when the platform carries out the replies: it answers and
    returns, and never touches [user_data].  A text without the two
    keywords gets the prompt; a text with them gets the notice and then
    either the notice of failure, when no identifier is found, or, as
    HTML, the text that [get_track_info] returns for the identifier;
    nothing the provider does makes the handler fail.  Which of the
    three it is, is fixed by the text: the keyword test and the
    extractor. *)
Theorem first_variant_replies
  (nd : N -> bool) (nonascii_lower : str -> nat -> str)
  (repr : value -> str) (exn_message : exn -> str) (World : Type)
  (client_tracks : list str -> M World (list Track))
  (platform : action -> M World unit) (text : str) (s : bot_state World) :
  delivers platform is_reply ->
  exists s',
    Main.handle_message nd nonascii_lower repr exn_message client_tracks
      platform text s = (Ok tt, s') /\
    user_data s' = user_data s /\
    ((str_contains (py "yandex") (py_lower nonascii_lower text)
      && str_contains (py "music") (py_lower nonascii_lower text) = false /\
      actions s'
      = actions s
        ++ [ReplyText
              (py "📎 Отправьте мне ссылку на трек из Яндекс.Музыки." ++ nl
               ++ py "Используйте /start для справки.")]) \/
     (str_contains (py "yandex") (py_lower nonascii_lower text)
      && str_contains (py "music") (py_lower nonascii_lower text) = true /\
      extract_track_id nd text = None /\
      actions s'
      = actions s
        ++ [ReplyText (py "Обрабатываю ссылку...");
            ReplyText (py "❌ Не удалось извлечь ID трека из ссылки.")]) \/
     (exists id out s1 s2,
         str_contains (py "yandex") (py_lower nonascii_lower text)
         && str_contains (py "music") (py_lower nonascii_lower text) = true /\
         extract_track_id nd text = Some id /\
         perform platform (ReplyText (py "Обрабатываю ссылку...")) s
         = (Ok tt, s1) /\
         get_track_info repr exn_message
           (fun ids => outside (client_tracks ids)) id s1 = (Ok out, s2) /\
         actions s'
         = actions s
           ++ [ReplyText (py "Обрабатываю ссылку..."); ReplyHtml out])).
Proof.
  intros Hd. unfold Main.handle_message.
  destruct (str_contains (py "yandex") (py_lower nonascii_lower text)
            && str_contains (py "music") (py_lower nonascii_lower text)).
  - unfold bindM at 1.
    destruct (perform_delivers
                (ReplyText (py "Обрабатываю ссылку...")) s Hd eq_refl)
      as (s1 & E1 & A1 & U1).
    rewrite E1.
    destruct (extract_track_id nd text) as [id|] eqn:E.
    + destruct (@extract_track_id_shape nd text id E) as (Hne & _).
      destruct id as [|c id]; [congruence|].
      assert (Ht : exists out s2,
                 get_track_info repr exn_message
                   (fun ids => outside (client_tracks ids)) (c :: id) s1
                 = (Ok out, s2)).
      { unfold get_track_info. apply try_ret_total. }
      destruct Ht as (out & s2 & E2).
      destruct (quiet_run s1
                  (quiet_get_track_info repr exn_message client_tracks
                     (c :: id)) E2) as [A2 U2].
      unfold bindM. rewrite E2.
      destruct (perform_delivers (ReplyHtml out) s2 Hd eq_refl)
        as (s3 & -> & A3 & U3).
      exists s3. split; [reflexivity|]. split; [congruence|].
      right. right. exists (c :: id), out, s1, s2. split; [reflexivity|].
      split; [reflexivity|].
      split; [first [exact E1|reflexivity]|]. split; [exact E2|].
      rewrite A3, A2, A1, <- app_assoc. reflexivity.
    + destruct (perform_delivers
                  (ReplyText
                     (py "❌ Не удалось извлечь ID трека из ссылки."))
                  s1 Hd eq_refl) as (s2 & -> & A2 & U2).
      exists s2. split; [reflexivity|]. split; [congruence|].
      right. left. split; [reflexivity|]. split; [reflexivity|].
      rewrite A2, A1, <- app_assoc. reflexivity.
  - destruct (perform_delivers
                (ReplyText
                   (py "📎 Отправьте мне ссылку на трек из Яндекс.Музыки."
                    ++ nl ++ py "Используйте /start для справки."))
                s Hd eq_refl) as (s1 & -> & A1 & U1).
    exists s1. split; [reflexivity|]. split; [exact U1|]. left. auto.
Qed.

Lemma first_variant_replies_witness :
  exists s',
    Main.handle_message ascii_only (fun _ _ => []) no_repr
      (fun _ => py "failure") sample_tracks sample_platform
      (py "https://music.yandex.ru/album/5/track/42") sample_state
    = (Ok tt, s') /\
    actions s'
    = [ReplyText (py "Обрабатываю ссылку...");
       ReplyHtml (py "<b>Название Song</b>" ++ nl
                  ++ py "<b>Исполнитель:</b> A, B" ++ nl
                  ++ py "<b>Длительность:</b> 3:05" ++ nl)].
Proof.
  destruct (@first_variant_replies ascii_only (fun _ _ => []) no_repr
              (fun _ => py "failure") unit sample_tracks sample_platform
              (py "https://music.yandex.ru/album/5/track/42") sample_state)
    as (s' & E & _).
  { intros a w _. exists tt. destruct w. reflexivity. }
  exists s'. split; [exact E|].
  assert (Hrun : Main.handle_message ascii_only (fun _ _ => []) no_repr
                   (fun _ => py "failure") sample_tracks sample_platform
                   (py "https://music.yandex.ru/album/5/track/42")
                   sample_state
                 = (Ok tt,
                    {| world := tt;
                       actions :=
                         [ReplyText (py "Обрабатываю ссылку...");
                          ReplyHtml (py "<b>Название Song</b>" ++ nl
                                     ++ py "<b>Исполнитель:</b> A, B" ++ nl
                                     ++ py "<b>Длительность:</b> 3:05" ++ nl)];
                       user_data := [] |}))
    by (vm_compute; reflexivity).
  rewrite Hrun in E. injection E as <-. reflexivity.
Defined.

(** ** From the formatter back to the extractor *)

(** X24.  The extended text ends with the link to the track, and the
    bot reads its own link: for an identifier of decimal digits, the
    last line of the text of [format_extended_info] gives this
    identifier back through [extract_track_id]. *)
Theorem extended_text_link_reads_back
  (repr : value -> str) (nd : N -> bool) (info : dict) (out id : str) :
  dict_has info (py "error") = false ->
  format_extended_info repr info = Ok out ->
  dict_get info (py "track_id") = Some (VStr id) ->
  id <> [] -> forallb (is_decimal nd) id = true ->
  exists before,
    out = before ++ nl
          ++ py "🎧 <a href='https://music.yandex.ru/track/" ++ id
          ++ py "'>Слушать на Яндекс.Музыке</a>" /\
    extract_track_id nd
      (py "🎧 <a href='https://music.yandex.ru/track/" ++ id
       ++ py "'>Слушать на Яндекс.Музыке</a>") = Some id.
Proof.
  intros He Hout Hid Hne Hds.
  unfold format_extended_info in Hout. rewrite He in Hout.
  destruct (basic_block repr info) as [t0|]; cbn [bind] in Hout;
    [|discriminate].
  destruct (artists_block repr info t0) as [t1|]; cbn [bind] in Hout;
    [|discriminate].
  destruct (album_block repr info t1) as [t2|]; cbn [bind] in Hout;
    [|discriminate].
  destruct (technical_block repr info t2) as [t3|]; cbn [bind] in Hout;
    [|discriminate].
  destruct (similar_block repr info t3) as [t4|]; cbn [bind] in Hout;
    [|discriminate].
  destruct (chart_block repr info t4) as [t5|]; cbn [bind] in Hout;
    [|discriminate].
  unfold links_block, dict_getitem in Hout. rewrite Hid in Hout.
  destruct (dict_get info (py "cover_url")) as [cover|]; cbn [bind] in Hout;
    [|discriminate].
  assert (Hb : exists before,
             out = before ++ nl
                   ++ py "🎧 <a href='https://music.yandex.ru/track/" ++ id
                   ++ py "'>Слушать на Яндекс.Музыке</a>").
  { destruct (truthy cover); cbn [bind py_str] in Hout;
      injection Hout as <-; eexists; reflexivity. }
  destruct Hb as (before & ->). exists before. split; [reflexivity|].
  unfold extract_track_id, patterns. cbn [first_match].
  replace (py "🎧 <a href='https://music.yandex.ru/track/" ++ id
           ++ py "'>Слушать на Яндекс.Музыке</a>")
    with (py "🎧 <a href='https://music.yandex.ru/" ++ py "track/" ++ id
          ++ py "'>Слушать на Яндекс.Музыке</a>")
    by (vm_compute; reflexivity).
  rewrite (search_skip nd track_pattern (py "🎧 <a href='https://music.yandex.ru/"))
    by (vm_compute; reflexivity).
  rewrite track_link_match; [reflexivity|exact Hne|exact Hds|].
  vm_compute. reflexivity.
Qed.

Lemma extended_text_link_reads_back_witness :
  exists d out,
    sample_extended = (Ok d, tt) /\
    format_extended_info no_repr d = Ok out /\
    exists before,
      out = before ++ nl
            ++ py "🎧 <a href='https://music.yandex.ru/track/" ++ py "42"
            ++ py "'>Слушать на Яндекс.Музыке</a>" /\
      extract_track_id ascii_only
        (py "🎧 <a href='https://music.yandex.ru/track/" ++ py "42"
         ++ py "'>Слушать на Яндекс.Музыке</a>") = Some (py "42").
Proof.
  assert (H : exists d out,
             sample_extended = (Ok d, tt) /\
             dict_has d (py "error") = false /\
             format_extended_info no_repr d = Ok out /\
             dict_get d (py "track_id") = Some (VStr (py "42"))).
  { do 2 eexists. split; [vm_compute; reflexivity|].
    split; [vm_compute; reflexivity|].
    split; vm_compute; reflexivity. }
  destruct H as (d & out & E & He & Hout & Hid).
  exists d, out. split; [exact E|]. split; [exact Hout|].
  apply (@extended_text_link_reads_back no_repr ascii_only d out (py "42")
           He Hout Hid); [discriminate|vm_compute; reflexivity].
Defined.
